(** * Global GDP Explorer (app.js): data pipeline, metrics, map and rankings

    A shallow embedding of the algorithmic parts of [src/app.js] (the
    second, current revision in that file: four raw stores, US state
    merge, price basis switch, global rankings).

    Modelling conventions.
    - A JavaScript string is a [string]: a sequence of code units.  The
      built-ins that classify or map code units ([trim], [\s],
      [toUpperCase], [toLowerCase]) are modelled on the ASCII range;
      code units above 127 are neither white space nor cased.
    - A JavaScript number is a [jsnum]: [NaN], the two infinities, or a
      finite value carried as a real number.  Rounding to binary64 and
      the sign of zero are not modelled: arithmetic on finite values is
      exact.
    - A JavaScript object used as a dictionary is a [jsobj]: its own
      properties in insertion order (the order [Object.keys] reports for
      keys that are not array indices); every property name is an
      ordinary one (the accessor [__proto__] is not modelled). *)

From Stdlib Require Import Bool Arith ZArith List String Ascii Lia.
From Stdlib Require Import DecimalString DecimalPos Reals Lra Permutation Sorted.
Import ListNotations.
Local Open Scope string_scope.

(* ================================================================== *)
(** ** Strings *)
(* ================================================================== *)

Module Str.

(** White space and line terminators removed by [String.prototype.trim]
    and matched by the regular expression class [\s] (ASCII range):
    TAB, LF, VT, FF, CR and SPACE. *)
Definition isWhiteSpace (c : ascii) : bool :=
  let n := nat_of_ascii c in
  ((9 <=? n)%nat && (n <=? 13)%nat) || (n =? 32)%nat.

Fixpoint trimStart (s : string) : string :=
  match s with
  | EmptyString => EmptyString
  | String c s' => if isWhiteSpace c then trimStart s' else s
  end.

Fixpoint trimEnd (s : string) : string :=
  match s with
  | EmptyString => EmptyString
  | String c s' =>
      match trimEnd s' with
      | EmptyString => if isWhiteSpace c then EmptyString else String c EmptyString
      | r => String c r
      end
  end.

(** [s.trim()] *)
Definition trim (s : string) : string := trimStart (trimEnd s).

(** [s.split(sep)] for a one-character separator; never empty. *)
Fixpoint split (sep : ascii) (s : string) : list string :=
  match s with
  | EmptyString => [EmptyString]
  | String c s' =>
      if Ascii.eqb c sep then EmptyString :: split sep s'
      else match split sep s' with
           | h :: t => String c h :: t
           | [] => [String c EmptyString]
           end
  end.

Definition isLower (c : ascii) : bool :=
  let n := nat_of_ascii c in (97 <=? n)%nat && (n <=? 122)%nat.

Definition isUpper (c : ascii) : bool :=
  let n := nat_of_ascii c in (65 <=? n)%nat && (n <=? 90)%nat.

Definition upperChar (c : ascii) : ascii :=
  if isLower c then ascii_of_nat (nat_of_ascii c - 32) else c.

Definition lowerChar (c : ascii) : ascii :=
  if isUpper c then ascii_of_nat (nat_of_ascii c + 32) else c.

Fixpoint mapChars (f : ascii -> ascii) (s : string) : string :=
  match s with
  | EmptyString => EmptyString
  | String c s' => String (f c) (mapChars f s')
  end.

(** [s.toUpperCase()] and [s.toLowerCase()] *)
Definition toUpperCase : string -> string := mapChars upperChar.
Definition toLowerCase : string -> string := mapChars lowerChar.

(** [s.replace(/\s+/g, '_')]: every maximal run of white space becomes
    one underscore. *)
Fixpoint replaceSpaces (s : string) : string :=
  match s with
  | EmptyString => EmptyString
  | String c s' =>
      if isWhiteSpace c then
        match s' with
        | String d _ => if isWhiteSpace d then replaceSpaces s'
                        else String "_" (replaceSpaces s')
        | EmptyString => String "_" EmptyString
        end
      else String c (replaceSpaces s')
  end.

(** [s.replace(/^"|"$/g, '')]: one leading and one trailing double
    quote are removed. *)
Definition dquote : ascii := ascii_of_nat 34.

Fixpoint stripTrailingQuote (s : string) : string :=
  match s with
  | EmptyString => EmptyString
  | String c EmptyString => if Ascii.eqb c dquote then EmptyString else s
  | String c s' => String c (stripTrailingQuote s')
  end.

Definition stripOuterQuotes (s : string) : string :=
  match s with
  | String c s' => if Ascii.eqb c dquote then stripTrailingQuote s'
                   else stripTrailingQuote s
  | EmptyString => EmptyString
  end.

(** [s.startsWith(p)] and [s.includes(p)] *)
Fixpoint startsWith (p s : string) : bool :=
  match p, s with
  | EmptyString, _ => true
  | String a p', String b s' => Ascii.eqb a b && startsWith p' s'
  | String _ _, EmptyString => false
  end.

Fixpoint includes (p s : string) : bool :=
  startsWith p s ||
  match s with
  | EmptyString => false
  | String _ s' => includes p s'
  end.

(** [s + c] for one code unit. *)
Definition snoc (s : string) (c : ascii) : string := s ++ String c EmptyString.

End Str.

(* ================================================================== *)
(** ** Numbers and values *)
(* ================================================================== *)

(** A JavaScript number. *)
Inductive jsnum : Type :=
| NaN
| PInf
| NInf
| Fin (r : R).

(** A JavaScript value as far as the pipeline stores one in a series:
    [undefined], [null] or a number. *)
Inductive jsval : Type :=
| JUndefined
| JNull
| JNum (n : jsnum).

Module Num.

Definition zero : jsnum := Fin 0%R.

Definition isNaN (n : jsnum) : bool :=
  match n with NaN => true | _ => false end.

(** Sign of a number that is not NaN: [Lt], [Eq] or [Gt] with respect
    to zero. *)
Definition sign (n : jsnum) : option comparison :=
  match n with
  | NaN => None
  | PInf => Some Gt
  | NInf => Some Lt
  | Fin r => Some (if Rlt_dec r 0 then Lt else if Rlt_dec 0 r then Gt else Eq)
  end.

Definition neg (n : jsnum) : jsnum :=
  match n with
  | NaN => NaN
  | PInf => NInf
  | NInf => PInf
  | Fin r => Fin (- r)
  end.

(** [a + b] *)
Definition add (a b : jsnum) : jsnum :=
  match a, b with
  | NaN, _ | _, NaN => NaN
  | PInf, NInf | NInf, PInf => NaN
  | PInf, _ | _, PInf => PInf
  | NInf, _ | _, NInf => NInf
  | Fin x, Fin y => Fin (x + y)
  end.

(** [a - b] *)
Definition sub (a b : jsnum) : jsnum := add a (neg b).

(** The infinity carrying the product of two signs; NaN when one
    factor is zero. *)
Definition infOfSigns (sa sb : option comparison) : jsnum :=
  match sa, sb with
  | Some Gt, Some Gt | Some Lt, Some Lt => PInf
  | Some Gt, Some Lt | Some Lt, Some Gt => NInf
  | _, _ => NaN
  end.

(** [a * b] *)
Definition mul (a b : jsnum) : jsnum :=
  match a, b with
  | Fin x, Fin y => Fin (x * y)
  | _, _ => infOfSigns (sign a) (sign b)
  end.

(** [a / b]; a finite value over an infinity is zero, a nonzero value
    over zero is an infinity, zero over zero is NaN. *)
Definition div (a b : jsnum) : jsnum :=
  match a, b with
  | NaN, _ | _, NaN => NaN
  | Fin x, Fin y =>
      if Req_dec_T y 0 then infOfSigns (sign a) (Some Gt) else Fin (x / y)
  | Fin _, _ => zero
  | _, Fin y => infOfSigns (sign a) (if Req_dec_T y 0 then Some Gt else sign b)
  | _, _ => NaN
  end.

(** [a < b] and [a > b]; false when either side is NaN. *)
Definition lt (a b : jsnum) : bool :=
  match a, b with
  | NaN, _ | _, NaN => false
  | _, NInf | PInf, _ => false
  | NInf, _ | _, PInf => true
  | Fin x, Fin y => if Rlt_dec x y then true else false
  end.

Definition gt (a b : jsnum) : bool := lt b a.

(** [Math.min(a, b)] and [Math.max(a, b)] *)
Definition Math_min (a b : jsnum) : jsnum :=
  match a, b with
  | NaN, _ | _, NaN => NaN
  | _, _ => if lt b a then b else a
  end.

Definition Math_max (a b : jsnum) : jsnum :=
  match a, b with
  | NaN, _ | _, NaN => NaN
  | _, _ => if lt a b then b else a
  end.

(** [Math.floor(a)] *)
Definition Math_floor (a : jsnum) : jsnum :=
  match a with
  | Fin r => Fin (IZR (Int_part r))
  | _ => a
  end.

(** [Math.log(a)]: NaN below zero, minus infinity at zero. *)
Definition Math_log (a : jsnum) : jsnum :=
  match a with
  | NaN | NInf => NaN
  | PInf => PInf
  | Fin r => if Rlt_dec r 0 then NaN
             else if Req_dec_T r 0 then NInf
             else Fin (ln r)
  end.

(** [Math.tan(a)] *)
Definition Math_tan (a : jsnum) : jsnum :=
  match a with
  | Fin r => Fin (tan r)
  | _ => NaN
  end.

(** [Math.PI] *)
Definition Math_PI : jsnum := Fin PI.

Definition ofZ (z : Z) : jsnum := Fin (IZR z).

End Num.

Module Val.

(** Truthiness: [undefined], [null], zero and NaN are falsy. *)
Definition truthy (v : jsval) : bool :=
  match v with
  | JUndefined | JNull => false
  | JNum NaN => false
  | JNum (Fin r) => if Req_dec_T r 0 then false else true
  | JNum _ => true
  end.

(** ToNumber on a value: [null] is 0, [undefined] is NaN. *)
Definition toNumber (v : jsval) : jsnum :=
  match v with
  | JUndefined => NaN
  | JNull => Num.zero
  | JNum n => n
  end.

(** [v || d] where [d] is a number, as a number. *)
Definition orNum (v : jsval) (d : jsnum) : jsnum :=
  if truthy v then toNumber v else d.

(** [v !== null && v !== undefined] *)
Definition isPresent (v : jsval) : bool :=
  match v with
  | JUndefined | JNull => false
  | JNum _ => true
  end.

End Val.

(* ================================================================== *)
(** ** Numeric literals: [parseFloat] and the global [isNaN] on strings *)
(* ================================================================== *)

Module Lit.

Definition isDigit (c : ascii) : bool :=
  let n := nat_of_ascii c in (48 <=? n)%nat && (n <=? 57)%nat.

Definition digitVal (c : ascii) : Z := Z.of_nat (nat_of_ascii c) - 48.

(** The longest prefix of decimal digits, and what follows it. *)
Fixpoint takeDigits (s : string) : string * string :=
  match s with
  | String c s' =>
      if isDigit c then let (d, r) := takeDigits s' in (String c d, r)
      else (EmptyString, s)
  | EmptyString => (EmptyString, EmptyString)
  end.

(** Value of a string of decimal digits, most significant first. *)
Fixpoint digitsValueFrom (acc : Z) (s : string) : Z :=
  match s with
  | String c s' => digitsValueFrom (10 * acc + digitVal c) s'
  | EmptyString => acc
  end.

Definition digitsValue (s : string) : Z := digitsValueFrom 0 s.

(** [m * 10^e] *)
Definition decimal (m e : Z) : jsnum := Fin (IZR m * powerRZ 10 e).

(** What a scan of an unsigned literal yields: the literal [Infinity],
    or a mantissa with a decimal exponent; and the unread rest. *)
Inductive scanned : Type :=
| SInfinity (rest : string)
| SDecimal (m e : Z) (rest : string).

(** ExponentPart: [e] or [E], an optional sign, at least one digit.
    When it is not complete, nothing of it is read. *)
Definition scanExponent (m e : Z) (s : string) : scanned :=
  match s with
  | String c s1 =>
      if Ascii.eqb c "e" || Ascii.eqb c "E" then
        let '(sgn, s2) :=
          match s1 with
          | String "+" t => (1%Z, t)
          | String "-" t => ((-1)%Z, t)
          | _ => (1%Z, s1)
          end in
        let (ds, r) := takeDigits s2 in
        match ds with
        | EmptyString => SDecimal m e s
        | _ => SDecimal m (e + sgn * digitsValue ds) r
        end
      else SDecimal m e s
  | EmptyString => SDecimal m e s
  end.

(** The longest prefix that is a StrUnsignedDecimalLiteral:
    [Infinity], [digits], [digits.], [digits.digits] or [.digits],
    each of the last four with an optional exponent. *)
Definition scanUnsigned (s : string) : option scanned :=
  if Str.startsWith "Infinity" s then
    Some (SInfinity (String.substring 8 (String.length s - 8) s))
  else
    let (ip, r1) := takeDigits s in
    match r1 with
    | String "." r1' =>
        let (fp, r2) := takeDigits r1' in
        match ip, fp with
        | EmptyString, EmptyString => None
        | _, _ =>
            Some (scanExponent (digitsValue (ip ++ fp))
                               (- Z.of_nat (String.length fp)) r2)
        end
    | _ =>
        match ip with
        | EmptyString => None
        | _ => Some (scanExponent (digitsValue ip) 0 r1)
        end
    end.

(** An optionally signed literal at the head of [s]: its value and the
    unread rest. *)
Definition scanSigned (s : string) : option (jsnum * string) :=
  let '(negative, body) :=
    match s with
    | String "+" t => (false, t)
    | String "-" t => (true, t)
    | _ => (false, s)
    end in
  match scanUnsigned body with
  | None => None
  | Some (SInfinity r) => Some (if negative then NInf else PInf, r)
  | Some (SDecimal m e r) =>
      Some (decimal (if negative then - m else m) e, r)
  end.

(** [parseFloat(s)]: leading white space is skipped, the longest
    literal prefix is read, anything after it is ignored; NaN when no
    prefix is a literal. *)
Definition parseFloat (s : string) : jsnum :=
  match scanSigned (Str.trimStart s) with
  | Some (v, _) => v
  | None => NaN
  end.

Definition hexVal (c : ascii) : option Z :=
  let n := nat_of_ascii c in
  if isDigit c then Some (Z.of_nat n - 48)%Z
  else if (97 <=? n)%nat && (n <=? 102)%nat then Some (Z.of_nat n - 87)%Z
  else if (65 <=? n)%nat && (n <=? 70)%nat then Some (Z.of_nat n - 55)%Z
  else None.

(** Value of a nonempty string of digits in [base]; [None] when a code
    unit is not a digit of that base. *)
Fixpoint radixValueFrom (base acc : Z) (s : string) : option Z :=
  match s with
  | EmptyString => Some acc
  | String c s' =>
      match hexVal c with
      | Some d => if (d <? base)%Z then radixValueFrom base (base * acc + d) s'
                  else None
      | None => None
      end
  end.

(** NonDecimalIntegerLiteral: [0x], [0o] or [0b] and at least one
    digit. *)
Definition nonDecimal (s : string) : option Z :=
  match s with
  | String "0" (String p (String c r)) =>
      let digits := String c r in
      if Ascii.eqb p "x" || Ascii.eqb p "X" then radixValueFrom 16 0 digits
      else if Ascii.eqb p "o" || Ascii.eqb p "O" then radixValueFrom 8 0 digits
      else if Ascii.eqb p "b" || Ascii.eqb p "B" then radixValueFrom 2 0 digits
      else None
  | _ => None
  end.

(** ToNumber on a string: white space is trimmed on both sides, the
    empty string is 0, and the whole of what remains must be one
    numeric literal. *)
Definition toNumber (s : string) : jsnum :=
  let t := Str.trim s in
  match t with
  | EmptyString => Num.zero
  | _ =>
      match scanSigned t with
      | Some (v, EmptyString) => v
      | _ =>
          match nonDecimal t with
          | Some z => Num.ofZ z
          | None => NaN
          end
      end
  end.

(** The global [isNaN(s)] applied to a string. *)
Definition isNaN (s : string) : bool := Num.isNaN (toNumber s).

End Lit.

(* ================================================================== *)
(** ** Objects used as dictionaries *)
(* ================================================================== *)

Module Obj.

Section Dict.
Context {V : Type}.

(** Own properties in insertion order. *)
Definition jsobj : Type := list (string * V).

(** [{}] *)
Definition empty : jsobj := [].

(** [o[k]]; [None] stands for [undefined]. *)
Fixpoint get (o : jsobj) (k : string) : option V :=
  match o with
  | [] => None
  | (k', v) :: o' => if String.eqb k' k then Some v else get o' k
  end.

(** [o[k] = v]: an existing property keeps its place, a new one goes
    last. *)
Fixpoint set (o : jsobj) (k : string) (v : V) : jsobj :=
  match o with
  | [] => [(k, v)]
  | (k', v') :: o' =>
      if String.eqb k' k then (k, v) :: o' else (k', v') :: set o' k v
  end.

(** [Object.keys(o)] *)
Definition keys (o : jsobj) : list string := map fst o.

(** A run of assignments [o[k] = v], first to last. *)
Definition assign (us : list (string * V)) (o : jsobj) : jsobj :=
  fold_left (fun acc kv => set acc (fst kv) (snd kv)) us o.

End Dict.

Arguments jsobj V : clear implicits.

End Obj.

Abbreviation jsobj := Obj.jsobj.

(** A series: [{ name, values }], the years of [values] being property
    names. *)
Record TimeSeries : Type := mkSeries {
  name : string;
  values : jsobj jsval
}.

(** A series store: region code to series. *)
Definition SeriesStore : Type := jsobj TimeSeries.

(** [store[code].values[year]] with [year] already a property name;
    [JUndefined] when the year is not a property.  [None] when
    [store[code]] is [undefined] (the access would throw). *)
Definition lookupValue (store : SeriesStore) (code year : string) : option jsval :=
  match Obj.get store code with
  | Some ts => Some (match Obj.get (values ts) year with
                     | Some v => v
                     | None => JUndefined
                     end)
  | None => None
  end.

(* ================================================================== *)
(** ** Data parsing *)
(* ================================================================== *)

Module Csv.

Definition comma : ascii := ascii_of_nat 44.
Definition newline : ascii := ascii_of_nat 10.

(** The character loop of [parseCSVLine]: a double quote toggles
    [inQuote] and is dropped, a comma outside quotes closes the current
    field. *)
Fixpoint parseCSVLine_loop (line : string) (parts : list string)
         (current : string) (inQuote : bool) : list string * string :=
  match line with
  | EmptyString => (parts, current)
  | String char rest =>
      if Ascii.eqb char Str.dquote then
        parseCSVLine_loop rest parts current (negb inQuote)
      else if Ascii.eqb char comma && negb inQuote then
        parseCSVLine_loop rest (parts ++ [Str.trim current]) EmptyString inQuote
      else
        parseCSVLine_loop rest parts (Str.snoc current char) inQuote
  end.

(** [parseCSVLine(line)] *)
Definition parseCSVLine (line : string) : list string :=
  let (parts, current) := parseCSVLine_loop line [] EmptyString false in
  map (fun p => Str.trim (Str.stripOuterQuotes p)) (parts ++ [Str.trim current]).

(** [arr.findIndex(p)]; [None] stands for -1. *)
Fixpoint findIndex {A : Type} (p : A -> bool) (l : list A) : option nat :=
  match l with
  | [] => None
  | x :: l' => if p x then Some 0%nat
               else option_map S (findIndex p l')
  end.

(** [arr[i]] on an array of strings, [undefined] read as the empty
    string where the code only tests or trims it. *)
Definition at_ (l : list string) (i : nat) : string := nth i l EmptyString.

(** [val = parseFloat(cell)] and then [isNaN(val) ? null : val]. *)
Definition cellValue (cell : string) : jsval :=
  let val := Lit.parseFloat cell in
  if Num.isNaN val then JNull else JNum val.

(** One turn of the column loop of [parseCSV]:
    [year = headers[j]]; skipped when [!year || isNaN(year.trim())];
    otherwise [values[year.trim()] = isNaN(val) ? null : val]. *)
Definition columnStep (headers parts : list string)
           (vals : jsobj jsval) (j : nat) : jsobj jsval :=
  match nth_error headers j with
  | None => vals
  | Some year =>
      if String.eqb year EmptyString || Lit.isNaN (Str.trim year) then vals
      else Obj.set vals (Str.trim year) (cellValue (at_ parts j))
  end.

(** [for (let j = startYearIdx; j < parts.length; j++)] *)
Definition columnLoop (headers parts : list string) (startYearIdx : nat)
  : jsobj jsval :=
  fold_left (columnStep headers parts)
            (seq startYearIdx (List.length parts - startYearIdx)) Obj.empty.

(** One turn of the row loop of [parseCSV]. *)
Definition rowStep (headers : list string) (startYearIdx : nat)
           (data : SeriesStore) (line : string) : SeriesStore :=
  if String.eqb (Str.trim line) EmptyString then data
  else
    let parts := parseCSVLine line in
    if (List.length parts <? 5)%nat then data
    else
      let name := at_ parts 0 in
      let code := at_ parts 1 in
      let values := columnLoop headers parts startYearIdx in
      Obj.set data code (mkSeries name values).

(** [parseCSV(csvText)] *)
Definition parseCSV (csvText : string) : SeriesStore :=
  let lines := Str.split newline (Str.trim csvText) in
  let data : SeriesStore := Obj.empty in
  match nth_error lines 4 with
  | None => data
  | Some headerLine =>
      if String.eqb headerLine EmptyString then data
      else
        let headers := parseCSVLine headerLine in
        match findIndex (fun h => String.eqb (Str.trim h) "1960") headers with
        | None => data
        | Some startYearIdx =>
            fold_left (rowStep headers startYearIdx) (skipn 5 lines) data
        end
  end.

(** The code synthesised for a US state:
    ['USA_ST_' + name.replace(/\s+/g, '_').toUpperCase()]. *)
Definition stateCode (name : string) : string :=
  "USA_ST_" ++ Str.toUpperCase (Str.replaceSpaces name).

(** One turn of the year loop of [mergeStateData]: the cell is stored
    when it exists and is a nonempty string, as [parseFloat] reads it. *)
Definition stateYearStep (years parts : list string)
           (vals : jsobj jsval) (y : nat) : jsobj jsval :=
  let valIdx := (y + 1)%nat in
  if (valIdx <? List.length parts)%nat then
    let val := at_ parts valIdx in
    if negb (String.eqb val EmptyString) then
      Obj.set vals (at_ years y) (JNum (Lit.parseFloat val))
    else vals
  else vals.

(** One turn of the row loop of [mergeStateData]. *)
Definition stateRowStep (years : list string)
           (target : SeriesStore) (line : string) : SeriesStore :=
  if String.eqb (Str.trim line) EmptyString then target
  else
    let parts := parseCSVLine line in
    if (List.length parts <? 2)%nat then target
    else
      let name := at_ parts 0 in
      let code := stateCode name in
      let values := fold_left (stateYearStep years parts)
                              (seq 0 (List.length years)) Obj.empty in
      Obj.set target code (mkSeries name values).

(** [mergeStateData(csvText, targetKey)], as a function of the store
    [state.rawData[targetKey]] it updates. *)
Definition mergeStateData (csvText : string) (target : SeriesStore) : SeriesStore :=
  let lines := Str.split newline (Str.trim csvText) in
  let header := map Str.trim (Str.split comma (at_ lines 0)) in
  let years := skipn 1 header in
  fold_left (stateRowStep years) (skipn 1 lines) target.

(** *** The loops of [parseCSV] as runs of assignments *)

Definition optList {A : Type} (x : option A) : list A :=
  match x with Some a => [a] | None => [] end.

(** The property a column writes, if it writes one. *)
Definition columnUpdate (headers parts : list string) (j : nat)
  : option (string * jsval) :=
  match nth_error headers j with
  | None => None
  | Some year =>
      if String.eqb year EmptyString || Lit.isNaN (Str.trim year) then None
      else Some (Str.trim year, cellValue (at_ parts j))
  end.

(** The entry a row writes, if it writes one. *)
Definition rowUpdate (headers : list string) (startYearIdx : nat) (line : string)
  : option (string * TimeSeries) :=
  if String.eqb (Str.trim line) EmptyString then None
  else
    let parts := parseCSVLine line in
    if (List.length parts <? 5)%nat then None
    else Some (at_ parts 1,
               mkSeries (at_ parts 0) (columnLoop headers parts startYearIdx)).

End Csv.

(* ================================================================== *)
(** ** Sample tables *)
(* ================================================================== *)

Module Sample.

Definition q : string := String Str.dquote EmptyString.
Definition nl : string := String Csv.newline EmptyString.

(** A line of the provider's export: every field quoted, a comma after
    the last one. *)
Definition exportLine (fields : list string) : string :=
  String.concat "," (map (fun f => q ++ f ++ q) fields) ++ ",".

Definition countryHeader : string :=
  exportLine ["Country Name"; "Country Code"; "Indicator Name";
              "Indicator Code"; "1960"; "1961"].

Definition arubaLine : string :=
  exportLine ["Aruba"; "ABW"; "GDP per capita"; "NY.GDP.PCAP.CD"; "100"; ""].

Definition koreaLine : string :=
  exportLine ["Korea, Rep."; "KOR"; "GDP per capita"; "NY.GDP.PCAP.CD";
              ""; "93.8"].

Definition chadLine : string :=
  exportLine ["Chad"; "TCD"; "GDP per capita"; "NY.GDP.PCAP.CD"; ".."; "0"].

Definition countryMeta : list string :=
  [exportLine ["Data Source"; "World Development Indicators"];
   EmptyString;
   exportLine ["Last Updated Date"; "2025-12-19"];
   EmptyString].

Definition countryTable : string :=
  String.concat nl (countryMeta ++ [countryHeader; arubaLine; koreaLine; chadLine]).

(** A table of US states: a header of bare years, then a name and one
    value per year. *)
Definition stateTable : string :=
  String.concat nl ["State,2020,2021"; q ++ "New  York" ++ q ++ ",85000,n/a";
                    "Texas,,61000"].

End Sample.

Module SampleLoose.

(** A row whose cells are not numbers but begin like one: [12abc], and
    [0,5] written with a decimal comma between its quotes. *)
Definition otherLine : string :=
  Sample.exportLine ["Other"; "OTH"; "GDP per capita"; "NY.GDP.PCAP.CD";
                     "12abc"; "0,5"].

Definition table : string :=
  String.concat Sample.nl
                (Sample.countryMeta ++ [Sample.countryHeader; otherLine]).

End SampleLoose.

Module Merge.
Import Csv.

(** *** The loops of [mergeStateData] as runs of assignments *)

(** The property a year writes, if it writes one. *)
Definition stateYearUpdate (years parts : list string) (y : nat)
  : option (string * jsval) :=
  if (y + 1 <? List.length parts)%nat then
    if negb (String.eqb (at_ parts (y + 1)) EmptyString) then
      Some (at_ years y, JNum (Lit.parseFloat (at_ parts (y + 1))))
    else None
  else None.

(** The entry a row writes, if it writes one. *)
Definition stateRowUpdate (years : list string) (line : string)
  : option (string * TimeSeries) :=
  if String.eqb (Str.trim line) EmptyString then None
  else
    let parts := parseCSVLine line in
    if (List.length parts <? 2)%nat then None
    else Some (stateCode (at_ parts 0),
               mkSeries (at_ parts 0)
                        (fold_left (stateYearStep years parts)
                                   (seq 0 (List.length years)) Obj.empty)).

(** The rows of a state table, as the entries they assign. *)
Definition stateUpdates (csvText : string) : list (string * TimeSeries) :=
  let lines := Str.split newline (Str.trim csvText) in
  let years := skipn 1 (map Str.trim (Str.split comma (at_ lines 0))) in
  flat_map (fun l => optList (stateRowUpdate years l)) (skipn 1 lines).

(** A standard country code: three code units. *)
Definition isCountryCode (code : string) : Prop := String.length code = 3%nat.

(** A value a series may hold according to the data model: a finite
    number or [null]. *)
Definition wellFormedValue (v : jsval) : Prop :=
  v = JNull \/ exists r, v = JNum (Fin r).

End Merge.

(* ================================================================== *)
(** ** Application state and derived metrics *)
(* ================================================================== *)

Module App.

(** [state.rawData] *)
Record RawData : Type := mkRawData {
  gdpCurrent : SeriesStore;
  gdpConstant : SeriesStore;
  pppCurrent : SeriesStore;
  pppConstant : SeriesStore
}.

(** [state], without the chart handle, the map geometry and the
    animation timer. *)
Record State : Type := mkState {
  gdpData : SeriesStore;
  pppData : SeriesStore;
  rawData : RawData;
  selectedCountries : list string;
  currentView : string;
  priceType : string;
  yearStart : Z;
  yearEnd : Z;
  mapYear : Z
}.

(** [updateActiveData()] *)
Definition updateActiveData (st : State) : State :=
  if String.eqb (priceType st) "current" then
    mkState (gdpCurrent (rawData st)) (pppCurrent (rawData st)) (rawData st)
            (selectedCountries st) (currentView st) (priceType st)
            (yearStart st) (yearEnd st) (mapYear st)
  else
    mkState (gdpConstant (rawData st)) (pppConstant (rawData st)) (rawData st)
            (selectedCountries st) (currentView st) (priceType st)
            (yearStart st) (yearEnd st) (mapYear st).

(** [setPriceType(type)], as far as the state goes. *)
Definition setPriceType (type : string) (st : State) : State :=
  updateActiveData
    (mkState (gdpData st) (pppData st) (rawData st)
             (selectedCountries st) (currentView st) type
             (yearStart st) (yearEnd st) (mapYear st)).

(** The property name of a year that is a number: its decimal
    spelling. *)
Definition yearKey (year : Z) : string :=
  NilZero.string_of_int (Z.to_int year).

(** [series.values[year]] *)
Definition valueAt (series : TimeSeries) (year : Z) : jsval :=
  match Obj.get (values series) (yearKey year) with
  | Some v => v
  | None => JUndefined
  end.

(** [series?.values[year]] *)
Definition valueAtOpt (series : option TimeSeries) (year : Z) : jsval :=
  match series with
  | Some s => valueAt s year
  | None => JUndefined
  end.

(** [series ? series.values[year] : null] *)
Definition valueOrNull (series : option TimeSeries) (year : Z) : jsval :=
  match series with
  | Some s => valueAt s year
  | None => JNull
  end.

(** [(endVal && startVal) ? ((endVal - startVal) / startVal * 100) : null],
    the growth expression of [updateInsights], [updateDataTable] and
    [renderMap]. *)
Definition growthPct (endVal startVal : jsval) : jsval :=
  if Val.truthy endVal && Val.truthy startVal then
    JNum (Num.mul (Num.div (Num.sub (Val.toNumber endVal) (Val.toNumber startVal))
                           (Val.toNumber startVal))
                  (Fin 100))
  else JNull.

(** [(gVal && pVal) ? (gVal / pVal) : null], the ratio expression. *)
Definition ratioOf (gVal pVal : jsval) : jsval :=
  if Val.truthy gVal && Val.truthy pVal then
    JNum (Num.div (Val.toNumber gVal) (Val.toNumber pVal))
  else JNull.

(** [arr.sort(cmp)]: a stable sort; [cmp a b > 0] puts [a] after [b],
    any other result (NaN too) leaves the two in their order. *)
Fixpoint sortInsert {A : Type} (cmp : A -> A -> jsnum) (x : A) (sorted : list A)
  : list A :=
  match sorted with
  | [] => [x]
  | y :: rest =>
      if Num.gt (cmp x y) Num.zero then y :: sortInsert cmp x rest
      else x :: sorted
  end.

Definition sort {A : Type} (cmp : A -> A -> jsnum) (l : list A) : list A :=
  fold_right (sortInsert cmp) [] l.

(** *** updateInsights *)

(** An element of [countryStats] in [updateInsights] (the [cagr] field
    is left out). *)
Record InsightStat : Type := mkInsightStat {
  is_code : string;
  is_name : string;
  is_startVal : jsval;
  is_endVal : jsval;
  is_growthPeriod : jsval
}.

(** [usePPP ? state.pppData : state.gdpData] *)
Definition dataSource (st : State) : SeriesStore :=
  if String.eqb (currentView st) "ppp" then pppData st else gdpData st.

(** The [map] callback of [updateInsights]. *)
Definition insightStat (st : State) (code : string) (country : TimeSeries)
  : InsightStat :=
  let endVal := valueAt country (yearEnd st) in
  let startVal := valueAt country (yearStart st) in
  mkInsightStat code (name country) startVal endVal (growthPct endVal startVal).

(** [countryStats] of [updateInsights]: the selected countries found
    in the data source, those with a truthy end value, largest first. *)
Definition insightStats (st : State) : list InsightStat :=
  let found :=
    flat_map (fun code => match Obj.get (dataSource st) code with
                          | Some country => [insightStat st code country]
                          | None => []
                          end)
             (selectedCountries st) in
  sort (fun a b => Num.sub (Val.toNumber (is_endVal b)) (Val.toNumber (is_endVal a)))
       (filter (fun c => Val.truthy (is_endVal c)) found).

(** *** updateDataTable *)

(** A row of [tableData]. *)
Record TableRow : Type := mkTableRow {
  tr_code : string;
  tr_name : string;
  tr_gdp : jsval;
  tr_ppp : jsval;
  tr_ratio : jsval;
  tr_growth : jsval
}.

(** The [map] callback of [updateDataTable]; [None] is the [null] the
    following [filter] removes. *)
Definition tableRow (st : State) (code : string) : option TableRow :=
  let usePPP := String.eqb (currentView st) "ppp" in
  let latestYear := yearEnd st in
  let prevYear := yearStart st in
  let gdp := Obj.get (gdpData st) code in
  let ppp := Obj.get (pppData st) code in
  match gdp, ppp with
  | None, None => None
  | _, _ =>
      let gVal := valueOrNull gdp latestYear in
      let pVal := valueOrNull ppp latestYear in
      let growth :=
        match (if usePPP then ppp else None), gdp with
        | Some p, _ => growthPct pVal (valueAt p prevYear)
        | None, Some g => growthPct gVal (valueAt g prevYear)
        | None, None => JNull
        end in
      (* For PLI, always use CURRENT prices *)
      let gdpCur := Obj.get (gdpCurrent (rawData st)) code in
      let pppCur := Obj.get (pppCurrent (rawData st)) code in
      let gValCur := valueOrNull gdpCur latestYear in
      let pValCur := valueOrNull pppCur latestYear in
      let ratio := ratioOf gValCur pValCur in
      let name :=
        match (if usePPP then ppp else None), gdp with
        | Some p, _ => name p
        | None, Some g => name g
        | None, None => "Unknown"
        end in
      Some (mkTableRow code name gVal pVal ratio growth)
  end.

(** *** createRatioDatasets *)

(** A data set of the ratio chart: the name in its label, the growth
    of the ratio its label quotes ([None] when the label quotes none),
    and one point per year. *)
Record RatioDataset : Type := mkRatioDataset {
  rd_name : string;
  rd_growth : option jsnum;
  rd_data : list jsval
}.

(** The [map] callback of [createRatioDatasets]. *)
Definition ratioDataset (st : State) (years : list Z) (code : string)
  : option RatioDataset :=
  (* PLI is always calculated using current prices: Nominal GDP / PPP *)
  match Obj.get (gdpCurrent (rawData st)) code,
        Obj.get (pppCurrent (rawData st)) code with
  | Some gdp, Some ppp =>
      let startYear := hd_error years in
      let endYear := hd_error (rev years) in
      let at_year s y := match y with Some y' => valueAt s y' | None => JUndefined end in
      let gStart := at_year gdp startYear in
      let pStart := at_year ppp startYear in
      let gEnd := at_year gdp endYear in
      let pEnd := at_year ppp endYear in
      let growth :=
        if Val.truthy gStart && Val.truthy pStart
           && Val.truthy gEnd && Val.truthy pEnd then
          let startRatio := Num.div (Val.toNumber gStart) (Val.toNumber pStart) in
          let endRatio := Num.div (Val.toNumber gEnd) (Val.toNumber pEnd) in
          Some (Num.mul (Num.div (Num.sub endRatio startRatio) startRatio) (Fin 100))
        else None in
      Some (mkRatioDataset (name gdp) growth
              (map (fun y => ratioOf (valueAt gdp y) (valueAt ppp y)) years))
  | _, _ => None
  end.

(** [createRatioDatasets(years)] *)
Definition createRatioDatasets (st : State) (years : list Z) : list RatioDataset :=
  flat_map (fun code => match ratioDataset st years code with
                        | Some d => [d]
                        | None => []
                        end)
           (selectedCountries st).

End App.

(* ================================================================== *)
(** ** The map: statistics, colour scale, projection *)
(* ================================================================== *)

Module MapView.
Import App.

(** An element of [countryStats] in [renderMap].  [ref] is the
    identity of the object (objects are numbered as the loop over
    [Object.keys(state.gdpData)] meets their keys); [indexOf] compares
    identities. *)
Record CountryStat : Type := mkCountryStat {
  ref : nat;
  code : string;
  cname : string;
  gdp : jsval;
  ppp : jsval;
  growth : jsval;
  ratio : jsval
}.

(** The body of the loop over [Object.keys(state.gdpData)]: the entry
    pushed for [code], if one is pushed. *)
Definition countryStat (st : State) (ref : nat) (code : string)
  : option CountryStat :=
  let year := mapYear st in
  let gdpCountry := Obj.get (gdpData st) code in
  let pppCountry := Obj.get (pppData st) code in
  let gdpVal := valueAtOpt gdpCountry year in
  let pppVal := valueAtOpt pppCountry year in
  (* Calculate growth (5 year) *)
  let prevYear := (year - 5)%Z in
  let gdpPrev := valueAtOpt gdpCountry prevYear in
  let growth := growthPct gdpVal gdpPrev in
  match gdpCountry with
  | Some g =>
      if Val.isPresent gdpVal then
        Some (mkCountryStat ref code (name g) gdpVal pppVal growth
                            (ratioOf gdpVal pppVal))
      else None
  | None => None
  end.

Definition pushedStats (st : State) : list CountryStat :=
  let codes := Obj.keys (gdpData st) in
  flat_map (fun rc => match countryStat st (fst rc) (snd rc) with
                      | Some c => [c]
                      | None => []
                      end)
           (combine (seq 0 (List.length codes)) codes).

(** [(a, b) => b.gdp - a.gdp] *)
Definition byGdpDescending (a b : CountryStat) : jsnum :=
  Num.sub (Val.toNumber (gdp b)) (Val.toNumber (gdp a)).

(** [countryStats] after [countryStats.sort((a, b) => b.gdp - a.gdp)] *)
Definition countryStats (st : State) : list CountryStat :=
  sort byGdpDescending (pushedStats st).

(** [rankMap]: [countryStats.forEach((c, i) => rankMap[c.code] = i + 1)] *)
Definition rankMap (stats : list CountryStat) : jsobj Z :=
  Obj.assign (map (fun ic => (code (snd ic), Z.of_nat (fst ic) + 1)%Z)
                  (combine (seq 0 (List.length stats)) stats))
             Obj.empty.

(** [min] and [max] of the scale. *)
Definition scaleMin (stats : list CountryStat) : jsnum :=
  fold_left (fun m c => if Num.lt (Val.toNumber (gdp c)) m
                        then Val.toNumber (gdp c) else m) stats PInf.

Definition scaleMax (stats : list CountryStat) : jsnum :=
  fold_left (fun m c => if Num.gt (Val.toNumber (gdp c)) m
                        then Val.toNumber (gdp c) else m) stats NInf.

(** The sequential blue scale, light to dark. *)
Definition colors : list string :=
  ["#dbeafe"; "#93c5fd"; "#3b82f6"; "#1d4ed8"; "#1e3a8a"].

(** [arr[idx]] for a number [idx]: the element when [idx] is an
    integer within the array, [undefined] ([None]) otherwise. *)
Definition arrayGet {A : Type} (arr : list A) (idx : jsnum) : option A :=
  match idx with
  | Fin r =>
      let z := Int_part r in
      if Req_dec_T r (IZR z) then
        if (z <? 0)%Z then None else nth_error arr (Z.to_nat z)
      else None
  | _ => None
  end.

(** [colorScale(val)]; [None] is [undefined]. *)
Definition colorScale (noDataColor : string) (max : jsnum) (val : jsval)
  : option string :=
  match val with
  | JNull | JUndefined => Some noDataColor
  | JNum v =>
      let normalized := Num.div (Num.Math_log v) (Num.Math_log max) in
      let k := Num.ofZ (Z.of_nat (List.length colors)) in
      let idx := Num.Math_min (Num.Math_floor (Num.mul normalized k))
                              (Num.sub k (Fin 1)) in
      arrayGet colors idx
  end.

(** A GeoJSON position [[lon, lat]], a ring, a geometry. *)
Definition Position : Type := (jsnum * jsnum)%type.
Definition Ring : Type := list Position.

Inductive Geometry : Type :=
| Polygon (coordinates : list Ring)
| MultiPolygon (coordinates : list (list Ring))
| OtherGeometry.

Record Feature : Type := mkFeature {
  f_code : string;
  f_name : string;
  f_geometry : option Geometry
}.

(** What [renderMap] attaches to the path of a feature. *)
Record MapPath : Type := mkMapPath {
  mp_d : string;
  mp_fill : option string;
  mp_code : string;
  mp_selected : bool;
  tip_rank : option Z;
  tip_gdp : jsval;
  tip_ppp : jsval;
  tip_ratio : jsval;
  tip_growth : jsval
}.

Section Rendering.

(** [n.toFixed(digits)] and the value of the style property
    [--map-no-data], trimmed: both come from the browser. *)
Variable toFixed : jsnum -> nat -> string.
Variable mapNoData : string.

(** Clamp latitude to avoid infinite values. *)
Definition maxLat : jsnum := Fin 85.

Definition half (a : jsnum) : jsnum := Num.div a (Fin 2).

(** [Math.log(Math.tan(Math.PI / 4 + latRad / 2))] *)
Definition mercator (latRad : jsnum) : jsnum :=
  Num.Math_log (Num.Math_tan (Num.add (Num.div Num.Math_PI (Fin 4)) (half latRad))).

Definition latRadMax : jsnum := Num.div (Num.mul maxLat Num.Math_PI) (Fin 180).
Definition mercMax : jsnum := mercator latRadMax.

(** The coordinates [project] computes, before they are printed. *)
Definition projectXY (width height : jsnum) (coords : Position) : jsnum * jsnum :=
  let lon := fst coords in
  let lat := Num.Math_max (Num.neg maxLat) (Num.Math_min maxLat (snd coords)) in
  (* X: linear mapping from -180..180 to 0..width *)
  let x := Num.mul (Num.add lon (Fin 180)) (Num.div width (Fin 360)) in
  (* Y: Mercator projection, scaled to fit within height *)
  let latRad := Num.div (Num.mul lat Num.Math_PI) (Fin 180) in
  let mercY := mercator latRad in
  let y := Num.sub (half height) (Num.mul (Num.div mercY mercMax) (half height)) in
  (x, y).

(** [project(coords)] *)
Definition project (width height : jsnum) (coords : Position) : string :=
  let (x, y) := projectXY width height coords in
  toFixed x 2 ++ "," ++ toFixed y 2.

(** [processRing(ring)]; [None] is an [undefined] ring. *)
Definition processRing (width height : jsnum) (ring : option Ring) : string :=
  match ring with
  | None | Some [] => EmptyString
  | Some r => "M" ++ String.concat "L" (map (project width height) r) ++ "Z"
  end.

(** [generatePathData(geometry, width, height)] *)
Definition generatePathData (geometry : option Geometry) (width height : jsnum)
  : string :=
  match geometry with
  | None => EmptyString
  | Some (Polygon coordinates) => processRing width height (hd_error coordinates)
  | Some (MultiPolygon coordinates) =>
      String.concat " " (map (fun polygon => processRing width height (hd_error polygon))
                             coordinates)
  | Some OtherGeometry => EmptyString
  end.

Definition noDataColor : string :=
  if String.eqb mapNoData EmptyString then "#f3f4f6" else mapNoData.

(** The body of the loop over the features in [renderMap]. *)
Definition featurePath (st : State) (stats : list CountryStat) (feature : Feature)
  : MapPath :=
  let year := mapYear st in
  let code := f_code feature in
  let gdpCountry := Obj.get (gdpData st) code in
  let pppCountry := Obj.get (pppData st) code in
  let gdpVal := valueOrNull gdpCountry year in
  let pppVal := valueOrNull pppCountry year in
  let rank := Obj.get (rankMap stats) code in
  (* Calculate growth *)
  let prevYear := (year - 5)%Z in
  let gdpPrev := valueAtOpt gdpCountry prevYear in
  let growth := growthPct gdpVal gdpPrev in
  let ratio := ratioOf gdpVal pppVal in
  mkMapPath (generatePathData (f_geometry feature) (Fin 1000) (Fin 600))
            (colorScale noDataColor (scaleMax stats) gdpVal)
            code
            (existsb (String.eqb code) (selectedCountries st))
            rank gdpVal pppVal ratio growth.

(** [renderMap()]: the paths, and the statistics handed to
    [updateGlobalRankings]. *)
Definition renderMap (st : State) (features : list Feature)
  : list MapPath * list CountryStat :=
  let stats := countryStats st in
  (map (featurePath st stats) features, stats).

End Rendering.

End MapView.

(* ================================================================== *)
(** ** Global rankings table *)
(* ================================================================== *)

Module Rankings.
Import App MapView.

(** The variables of the rankings table. *)
Record RankingsState : Type := mkRankings {
  globalRankingsData : list CountryStat;
  rankingsSortField : string;
  rankingsSortAsc : bool;
  rankingsSearchQuery : string
}.

(** [updateGlobalRankings(countryStats)], as far as the variables go. *)
Definition updateGlobalRankings (stats : list CountryStat) (rs : RankingsState)
  : RankingsState :=
  mkRankings stats (rankingsSortField rs) (rankingsSortAsc rs)
             (rankingsSearchQuery rs).

(** [arr.indexOf(c)]: the place of the object [c], or -1. *)
Fixpoint indexOf (arr : list CountryStat) (c : CountryStat) : Z :=
  match arr with
  | [] => (-1)%Z
  | x :: rest =>
      if Nat.eqb (ref x) (ref c) then 0%Z
      else let i := indexOf rest c in
           if (i <? 0)%Z then (-1)%Z else (i + 1)%Z
  end.

(** A row of the rendered table: the rank cell and the entry. *)
Record RankRow : Type := mkRankRow {
  originalRank : Z;
  entry : CountryStat;
  rowSelected : bool
}.

Section Render.

(** [a.localeCompare(b)]: the collation is the browser's. *)
Variable localeCompare : string -> string -> jsnum.

(** The comparison function of [renderGlobalRankings]. *)
Definition compareRows (rs : RankingsState) (a b : CountryStat) : jsnum :=
  let data := globalRankingsData rs in
  let asc := rankingsSortAsc rs in
  let numeric (aVal bVal : jsnum) :=
    if asc then Num.sub aVal bVal else Num.sub bVal aVal in
  let field := rankingsSortField rs in
  if String.eqb field "rank" then
    numeric (Num.ofZ (indexOf data a)) (Num.ofZ (indexOf data b))
  else if String.eqb field "name" then
    if asc then localeCompare (cname a) (cname b)
    else localeCompare (cname b) (cname a)
  else if String.eqb field "gdp" then
    numeric (Val.orNum (gdp a) Num.zero) (Val.orNum (gdp b) Num.zero)
  else if String.eqb field "ppp" then
    numeric (Val.orNum (ppp a) Num.zero) (Val.orNum (ppp b) Num.zero)
  else if String.eqb field "growth" then
    numeric (Val.orNum (growth a) NInf) (Val.orNum (growth b) NInf)
  else
    numeric (Val.orNum (gdp a) Num.zero) (Val.orNum (gdp b) Num.zero).

(** Filter by search. *)
Definition filterRows (rs : RankingsState) : list CountryStat :=
  if String.eqb (rankingsSearchQuery rs) EmptyString then globalRankingsData rs
  else
    let query := Str.toLowerCase (rankingsSearchQuery rs) in
    filter (fun c => Str.includes query (Str.toLowerCase (cname c))
                     || Str.includes query (Str.toLowerCase (code c)))
           (globalRankingsData rs).

(** [renderGlobalRankings()]: the rows of the table body, top to
    bottom. *)
Definition renderGlobalRankings (rs : RankingsState) (selected : list string)
  : list RankRow :=
  let sorted := sort (compareRows rs) (filterRows rs) in
  map (fun c => mkRankRow (indexOf (globalRankingsData rs) c + 1) c
                          (existsb (String.eqb (code c)) selected))
      sorted.

End Render.

(** What the listeners of the table do to its variables: typing in the
    search box, choosing a metric, clicking a sortable header. *)
Inductive RankingsEvent : Type :=
| SearchInput (value : string)
| MetricChange (value : string)
| HeaderClick (field : string).

Definition handleEvent (ev : RankingsEvent) (rs : RankingsState) : RankingsState :=
  match ev with
  | SearchInput value =>
      mkRankings (globalRankingsData rs) (rankingsSortField rs)
                 (rankingsSortAsc rs) value
  | MetricChange value =>
      mkRankings (globalRankingsData rs) value false (rankingsSearchQuery rs)
  | HeaderClick field =>
      if String.eqb (rankingsSortField rs) field then
        mkRankings (globalRankingsData rs) (rankingsSortField rs)
                   (negb (rankingsSortAsc rs)) (rankingsSearchQuery rs)
      else
        mkRankings (globalRankingsData rs) field
                   (String.eqb field "name" || String.eqb field "rank")
                   (rankingsSearchQuery rs)
  end.

End Rankings.

(* ================================================================== *)
(** ** Sample states *)
(* ================================================================== *)

Module SampleState.
Import App.

Definition series (label : string) (v2018 v2023 : R) : TimeSeries :=
  mkSeries label [("2018", JNum (Fin v2018)); ("2023", JNum (Fin v2023))].

(** One country whose current-price and constant-price series differ:
    100 over 50 at current prices, 90 over 30 at constant prices. *)
Definition twoBases : RawData :=
  mkRawData [("USA", series "United States" 80 100)]
            [("USA", series "United States" 85 90)]
            [("USA", series "United States" 40 50)]
            [("USA", series "United States" 25 30)].

Definition initial : State :=
  mkState [] [] twoBases ["USA"] "map" "current" 2018 2023 2023.

(** After the user has chosen constant prices. *)
Definition onConstant : State := setPriceType "constant" initial.

(** A series that falls from 1000 in 2018 to 0 in 2023, alone in the
    GDP store and selected. *)
Definition collapsedSeries : TimeSeries := series "Example" 1000 0.

Definition collapsedState : State :=
  mkState [("EXA", collapsedSeries)] [] (mkRawData [] [] [] [])
          ["EXA"] "gdp" "current" 2018 2023 2023.



(** Two regions in 2023: one at 0, one at 10000. *)
Definition withZero : State :=
  mkState [("TCD", series "Chad" 0 0); ("KOR", series "Korea, Rep." 9000 10000)]
          [] (mkRawData [] [] [] []) [] "map" "current" 2018 2023 2023.

Definition chadFeature : MapView.Feature :=
  MapView.mkFeature "TCD" "Chad" None.

Definition usaFeature : MapView.Feature :=
  MapView.mkFeature "USA" "United States" None.

End SampleState.

(* ================================================================== *)
(** ** Sample statistics *)
(* ================================================================== *)

Module SampleStats.
Import MapView.

Definition stat (ref : nat) (code label : string) (value : R) : CountryStat :=
  mkCountryStat ref code label (JNum (Fin value)) JUndefined JNull JNull.

(** Two regions, both at 10000. *)
Definition degenerate : list CountryStat :=
  [stat 0 "AAA" "First" 10000; stat 1 "BBB" "Second" 10000].

End SampleStats.

(* ================================================================== *)
(** ** Vocabulary of the ranking properties *)
(* ================================================================== *)

Module Standing.
Import App MapView Rankings.

(** A value that is missing or a finite number. *)
Definition finiteOrMissing (v : jsval) : Prop :=
  v = JUndefined \/ v = JNull \/ exists r, v = JNum (Fin r).

(** [a] stands at least as high as [b] by GDP, both values finite. *)
Definition gdpAtLeast (a b : CountryStat) : Prop :=
  exists x y, gdp a = JNum (Fin x) /\ gdp b = JNum (Fin y) /\ (y <= x)%R.

(** The variables of the table after a run of events. *)
Definition afterEvents (evs : list RankingsEvent) (rs : RankingsState)
  : RankingsState :=
  fold_left (fun s ev => handleEvent ev s) evs rs.

End Standing.

Module SampleRank.
Import App.

Definition yearOnly (label : string) (v : jsval) : TimeSeries :=
  mkSeries label [("2023", v)].

(** Three regions in 2023: 50, no value, 80. *)
Definition store : SeriesStore :=
  [("ALB", yearOnly "Albania" (JNum (Fin 50)));
   ("BOL", yearOnly "Bolivia" JNull);
   ("CHL", yearOnly "Chile" (JNum (Fin 80)))].

Definition state : State :=
  mkState store [] (mkRawData store [] [] []) [] "map" "current" 1990 2024 2023.

Definition table : Rankings.RankingsState :=
  Rankings.mkRankings [] "rank" true EmptyString.

(** The user sorts by name and then searches for [al]. *)
Definition events : list Rankings.RankingsEvent :=
  [Rankings.HeaderClick "name"; Rankings.SearchInput "al"].

Definition noCollation (a b : string) : jsnum := Num.zero.

End SampleRank.

(* ================================================================== *)
(** ** Vocabulary of the parser properties *)
(* ================================================================== *)

Module Shape.

(** [s.includes(c)] for one code unit. *)
Fixpoint contains (c : ascii) (s : string) : bool :=
  match s with
  | EmptyString => false
  | String d s' => Ascii.eqb d c || contains c s'
  end.

(** A string free of double quotes. *)
Definition quoteFree (s : string) : Prop := contains Str.dquote s = false.

(** A field between double quotes, and fields so quoted joined by
    commas: the line format of the provider's export. *)
Definition quoted (field : string) : string :=
  String Str.dquote (field ++ String Str.dquote EmptyString).

Definition joinQuoted (fields : list string) : string :=
  String.concat "," (map quoted fields).

(** A data row of a country table: not blank, at least five fields. *)
Definition isDataRow (line : string) : Prop :=
  Str.trim line <> EmptyString /\
  (5 <= List.length (Csv.parseCSVLine line))%nat.

(** A row of a state table: not blank, at least two fields. *)
Definition isStateRow (line : string) : Prop :=
  Str.trim line <> EmptyString /\
  (2 <= List.length (Csv.parseCSVLine line))%nat.

End Shape.

(* ================================================================== *)
(** ** Settings and event handlers *)
(* ================================================================== *)

Module Ui.
Import App.

(** The longest prefix whose code units satisfy [p], and the rest. *)
Fixpoint takeWhile (p : ascii -> bool) (s : string) : string * string :=
  match s with
  | String c s' =>
      if p c then let (d, r) := takeWhile p s' in (String c d, r)
      else (EmptyString, s)
  | EmptyString => (EmptyString, EmptyString)
  end.

Definition isHexDigit (c : ascii) : bool :=
  match Lit.hexVal c with Some _ => true | None => false end.

(** [parseInt(s)] without a radix: leading white space and a sign are
    read, then [0x] or [0X] announces hexadecimal digits, otherwise
    decimal digits are read; what follows the digits is ignored.
    [None] is NaN (no digit read). *)
Definition parseInt (s : string) : option Z :=
  let t := Str.trimStart s in
  let '(negative, body) :=
    match t with
    | String "+" r => (false, r)
    | String "-" r => (true, r)
    | _ => (false, t)
    end in
  let magnitude :=
    if Str.startsWith "0x" body || Str.startsWith "0X" body then
      let (ds, _) := takeWhile isHexDigit (String.substring 2 (String.length body - 2) body) in
      match ds with
      | EmptyString => None
      | _ => Lit.radixValueFrom 16 0 ds
      end
    else
      let (ds, _) := takeWhile Lit.isDigit body in
      match ds with
      | EmptyString => None
      | _ => Some (Lit.digitsValue ds)
      end in
  match magnitude with
  | Some m => Some (if negative then (- m)%Z else m)
  | None => None
  end.

(** [localStorage]: keys to strings; [getItem] gives [null] ([None])
    for a key never set. *)
Definition Storage : Type := jsobj string.

Definition keyStart : string := "gdp_explorer_year_start".
Definition keyEnd : string := "gdp_explorer_year_end".

Definition withYears (st : State) (start end_ : Z) : State :=
  mkState (gdpData st) (pppData st) (rawData st) (selectedCountries st)
          (currentView st) (priceType st) start end_ (mapYear st).

Definition withMapYear (st : State) (year : Z) : State :=
  mkState (gdpData st) (pppData st) (rawData st) (selectedCountries st)
          (currentView st) (priceType st) (yearStart st) (yearEnd st) year.

Definition withSelected (st : State) (selected : list string) : State :=
  mkState (gdpData st) (pppData st) (rawData st) selected
          (currentView st) (priceType st) (yearStart st) (yearEnd st)
          (mapYear st).

Definition withView (st : State) (view : string) : State :=
  mkState (gdpData st) (pppData st) (rawData st) (selectedCountries st)
          view (priceType st) (yearStart st) (yearEnd st) (mapYear st).

(** [saveSettings()]: the two years are stored as their decimal
    spelling. *)
Definition saveSettings (st : State) (storage : Storage) : Storage :=
  Obj.set (Obj.set storage keyStart (yearKey (yearStart st)))
          keyEnd (yearKey (yearEnd st)).

(** The year a saved item stands for, if [loadSettings] accepts it:
    the item exists, is not empty, reads as an integer, and lies
    between 1960 and 2024. *)
Definition acceptedYear (item : option string) : option Z :=
  match item with
  | Some saved =>
      if String.eqb saved EmptyString then None
      else match parseInt saved with
           | Some y => if (1960 <=? y)%Z && (y <=? 2024)%Z then Some y else None
           | None => None
           end
  | None => None
  end.

(** [loadSettings()], as far as the state goes. *)
Definition loadSettings (storage : Storage) (st : State) : State :=
  let start := match acceptedYear (Obj.get storage keyStart) with
               | Some y => y
               | None => yearStart st
               end in
  let end_ := match acceptedYear (Obj.get storage keyEnd) with
              | Some y => y
              | None => yearEnd st
              end in
  (* Validate range *)
  if (start >=? end_)%Z then withYears st 1990 2024
  else withYears st start end_.

(** What the listeners do to the state.  A slider carries the integer
    [parseInt] reads from its value; a path of the map carries the code
    of its feature, [None] when the feature has none ([undefined]). *)
Inductive Event : Type :=
| ViewClick (view : string)
| PriceClick (type : string)
| YearStartInput (value : Z)
| YearEndInput (value : Z)
| MapYearInput (value : Z)
| SelectChange (options : list string)
| SearchAdd (code : string)
| RemoveClick (code : string)
| ToggleCountry (code : string)
| PlayTick
| MapClick (code : option string).

(** [if (!selected.includes(code)) selected.push(code)] *)
Definition pushNew (selected : list string) (code : string) : list string :=
  if existsb (String.eqb code) selected then selected
  else (selected ++ [code])%list.

(** [removeCountry(code)] on the selection *)
Definition remove (selected : list string) (code : string) : list string :=
  filter (fun c => negb (String.eqb c code)) selected.

(** [toggleCountryFromRankings(code)], on the selection; the click on
    a path of the map does the same once its guard is passed *)
Definition toggle (selected : list string) (code : string) : list string :=
  if existsb (String.eqb code) selected then remove selected code
  else (selected ++ [code])%list.

Definition handle (ev : Event) (st : State) : State :=
  match ev with
  | ViewClick view =>
      let st1 := withView st view in
      (* PLI must be calculated using Current prices *)
      if String.eqb view "ratio" then setPriceType "current" st1 else st1
  | PriceClick type =>
      (* Prevent change in PLI mode *)
      if String.eqb (currentView st) "ratio" then st else setPriceType type st
  | YearStartInput value =>
      if (value >=? yearEnd st)%Z then withYears st value (Z.min 2024 (value + 1))
      else withYears st value (yearEnd st)
  | YearEndInput value =>
      if (value <=? yearStart st)%Z then withYears st (Z.max 1960 (value - 1)) value
      else withYears st (yearStart st) value
  | MapYearInput value => withMapYear st value
  | SelectChange options =>
      withSelected st (fold_left pushNew options (selectedCountries st))
  | SearchAdd code => withSelected st (pushNew (selectedCountries st) code)
  | RemoveClick code => withSelected st (remove (selectedCountries st) code)
  | ToggleCountry code => withSelected st (toggle (selectedCountries st) code)
  | PlayTick =>
      let year := (mapYear st + 1)%Z in
      withMapYear st (if (year >? 2024)%Z then 1960%Z else year)
  | MapClick code =>
      (* if (!code) return; *)
      match code with
      | None => st
      | Some c =>
          if String.eqb c EmptyString then st
          else withSelected st (toggle (selectedCountries st) c)
      end
  end.

(** The state after a run of events. *)
Definition run (evs : list Event) (st : State) : State :=
  fold_left (fun s ev => handle ev s) evs st.

(** The state holds the stores of its price basis. *)
Definition activeMatchesBasis (st : State) : Prop :=
  if String.eqb (priceType st) "current" then
    gdpData st = gdpCurrent (rawData st) /\ pppData st = pppCurrent (rawData st)
  else
    gdpData st = gdpConstant (rawData st) /\ pppData st = pppConstant (rawData st).

(** A slider event whose value lies on the slider: 1960 to 2024. *)
Definition onSlider (ev : Event) : Prop :=
  match ev with
  | YearStartInput v | YearEndInput v | MapYearInput v =>
      (1960 <= v <= 2024)%Z
  | _ => True
  end.

End Ui.

(* ================================================================== *)
(** ** Chart data, export, data table, country list, search *)
(* ================================================================== *)

Module Chart.
Import App.

Definition COLORS : list string :=
  ["#2563eb"; "#059669"; "#dc2626"; "#7c3aed"; "#ea580c";
   "#0891b2"; "#be185d"; "#4f46e5"; "#65a30d"; "#0d9488"].

(** [COLORS[i % COLORS.length]] *)
Definition colorAt (i : nat) : string :=
  nth (i mod List.length COLORS) COLORS EmptyString.

(** [for (let i = state.yearStart; i <= state.yearEnd; i++) years.push(i)] *)
Definition yearsOf (st : State) : list Z :=
  map (fun k => (yearStart st + Z.of_nat k)%Z)
      (seq 0 (Z.to_nat (yearEnd st - yearStart st + 1))).

(** A data set handed to the chart: the name in its label, what the
    label adds to it ([GDP], [PPP] or nothing), the growth the label
    quotes ([None] when it quotes none), one point per year, the color
    and whether the line is dashed. *)
Record Dataset : Type := mkDataset {
  ds_name : string;
  ds_kind : string;
  ds_growth : option jsnum;
  ds_data : list jsval;
  ds_color : string;
  ds_dashed : bool
}.

(** [series.values[years[0]]] and [series.values[years[years.length - 1]]];
    [undefined] when there is no year. *)
Definition firstValue (series : TimeSeries) (years : list Z) : jsval :=
  match hd_error years with Some y => valueAt series y | None => JUndefined end.

Definition lastValue (series : TimeSeries) (years : list Z) : jsval :=
  match hd_error (rev years) with Some y => valueAt series y | None => JUndefined end.

(** The growth a label quotes: computed when both ends are truthy. *)
Definition labelGrowth (startVal endVal : jsval) : option jsnum :=
  if Val.truthy startVal && Val.truthy endVal then
    Some (Num.mul (Num.div (Num.sub (Val.toNumber endVal) (Val.toNumber startVal))
                           (Val.toNumber startVal))
                  (Fin 100))
  else None.

(** [createDatasets(sourceData, years)] *)
Definition createDatasets (st : State) (sourceData : SeriesStore) (years : list Z)
  : list Dataset :=
  flat_map
    (fun ic =>
       match Obj.get sourceData (snd ic) with
       | Some country =>
           [mkDataset (name country) EmptyString
                      (labelGrowth (firstValue country years)
                                   (lastValue country years))
                      (map (valueAt country) years)
                      (colorAt (fst ic)) false]
       | None => []
       end)
    (combine (seq 0 (List.length (selectedCountries st))) (selectedCountries st)).

(** [createComparisonDatasets(years)]: the first three selected
    countries, two data sets for each one found in both stores. *)
Definition createComparisonDatasets (st : State) (years : list Z) : list Dataset :=
  let firstThree := firstn 3 (selectedCountries st) in
  flat_map
    (fun ic =>
       match Obj.get (gdpData st) (snd ic), Obj.get (pppData st) (snd ic) with
       | Some gdp, Some ppp =>
           [mkDataset (name gdp) "GDP"
                      (labelGrowth (firstValue gdp years) (lastValue gdp years))
                      (map (valueAt gdp) years) (colorAt (fst ic)) true;
            mkDataset (name gdp) "PPP"
                      (labelGrowth (firstValue ppp years) (lastValue ppp years))
                      (map (valueAt ppp) years) (colorAt (fst ic)) false]
       | _, _ => []
       end)
    (combine (seq 0 (List.length firstThree)) firstThree).

(** The data [renderChart] hands to the chart: the labels and, for
    each data set, its points. *)
Definition renderChart (st : State) : list Z * list (list jsval) :=
  let years := yearsOf st in
  let view := currentView st in
  let datasets :=
    if String.eqb view "gdp" then
      map ds_data (createDatasets st (gdpData st) years)
    else if String.eqb view "ppp" then
      map ds_data (createDatasets st (pppData st) years)
    else if String.eqb view "ratio" then
      map rd_data (createRatioDatasets st years)
    else if String.eqb view "compare" then
      map ds_data (createComparisonDatasets st years)
    else [] in
  (years, datasets).

End Chart.

Module CsvExport.
Import App.

(** [v || ''] on a value of a series: the number when it is truthy,
    the empty string ([None]) otherwise. *)
Definition cellOrEmpty (v : jsval) : option jsnum :=
  if Val.truthy v then Some (Val.toNumber v) else None.

(** A line of the export: name, year, the two cells, and the number
    whose [toFixed(4)] is the ratio cell. *)
Record ExportRow : Type := mkExportRow {
  ex_name : string;
  ex_year : Z;
  ex_gdp : option jsnum;
  ex_ppp : option jsnum;
  ex_ratio : option jsnum
}.

Definition exportRow (gdp : TimeSeries) (ppp : option TimeSeries) (y : Z)
  : ExportRow :=
  let g := cellOrEmpty (valueAt gdp y) in
  let p := cellOrEmpty (valueAtOpt ppp y) in
  let r := match g, p with
           | Some gv, Some pv => Some (Num.div gv pv)
           | _, _ => None
           end in
  mkExportRow (name gdp) y g p r.

(** The lines one selected country adds; [None] when reading
    [state.gdpData[code].values] throws because the store has no such
    code.  With no year in the range nothing is read. *)
Definition countryRows (st : State) (code : string) : option (list ExportRow) :=
  match Chart.yearsOf st with
  | [] => Some []
  | years =>
      match Obj.get (gdpData st) code with
      | Some gdp => Some (map (exportRow gdp (Obj.get (pppData st) code)) years)
      | None => None
      end
  end.

(** The lines of [exportToCSV()] after the header, or [None] when it
    throws. *)
Fixpoint rowsOf (st : State) (codes : list string) : option (list ExportRow) :=
  match codes with
  | [] => Some []
  | code :: rest =>
      match countryRows st code with
      | None => None
      | Some rows =>
          match rowsOf st rest with
          | None => None
          | Some more => Some (rows ++ more)%list
          end
      end
  end.

Definition exportRows (st : State) : option (list ExportRow) :=
  rowsOf st (selectedCountries st).

Section Text.

(** How a number is spelled in a template ([String(n)]) and by
    [toFixed]: both come from the language. *)
Variable numberToString : jsnum -> string.
Variable toFixed : jsnum -> nat -> string.

Definition cellText (c : option jsnum) : string :=
  match c with Some n => numberToString n | None => EmptyString end.

Definition lineText (r : ExportRow) : string :=
  String Str.dquote (ex_name r) ++ String Str.dquote EmptyString ++ ","
  ++ yearKey (ex_year r) ++ "," ++ cellText (ex_gdp r) ++ ","
  ++ cellText (ex_ppp r) ++ ","
  ++ match ex_ratio r with Some n => toFixed n 4 | None => EmptyString end
  ++ String Csv.newline EmptyString.

(** The text of the exported file. *)
Definition exportToCSV (st : State) : option string :=
  match exportRows st with
  | Some rows =>
      Some ("Country,Year,GDP_USD,PPP_Intl,Ratio" ++ String Csv.newline EmptyString
            ++ String.concat EmptyString (map lineText rows))
  | None => None
  end.

End Text.

End CsvExport.

Module Countries.
Import App.

(** An element of [state.countries]. *)
Record Country : Type := mkCountry {
  c_code : string;
  c_name : string
}.

Section Collation.

(** [a.localeCompare(b)]: the collation is the browser's. *)
Variable localeCompare : string -> string -> jsnum.

(** [Object.keys(store).map(code => ({ code, name: store[code].name }))
    .sort((a, b) => a.name.localeCompare(b.name))] *)
Definition countriesOf (store : SeriesStore) : list Country :=
  sort (fun a b => localeCompare (c_name a) (c_name b))
       (flat_map (fun code => match Obj.get store code with
                              | Some ts => [mkCountry code (name ts)]
                              | None => []
                              end)
                 (Obj.keys store)).

(** The raw texts [init] fetches. *)
Record RawTexts : Type := mkRawTexts {
  gdpCurRaw : string;
  gdpConstRaw : string;
  pppCurRaw : string;
  pppConstRaw : string;
  stateGdpCur : string;
  stateGdpConst : string;
  statePppCur : string;
  statePppConst : string
}.

(** Steps 2 and 3 of [init]: parse the country tables, merge the state
    tables. *)
Definition initRawData (raw : RawTexts) : RawData :=
  mkRawData (Csv.mergeStateData (stateGdpCur raw) (Csv.parseCSV (gdpCurRaw raw)))
            (Csv.mergeStateData (stateGdpConst raw) (Csv.parseCSV (gdpConstRaw raw)))
            (Csv.mergeStateData (statePppCur raw) (Csv.parseCSV (pppCurRaw raw)))
            (Csv.mergeStateData (statePppConst raw) (Csv.parseCSV (pppConstRaw raw))).

(** [init()], as far as the state and the country list go: the stores,
    the list, the saved settings, then current prices. *)
Definition init (raw : RawTexts) (storage : Ui.Storage) : State * list Country :=
  let data := initRawData raw in
  let st0 := mkState [] [] data [] "gdp" "current" 1990 2024 2023 in
  let st1 := updateActiveData st0 in
  let countries := countriesOf (gdpCurrent data) in
  (setPriceType "current" (Ui.loadSettings storage st1), countries).

End Collation.

End Countries.

Module Table.
Import App Countries.

Section Sorting.

Variable localeCompare : string -> string -> jsnum.

(** [dataSortField] and [dataSortAsc] *)
Variable dataSortField : string.
Variable dataSortAsc : bool.

(** The codes the table shows: every country when nothing is
    selected. *)
Definition codesToShow (st : State) (countries : list Country) : list string :=
  match selectedCountries st with
  | [] => map c_code countries
  | selected => selected
  end.

(** The comparison function of [updateDataTable]. *)
Definition compareRows (a b : TableRow) : jsnum :=
  let numeric (aVal bVal : jsnum) :=
    if dataSortAsc then Num.sub aVal bVal else Num.sub bVal aVal in
  if String.eqb dataSortField "name" then
    if dataSortAsc then localeCompare (tr_name a) (tr_name b)
    else localeCompare (tr_name b) (tr_name a)
  else if String.eqb dataSortField "gdp" then
    numeric (Val.orNum (tr_gdp a) Num.zero) (Val.orNum (tr_gdp b) Num.zero)
  else if String.eqb dataSortField "ppp" then
    numeric (Val.orNum (tr_ppp a) Num.zero) (Val.orNum (tr_ppp b) Num.zero)
  else if String.eqb dataSortField "ratio" then
    numeric (Val.orNum (tr_ratio a) Num.zero) (Val.orNum (tr_ratio b) Num.zero)
  else if String.eqb dataSortField "growth" then
    numeric (Val.orNum (tr_growth a) NInf) (Val.orNum (tr_growth b) NInf)
  else
    numeric (Val.orNum (tr_gdp a) Num.zero) (Val.orNum (tr_gdp b) Num.zero).

(** [tableData] of [updateDataTable], sorted. *)
Definition tableData (st : State) (countries : list Country) : list TableRow :=
  sort compareRows
       (flat_map (fun code => match tableRow st code with
                              | Some row => [row]
                              | None => []
                              end)
                 (codesToShow st countries)).

End Sorting.

End Table.

Module Search.
Import App Countries.

(** What the [input] listener leaves in the dropdown: nothing when the
    query is empty (the dropdown is hidden), the line [No countries
    found], the items of the results, or nothing again when
    [highlightMatch] throws while the first item is built, before any
    item is appended. *)
Inductive Dropdown : Type :=
| Hidden
| NoResults
| Listed (items : list Country)
| Threw.

Section Input.

(** [s.toLowerCase()] and [s.trim()] on what the user types and on the
    names of the countries, which are not confined to ASCII: the case
    mapping and the white space are the language's.  [Str.toLowerCase]
    and [Str.trim] are what they do on ASCII text. *)
Variable toLowerCase : string -> string.
Variable trim : string -> string.

(** Whether [new RegExp(`(${query})`, 'gi')] in [highlightMatch]
    accepts the query as a pattern: the grammar of patterns is the
    language's. *)
Variable regexCompiles : string -> bool.

(** [const query = e.target.value.toLowerCase().trim()] *)
Definition queryOf (value : string) : string :=
  trim (toLowerCase value).

(** [matches]: the countries whose name or code contains the query,
    the first ten of them. *)
Definition matches (countries : list Country) (query : string) : list Country :=
  firstn 10
    (filter (fun c => Str.includes query (toLowerCase (c_name c))
                      || Str.includes query (toLowerCase (c_code c)))
            countries).

(** The [input] listener of the search box. *)
Definition input (countries : list Country) (value : string) : Dropdown :=
  let query := queryOf value in
  if (String.length query <? 1)%nat then Hidden
  else
    match matches countries query with
    | [] => NoResults
    | found => if regexCompiles query then Listed found else Threw
    end.

End Input.

(** [dropdown.querySelectorAll('.search-result-item')] *)
Definition itemsOf (d : Dropdown) : list Country :=
  match d with
  | Listed items => items
  | Hidden | NoResults | Threw => []
  end.




End Search.

(* ================================================================== *)
(** ** Vocabulary of the sorting properties *)
(* ================================================================== *)

Module SortKey.
Import App MapView Rankings.

(** A sort key that is a finite number or minus infinity. *)
Definition plain (k : jsnum) : Prop := k = NInf \/ exists r, k = Fin r.

(** The order of such keys: minus infinity first. *)
Definition le (a b : jsnum) : Prop :=
  match a, b with
  | NInf, NInf | NInf, Fin _ => True
  | Fin x, Fin y => (x <= y)%R
  | _, _ => False
  end.

(** The number [renderGlobalRankings] compares entries by, for a sort
    field other than [rank] and [name]: a missing or zero value counts
    as 0, for the growth as minus infinity. *)
Definition rankingKey (field : string) (c : CountryStat) : jsnum :=
  if String.eqb field "ppp" then Val.orNum (ppp c) Num.zero
  else if String.eqb field "growth" then Val.orNum (growth c) NInf
  else Val.orNum (gdp c) Num.zero.

(** The entries of a list are in the order of a key, ascending or
    descending. *)
Definition inOrder {A : Type} (key : A -> jsnum) (ascending : bool) (l : list A)
  : Prop :=
  if ascending then StronglySorted (fun a b => le (key a) (key b)) l
  else StronglySorted (fun a b => le (key b) (key a)) l.

End SortKey.

Module SampleSort.
Import MapView Rankings.

(** Three entries, the second without a growth, sorted by growth,
    largest first. *)
Definition byGrowth : RankingsState :=
  mkRankings
    [mkCountryStat 0 "CHL" "Chile" (JNum (Fin 80)) (JNum (Fin 90))
                   (JNum (Fin 2)) (JNum (Fin 1));
     mkCountryStat 1 "ALB" "Albania" (JNum (Fin 50)) JUndefined JNull JNull;
     mkCountryStat 2 "BOL" "Bolivia" (JNum (Fin 30)) (JNum (Fin 60))
                   (JNum (Fin 5)) (JNum (Fin 1))]
    "growth" false EmptyString.

End SampleSort.

Module TableKey.
Import App.

(** The number [updateDataTable] compares rows by, for a sort field
    other than [name]. *)
Definition tableKey (field : string) (r : TableRow) : jsnum :=
  if String.eqb field "ppp" then Val.orNum (tr_ppp r) Num.zero
  else if String.eqb field "ratio" then Val.orNum (tr_ratio r) Num.zero
  else if String.eqb field "growth" then Val.orNum (tr_growth r) NInf
  else Val.orNum (tr_gdp r) Num.zero.

(** Every value a store holds is a finite number or missing. *)
Definition finiteStore (store : SeriesStore) : Prop :=
  forall code ts year,
    Obj.get store code = Some ts ->
    Standing.finiteOrMissing (valueAt ts year).

(** The shown codes found in an active store. *)
Definition hasData (st : State) (code : string) : bool :=
  match Obj.get (gdpData st) code, Obj.get (pppData st) code with
  | None, None => false
  | _, _ => true
  end.

End TableKey.

(* ================================================================== *)
(** ** Vocabulary of the invariants *)
(* ================================================================== *)

Module Invariants.
Import App Ui.

(** The fields of a line once its last character is read: the fields
    pushed so far and the trimmed current field. *)
Definition finish (r : list string * string) : list string :=
  (fst r ++ [Str.trim (snd r)])%list.

(** The state holds the stores of its basis, and the ratio view goes
    with current prices. *)
Definition basisInvariant (raw : RawData) (st : State) : Prop :=
  rawData st = raw /\
  activeMatchesBasis st /\
  (currentView st = "ratio" -> priceType st = "current").

(** The years of the state lie on the sliders, in order. *)
Definition yearsOnSliders (st : State) : Prop :=
  (1960 <= yearStart st <= yearEnd st)%Z /\ (yearEnd st <= 2024)%Z /\
  (1960 <= mapYear st <= 2024)%Z.

(** A storage item holds the year [y]: it exists, is not the empty
    string, [parseInt] reads [y] from it, and [y] lies between 1960 and
    2024. *)
Definition savedYear (item : option string) (y : Z) : Prop :=
  exists saved, item = Some saved /\ saved <> EmptyString /\
                parseInt saved = Some y /\ (1960 <= y <= 2024)%Z.

(** The year [loadSettings] goes on with: the one the item holds, the
    one of the state when the item holds none. *)
Definition yearFrom (item : option string) (current y : Z) : Prop :=
  savedYear item y \/ ((forall z, ~ savedYear item z) /\ y = current).

(** The number [updateInsights] sorts its entries by. *)
Definition endKey (c : InsightStat) : jsnum := Val.toNumber (is_endVal c).

(** The step of the loop that finds [max] in [renderMap]. *)
Definition maxStep (m : jsnum) (c : MapView.CountryStat) : jsnum :=
  if Num.gt (Val.toNumber (MapView.gdp c)) m
  then Val.toNumber (MapView.gdp c) else m.

End Invariants.

Module SampleInsight.
Import App.

(** Albania (50) and Chile (80) selected, for the years 1990 to 2023. *)
Definition state : State :=
  mkState SampleRank.store []
          (mkRawData SampleRank.store [] [] [])
          ["ALB"; "CHL"] "gdp" "current" 1990 2023 2023.

Definition albania : InsightStat :=
  mkInsightStat "ALB" "Albania" JUndefined (JNum (Fin 50)) JNull.

Definition chile : InsightStat :=
  mkInsightStat "CHL" "Chile" JUndefined (JNum (Fin 80)) JNull.

End SampleInsight.

Module SampleNaN.
Import App.

(** A country table with the years 1960 and 2021, and Chile at 80 in
    2021. *)
Definition header : string :=
  Sample.exportLine ["Country Name"; "Country Code"; "Indicator Name";
                     "Indicator Code"; "1960"; "2021"].

Definition chileLine : string :=
  Sample.exportLine ["Chile"; "CHL"; "GDP per capita"; "NY.GDP.PCAP.CD";
                     ""; "80"].

Definition countryTable : string :=
  String.concat Sample.nl (Sample.countryMeta ++ [header; chileLine]).

(** The store [init] builds from that table and the table of states,
    whose cell for New York in 2021 is [n/a] and for Texas 61000. *)
Definition store : SeriesStore :=
  Csv.mergeStateData Sample.stateTable (Csv.parseCSV countryTable).

(** The map shows 2021. *)
Definition state : State :=
  mkState store [] (mkRawData store [] [] []) [] "map" "current" 1990 2024 2021.

End SampleNaN.

(* ================================================================== *)
(** * Properties *)
(* ================================================================== *)

(** ** Literals: a few readings *)

Example parseFloat_int : Lit.parseFloat "1960" = Lit.decimal 1960 0.
Proof. reflexivity. Qed.

Example parseFloat_frac : Lit.parseFloat " -12.50e1x" = Lit.decimal (-1250) (-1).
Proof. reflexivity. Qed.

Example parseFloat_prefix : Lit.parseFloat "12abc" = Lit.decimal 12 0.
Proof. reflexivity. Qed.

Example parseFloat_empty : Lit.parseFloat "" = NaN.
Proof. reflexivity. Qed.

Example parseFloat_text : Lit.parseFloat "N/A" = NaN.
Proof. reflexivity. Qed.

Example parseFloat_dots : Lit.parseFloat ".." = NaN.
Proof. reflexivity. Qed.

Example parseFloat_inf : Lit.parseFloat "-Infinity" = NInf.
Proof. reflexivity. Qed.

Example isNaN_year : Lit.isNaN "1960" = false.
Proof. reflexivity. Qed.

Example isNaN_name : Lit.isNaN "Country Name" = true.
Proof. reflexivity. Qed.

Example isNaN_partial : Lit.isNaN "12abc" = true.
Proof. reflexivity. Qed.

Example isNaN_hex : Lit.isNaN "0x1F" = false.
Proof. reflexivity. Qed.

(* ================================================================== *)
(** ** Facts about dictionaries *)
(* ================================================================== *)

Module ObjFacts.
Import Obj.

Section Facts.
Context {V : Type}.
Implicit Types (o : jsobj V) (k : string) (v : V).

Lemma get_set_eq o k v : get (set o k v) k = Some v.
Proof.
  induction o as [|[k' v'] o IH]; simpl.
  - now rewrite String.eqb_refl.
  - destruct (String.eqb k' k) eqn:E; simpl.
    + now rewrite String.eqb_refl.
    + now rewrite E.
Qed.

Lemma get_set_ne o k k' v : k <> k' -> get (set o k v) k' = get o k'.
Proof.
  intros Hne. induction o as [|[k0 v0] o IH]; simpl.
  - apply String.eqb_neq in Hne. now rewrite Hne.
  - destruct (String.eqb k0 k) eqn:E; simpl.
    + apply String.eqb_eq in E. subst k0.
      apply String.eqb_neq in Hne. now rewrite Hne.
    + now rewrite IH.
Qed.

Lemma set_set_same o k v v' : set (set o k v) k v' = set o k v'.
Proof.
  induction o as [|[k0 v0] o IH]; simpl.
  - now rewrite String.eqb_refl.
  - destruct (String.eqb k0 k) eqn:E; simpl.
    + now rewrite String.eqb_refl.
    + now rewrite E, IH.
Qed.

Lemma keys_set_incl o k v k' : In k' (keys o) -> In k' (keys (set o k v)).
Proof.
  unfold keys. induction o as [|[k0 v0] o IH]; simpl; [tauto|].
  destruct (String.eqb k0 k) eqn:E; simpl.
  - apply String.eqb_eq in E. subst k0. tauto.
  - intros [H|H]; [now left | right; auto].
Qed.

Lemma keys_set_in o k v : In k (keys (set o k v)).
Proof.
  unfold keys. induction o as [|[k0 v0] o IH]; simpl; [now left|].
  destruct (String.eqb k0 k); simpl; [now left | now right].
Qed.

(** Two assignments to different properties commute as soon as one of
    the properties exists already: neither then changes the order. *)
Lemma set_comm o k v k' v' :
  k <> k' -> In k (keys o) ->
  set (set o k v) k' v' = set (set o k' v') k v.
Proof.
  unfold keys. intros Hne.
  induction o as [|[k0 v0] o IH]; simpl; [tauto|].
  intros Hin.
  destruct (String.eqb k0 k) eqn:E; destruct (String.eqb k0 k') eqn:E'; simpl.
  - apply String.eqb_eq in E, E'. congruence.
  - apply String.eqb_eq in E. subst k0.
    apply String.eqb_neq in Hne. rewrite Hne, String.eqb_refl. reflexivity.
  - apply String.eqb_eq in E'. subst k0.
    rewrite String.eqb_refl.
    assert (Hne' : k' <> k) by congruence.
    apply String.eqb_neq in Hne'. now rewrite Hne'.
  - rewrite E, E'. f_equal. apply IH.
    destruct Hin as [H|H]; [|exact H].
    apply String.eqb_neq in E. simpl in H. congruence.
Qed.

Lemma assign_keys_incl us : forall o k, In k (keys o) -> In k (keys (assign us o)).
Proof.
  induction us as [|[k1 v1] us IH]; simpl; intros o k H; [exact H|].
  apply IH. now apply keys_set_incl.
Qed.

Lemma assign_keys_in us : forall o k, In k (map fst us) -> In k (keys (assign us o)).
Proof.
  induction us as [|[k1 v1] us IH]; simpl; intros o k H; [tauto|].
  destruct H as [<-|H].
  - apply assign_keys_incl, keys_set_in.
  - now apply IH.
Qed.

Lemma assign_app us1 us2 o : assign (us1 ++ us2) o = assign us2 (assign us1 o).
Proof. unfold assign. apply fold_left_app. Qed.

(** An assignment made before a run whose properties all exist can be
    made anew after it, with the same result. *)
Lemma assign_set_absorb us : forall o k v,
  (forall k', In k' (map fst us) -> In k' (keys o)) ->
  set (assign us (set o k v)) k v = set (assign us o) k v.
Proof.
  induction us as [|[k1 v1] us IH]; simpl; intros o k v Hin.
  - apply set_set_same.
  - destruct (string_dec k1 k) as [->|Hne].
    + now rewrite set_set_same.
    + rewrite <- (set_comm o k1 v1 k v Hne) by (apply Hin; now left).
      apply IH. intros k' Hk'. apply keys_set_incl. apply Hin. now right.
Qed.

(** Running the same assignments a second time changes nothing. *)
Lemma assign_idempotent us : forall o, assign us (assign us o) = assign us o.
Proof.
  induction us as [|[k v] us IH] using rev_ind; intros o; [reflexivity|].
  rewrite !assign_app. simpl.
  rewrite assign_set_absorb.
  - now rewrite IH.
  - intros k' Hk'. now apply assign_keys_in.
Qed.

(** A run that never assigns to a property leaves it as it was. *)
Lemma get_assign_other us : forall o k,
  ~ In k (map fst us) -> get (assign us o) k = get o k.
Proof.
  induction us as [|[k1 v1] us IH]; simpl; intros o k Hnin; [reflexivity|].
  rewrite IH by tauto. apply get_set_ne. tauto.
Qed.

(** The last assignment to a property decides its value. *)
Lemma get_assign_last us1 us2 o k v :
  ~ In k (map fst us2) ->
  get (assign (us1 ++ (k, v) :: us2) o) k = Some v.
Proof.
  intros Hnin. rewrite assign_app. simpl.
  rewrite get_assign_other by exact Hnin. apply get_set_eq.
Qed.

End Facts.
End ObjFacts.

(* ================================================================== *)
(** ** The country parser: what a lookup returns *)
(* ================================================================== *)

Module CsvFacts.
Import Obj Csv ObjFacts.

Lemma columnStep_update headers parts vals j :
  columnStep headers parts vals j =
  assign (optList (columnUpdate headers parts j)) vals.
Proof.
  unfold columnStep, columnUpdate.
  destruct (nth_error headers j) as [year|]; [|reflexivity].
  now destruct (String.eqb year EmptyString || Lit.isNaN (Str.trim year)).
Qed.

Lemma rowStep_update headers start data line :
  rowStep headers start data line =
  assign (optList (rowUpdate headers start line)) data.
Proof.
  unfold rowStep, rowUpdate.
  destruct (String.eqb (Str.trim line) EmptyString); [reflexivity|].
  now destruct (List.length (parseCSVLine line) <? 5)%nat.
Qed.

Lemma fold_updates {A V : Type} (step : jsobj V -> A -> jsobj V)
      (upd : A -> option (string * V)) :
  (forall o a, step o a = assign (optList (upd a)) o) ->
  forall l o, fold_left step l o = assign (flat_map (fun a => optList (upd a)) l) o.
Proof.
  intros Hstep. induction l as [|a l IH]; intros o; simpl; [reflexivity|].
  now rewrite assign_app, IH, Hstep.
Qed.

Lemma columnLoop_updates headers parts start :
  columnLoop headers parts start =
  assign (flat_map (fun j => optList (columnUpdate headers parts j))
                   (seq start (List.length parts - start))) Obj.empty.
Proof.
  unfold columnLoop. apply fold_updates. intros. apply columnStep_update.
Qed.

Lemma in_flat_map_optList {A K V : Type} (upd : A -> option (K * V)) l k :
  In k (map fst (flat_map (fun a => optList (upd a)) l)) ->
  exists a v, In a l /\ upd a = Some (k, v).
Proof.
  rewrite in_map_iff. intros [[k0 v] [Hk Hin]]. simpl in Hk. subst k0.
  apply in_flat_map in Hin. destruct Hin as [a [Ha Hin]].
  exists a, v. split; [exact Ha|].
  destruct (upd a) as [[k1 v1]|]; simpl in Hin; [|tauto].
  destruct Hin as [Heq|[]]. now inversion Heq.
Qed.

(** The value a column loop leaves for a year: that of the last column
    carrying this year. *)
Lemma columnLoop_get headers parts start j year :
  (start <= j < List.length parts)%nat ->
  nth_error headers j = Some year ->
  year <> EmptyString ->
  Lit.isNaN (Str.trim year) = false ->
  (forall j' v, (j < j' < List.length parts)%nat ->
                columnUpdate headers parts j' <> Some (Str.trim year, v)) ->
  Obj.get (columnLoop headers parts start) (Str.trim year)
  = Some (cellValue (at_ parts j)).
Proof.
  intros Hj Hyear Hne Hnum Hlast.
  rewrite columnLoop_updates.
  replace (List.length parts - start)%nat
    with ((j - start) + S (List.length parts - S j))%nat by lia.
  rewrite seq_app. replace (start + (j - start))%nat with j by lia.
  simpl seq. rewrite flat_map_app. simpl flat_map.
  assert (Hupd : columnUpdate headers parts j
                 = Some (Str.trim year, cellValue (at_ parts j))).
  { unfold columnUpdate. rewrite Hyear.
    apply String.eqb_neq in Hne. now rewrite Hne, Hnum. }
  rewrite Hupd. simpl optList. simpl app.
  apply get_assign_last.
  intros Hin. apply in_flat_map_optList in Hin.
  destruct Hin as [j' [v [Hj' Hupd']]].
  apply in_seq in Hj'. apply (Hlast j' v); [lia | exact Hupd'].
Qed.

End CsvFacts.

(* ================================================================== *)
(** ** Round trip through the country parser *)
(* ================================================================== *)

Section RoundTrip.
Import Obj Csv ObjFacts CsvFacts.

(** The table, line by line: four lines of metadata, the header line,
    data rows, the row looked up, and the rows after it. *)
Variables (csvText headerLine line : string).
Variables (meta before after : list string).
Hypothesis Hlines :
  Str.split newline (Str.trim csvText)
  = (meta ++ headerLine :: before ++ line :: after)%list.
Hypothesis Hmeta : List.length meta = 4%nat.

Let headers := parseCSVLine headerLine.
Let parts := parseCSVLine line.

Hypothesis Hheader : headerLine <> EmptyString.
Variable startYearIdx : nat.
Hypothesis Hstart :
  findIndex (fun h => String.eqb (Str.trim h) "1960") headers = Some startYearIdx.

(** The row is a data row: not blank, at least five fields. *)
Hypothesis Hrow : Str.trim line <> EmptyString.
Hypothesis Hfields : (5 <= List.length parts)%nat.

(** No later data row carries the same code. *)
Hypothesis Hcode : forall l ts,
  In l after -> rowUpdate headers startYearIdx l <> Some (at_ parts 1, ts).

Lemma parseCSV_rows :
  parseCSV csvText
  = assign (flat_map (fun l => optList (rowUpdate headers startYearIdx l))
                     (before ++ line :: after)%list) Obj.empty.
Proof.
  unfold parseCSV. rewrite Hlines.
  destruct meta as [|m1 [|m2 [|m3 [|m4 [|m5 rest]]]]]; try discriminate Hmeta.
  cbv zeta. cbn [app nth_error skipn].
  apply String.eqb_neq in Hheader. rewrite Hheader.
  fold headers. rewrite Hstart.
  apply fold_updates. intros. apply rowStep_update.
Qed.

Lemma parseCSV_entry :
  Obj.get (parseCSV csvText) (at_ parts 1)
  = Some (mkSeries (at_ parts 0) (columnLoop headers parts startYearIdx)).
Proof.
  rewrite parseCSV_rows, flat_map_app. simpl flat_map.
  assert (Hupd : rowUpdate headers startYearIdx line
                 = Some (at_ parts 1,
                         mkSeries (at_ parts 0)
                                  (columnLoop headers parts startYearIdx))).
  { unfold rowUpdate. apply String.eqb_neq in Hrow. rewrite Hrow.
    fold parts. destruct (Nat.ltb_spec (List.length parts) 5); [lia|reflexivity]. }
  rewrite Hupd. simpl optList. simpl app.
  apply get_assign_last.
  intros Hin. apply in_flat_map_optList in Hin.
  destruct Hin as [l [ts [Hl Hupd']]]. exact (Hcode l ts Hl Hupd').
Qed.

(** The cell: column [j], from the first year column on, under a header
    that is a number. *)
Variables (j : nat) (year cell : string).
Hypothesis Hj : (startYearIdx <= j < List.length parts)%nat.
Hypothesis Hyear : nth_error headers j = Some year.
Hypothesis Hyear_ne : year <> EmptyString.
Hypothesis Hyear_num : Lit.isNaN (Str.trim year) = false.
Hypothesis Hcell : nth_error parts j = Some cell.

(** No later column of the row carries the same year. *)
Hypothesis Hcol : forall j' v,
  (j < j' < List.length parts)%nat ->
  columnUpdate headers parts j' <> Some (Str.trim year, v).

(** C1, amended. Parsing a table in the country format and then
    reading [store[code].values[year]], for a cell of a data row,
    returns the number [parseFloat] reads from the cell, the value of
    its longest numeric prefix, and [null] exactly when [parseFloat]
    reads no number from it, as for a blank cell; the marker is [null],
    and NaN is never stored. *)
Theorem parseCSV_round_trip :
  let found := lookupValue (parseCSV csvText) (at_ parts 1) (Str.trim year) in
  (Lit.parseFloat cell <> NaN -> found = Some (JNum (Lit.parseFloat cell))) /\
  (Lit.parseFloat cell = NaN -> found = Some JNull) /\
  (cell = EmptyString -> found = Some JNull) /\
  found <> Some (JNum NaN).
Proof.
  assert (Hfound : lookupValue (parseCSV csvText) (at_ parts 1) (Str.trim year)
                   = Some (cellValue cell)).
  { unfold lookupValue. rewrite parseCSV_entry. simpl values.
    rewrite (columnLoop_get headers parts startYearIdx j year Hj Hyear
                            Hyear_ne Hyear_num Hcol).
    unfold at_. now rewrite (nth_error_nth parts j EmptyString Hcell). }
  cbv zeta. rewrite Hfound. unfold cellValue.
  repeat split.
  - intros Hn. destruct (Lit.parseFloat cell); [congruence| reflexivity ..].
  - intros ->. reflexivity.
  - intros ->. reflexivity.
  - destruct (Lit.parseFloat cell); simpl; discriminate.
Qed.

End RoundTrip.

(** The sample table holds 93.8 for Korea in 1961 and a blank cell
    for 1960. *)
Lemma parseCSV_round_trip_witness :
  lookupValue (Csv.parseCSV Sample.countryTable) "KOR" "1961"
  = Some (JNum (Lit.decimal 938 (-1))).
Proof.
  refine (proj1 (parseCSV_round_trip
           Sample.countryTable Sample.countryHeader Sample.koreaLine
           Sample.countryMeta [Sample.arubaLine] [Sample.chadLine]
           eq_refl eq_refl _ 4%nat eq_refl _ _ _
           5%nat "1961" "93.8" _ eq_refl _ eq_refl eq_refl _) _).
  - discriminate.
  - discriminate.
  - vm_compute. lia.
  - intros l ts [<-|[]]. vm_compute. intros H. inversion H.
  - vm_compute. lia.
  - discriminate.
  - intros j' v Hj'. vm_compute in Hj'.
    assert (j' = 6%nat) as -> by lia. vm_compute. discriminate.
  - discriminate.
Defined.

(** C1 as the specification states it fails: the cells [12abc] and
    [0,5] are not numbers, yet the store holds 12 for the first, not
    [null], and 0 for the second, a zero the cell does not state. *)
Lemma parseCSV_non_numeric_counterexample :
  Csv.at_ (Csv.parseCSVLine SampleLoose.otherLine) 4 = "12abc" /\
  Csv.at_ (Csv.parseCSVLine SampleLoose.otherLine) 5 = "0,5" /\
  Lit.isNaN "12abc" = true /\
  Lit.isNaN "0,5" = true /\
  lookupValue (Csv.parseCSV SampleLoose.table) "OTH" "1960"
  = Some (JNum (Fin 12)) /\
  lookupValue (Csv.parseCSV SampleLoose.table) "OTH" "1961"
  = Some (JNum (Fin 0)).
Proof.
  assert (H12 : Lit.decimal 12 0 = Fin 12).
  { unfold Lit.decimal. simpl. f_equal. lra. }
  assert (H0 : Lit.decimal 0 0 = Fin 0).
  { unfold Lit.decimal. simpl. f_equal. lra. }
  repeat (split; [reflexivity|]).
  split.
  - rewrite <- H12. reflexivity.
  - rewrite <- H0. reflexivity.
Qed.

(* ================================================================== *)
(** ** Merging the tables of US states *)
(* ================================================================== *)

Module MergeFacts.
Import Obj Csv Merge ObjFacts CsvFacts.

Lemma stateRowStep_update years target line :
  stateRowStep years target line =
  assign (optList (stateRowUpdate years line)) target.
Proof.
  unfold stateRowStep, stateRowUpdate.
  destruct (String.eqb (Str.trim line) EmptyString); [reflexivity|].
  now destruct (List.length (parseCSVLine line) <? 2)%nat.
Qed.

Lemma stateYearStep_update years parts vals y :
  stateYearStep years parts vals y =
  assign (optList (stateYearUpdate years parts y)) vals.
Proof.
  unfold stateYearStep, stateYearUpdate.
  destruct (y + 1 <? List.length parts)%nat; [|reflexivity].
  now destruct (negb (String.eqb (at_ parts (y + 1)) EmptyString)).
Qed.

Lemma mergeStateData_assign csvText target :
  mergeStateData csvText target = assign (stateUpdates csvText) target.
Proof.
  unfold mergeStateData, stateUpdates. cbv zeta.
  apply fold_updates. intros. apply stateRowStep_update.
Qed.

Lemma length_mapChars f s : String.length (Str.mapChars f s) = String.length s.
Proof. induction s; simpl; congruence. Qed.

Lemma length_append (s t : string) :
  String.length (s ++ t) = (String.length s + String.length t)%nat.
Proof. induction s; simpl; congruence. Qed.

End MergeFacts.

(** C9. Merging the same state table into a store a second time
    leaves the store exactly as the first merge left it: same keys in
    the same order, same names, same values. *)
Theorem mergeStateData_idempotent (csvText : string) (target : SeriesStore) :
  Csv.mergeStateData csvText (Csv.mergeStateData csvText target)
  = Csv.mergeStateData csvText target.
Proof.
  rewrite !MergeFacts.mergeStateData_assign.
  apply ObjFacts.assign_idempotent.
Qed.

(** C10. The code of a state is a function of its name alone: the
    prefix, then the name with white space runs replaced by underscores,
    in upper case.  It starts with [USA_ST_], has at least seven code
    units, and is therefore no three-letter country code. *)
Theorem stateCode_not_country_code (name code : string) :
  Merge.isCountryCode code ->
  Csv.stateCode name = "USA_ST_" ++ Str.toUpperCase (Str.replaceSpaces name) /\
  (forall name', name' = name -> Csv.stateCode name' = Csv.stateCode name) /\
  Str.startsWith "USA_ST_" (Csv.stateCode name) = true /\
  (7 <= String.length (Csv.stateCode name))%nat /\
  Csv.stateCode name <> code.
Proof.
  unfold Merge.isCountryCode. intros Hcode.
  assert (Hlen : (7 <= String.length (Csv.stateCode name))%nat).
  { unfold Csv.stateCode. rewrite MergeFacts.length_append. simpl. lia. }
  split; [reflexivity|].
  split; [now intros name' ->|].
  split; [reflexivity|].
  split; [exact Hlen|].
  intros Heq. rewrite Heq in Hlen. lia.
Qed.

Lemma stateCode_not_country_code_witness :
  Csv.stateCode "New  York" = "USA_ST_NEW_YORK" /\
  Csv.stateCode "New  York" <> "USA".
Proof.
  split; [reflexivity|].
  apply (stateCode_not_country_code "New  York" "USA"). reflexivity.
Defined.

(** C2 (the merge path). A cell of a state table that is not empty is
    stored as [parseFloat] reads it, without the NaN test of [parseCSV]:
    the cell [n/a] of the sample table is stored as NaN. *)
Theorem mergeStateData_stores_NaN :
  lookupValue (Csv.mergeStateData Sample.stateTable Obj.empty)
              "USA_ST_NEW_YORK" "2021" = Some (JNum NaN) /\
  ~ Merge.wellFormedValue (JNum NaN).
Proof.
  split; [reflexivity|].
  intros [H|[r H]]; discriminate.
Qed.

(** The sample tables, parsed and merged: one entry per row, quoted
    names kept whole, state codes synthesised. *)
Example sample_country_keys :
  Obj.keys (Csv.parseCSV Sample.countryTable) = ["ABW"; "KOR"; "TCD"] /\
  option_map name (Obj.get (Csv.parseCSV Sample.countryTable) "KOR")
  = Some "Korea, Rep.".
Proof. split; reflexivity. Qed.

Example sample_state_keys :
  Obj.keys (Csv.mergeStateData Sample.stateTable
              (Csv.parseCSV Sample.countryTable))
  = ["ABW"; "KOR"; "TCD"; "USA_ST_NEW_YORK"; "USA_ST_TEXAS"].
Proof. reflexivity. Qed.

(* ================================================================== *)
(** ** What the country parser stores *)
(* ================================================================== *)

Module StoredValues.
Import Obj Csv ObjFacts CsvFacts.

Lemma get_assign_inv {V : Type} (us : list (string * V)) :
  forall (o : jsobj V) k v,
    get (assign us o) k = Some v -> In (k, v) us \/ get o k = Some v.
Proof.
  induction us as [|[k1 v1] us IH]; simpl; intros o k v H; [now right|].
  apply IH in H. destruct H as [H|H]; [left; now right|].
  destruct (string_dec k1 k) as [->|Hne].
  - rewrite get_set_eq in H. inversion H. left. now left.
  - rewrite get_set_ne in H by exact Hne. now right.
Qed.

Lemma in_flat_map_optList_pair {A K V : Type} (upd : A -> option (K * V)) l kv :
  In kv (flat_map (fun a => optList (upd a)) l) ->
  exists a, In a l /\ upd a = Some kv.
Proof.
  intros Hin. apply in_flat_map in Hin. destruct Hin as [a [Ha Hin]].
  exists a. split; [exact Ha|].
  destruct (upd a) as [kv'|]; simpl in Hin; [|tauto].
  destruct Hin as [->|[]]. reflexivity.
Qed.

Lemma cellValue_not_NaN cell :
  cellValue cell = JNull \/
  exists n, cellValue cell = JNum n /\ n <> NaN.
Proof.
  unfold cellValue. destruct (Lit.parseFloat cell) eqn:E; simpl.
  - now left.
  - right. exists PInf. split; [reflexivity|discriminate].
  - right. exists NInf. split; [reflexivity|discriminate].
  - right. exists (Fin r). split; [reflexivity|discriminate].
Qed.

Lemma columnLoop_not_NaN headers parts start year v :
  get (columnLoop headers parts start) year = Some v ->
  v = JNull \/ exists n, v = JNum n /\ n <> NaN.
Proof.
  rewrite columnLoop_updates. intros H.
  apply get_assign_inv in H. destruct H as [H|H]; [|discriminate].
  apply in_flat_map_optList_pair in H. destruct H as [j [_ H]].
  unfold columnUpdate in H.
  destruct (nth_error headers j) as [y|]; [|discriminate].
  destruct (String.eqb y EmptyString || Lit.isNaN (Str.trim y)); [discriminate|].
  inversion H. apply cellValue_not_NaN.
Qed.

(** Every value [parseCSV] stores is [null] or a number other than
    NaN. *)
Lemma parseCSV_not_NaN csvText code ts year v :
  get (parseCSV csvText) code = Some ts ->
  get (values ts) year = Some v ->
  v = JNull \/ exists n, v = JNum n /\ n <> NaN.
Proof.
  unfold parseCSV. cbv zeta.
  destruct (nth_error _ 4) as [headerLine|]; [|discriminate].
  destruct (String.eqb headerLine EmptyString); [discriminate|].
  destruct (findIndex _ _) as [start|]; [|discriminate].
  rewrite (fold_updates _ _ (rowStep_update (parseCSVLine headerLine) start)).
  intros Hget Hval. apply get_assign_inv in Hget.
  destruct Hget as [Hin|Hget]; [|discriminate].
  apply in_flat_map_optList_pair in Hin. destruct Hin as [l [_ Hupd]].
  unfold rowUpdate in Hupd.
  destruct (String.eqb (Str.trim l) EmptyString); [discriminate|].
  destruct (List.length (parseCSVLine l) <? 5)%nat; [discriminate|].
  inversion Hupd. subst ts. simpl in Hval.
  now apply columnLoop_not_NaN in Hval.
Qed.

(** A cell spelling [Infinity] is stored as the number it names. *)
Example cellValue_Infinity : cellValue "Infinity" = JNum PInf.
Proof. reflexivity. Qed.

End StoredValues.

(* ================================================================== *)
(** ** Arithmetic on numbers *)
(* ================================================================== *)

(** Decide the comparisons of real numbers an evaluation is stuck on,
    closing the branch that contradicts the arithmetic. *)
Ltac js_decide :=
  repeat match goal with
         | |- context [Req_dec_T ?a ?b] =>
             destruct (Req_dec_T a b); try lra; try contradiction
         | |- context [Rlt_dec ?a ?b] =>
             destruct (Rlt_dec a b); try lra
         end.

Module NumFacts.

Lemma truthy_Fin r : r <> 0%R -> Val.truthy (JNum (Fin r)) = true.
Proof. intros H. simpl. now destruct (Req_dec_T r 0). Qed.


Lemma div_Fin x y : y <> 0%R -> Num.div (Fin x) (Fin y) = Fin (x / y).
Proof. intros H. simpl. now destruct (Req_dec_T y 0). Qed.

Lemma sub_Fin x y : Num.sub (Fin x) (Fin y) = Fin (x - y).
Proof. reflexivity. Qed.

Lemma mul_Fin x y : Num.mul (Fin x) (Fin y) = Fin (x * y).
Proof. reflexivity. Qed.

Lemma add_Fin x y : Num.add (Fin x) (Fin y) = Fin (x + y).
Proof. reflexivity. Qed.

End NumFacts.

(* ================================================================== *)
(** ** Growth over an interval *)
(* ================================================================== *)




(* ================================================================== *)
(** ** The price level ratio and the price basis *)
(* ================================================================== *)

Module RatioFacts.
Import App MapView.

Lemma ratioOf_Fin g p :
  g <> 0%R -> p <> 0%R ->
  ratioOf (JNum (Fin g)) (JNum (Fin p)) = JNum (Fin (g / p)).
Proof.
  intros Hg Hp. unfold ratioOf.
  rewrite !NumFacts.truthy_Fin by assumption. simpl andb. cbv iota.
  simpl Val.toNumber. now rewrite NumFacts.div_Fin.
Qed.

(** The ratio chart reads the current-price stores whatever the price
    basis. *)
Lemma createRatioDatasets_any_basis st type years :
  createRatioDatasets (setPriceType type st) years = createRatioDatasets st years.
Proof.
  unfold createRatioDatasets, ratioDataset, setPriceType, updateActiveData.
  simpl. now destruct (String.eqb type "current").
Qed.

(** So does the ratio column of the data table. *)
Lemma tableRow_ratio_current st code row :
  tableRow st code = Some row ->
  tr_ratio row =
  ratioOf (valueOrNull (Obj.get (gdpCurrent (rawData st)) code) (yearEnd st))
          (valueOrNull (Obj.get (pppCurrent (rawData st)) code) (yearEnd st)).
Proof.
  unfold tableRow.
  destruct (Obj.get (gdpData st) code), (Obj.get (pppData st) code);
    intros H; inversion H; reflexivity.
Qed.

(** The tooltip of the map reads the active stores. *)
Lemma tooltip_ratio_active toFixed mapNoData st stats feature :
  tip_ratio (featurePath toFixed mapNoData st stats feature) =
  ratioOf (valueOrNull (Obj.get (gdpData st) (f_code feature)) (mapYear st))
          (valueOrNull (Obj.get (pppData st) (f_code feature)) (mapYear st)).
Proof. reflexivity. Qed.

End RatioFacts.

(** C6 (the map tooltip). With constant prices chosen, the data table
    and the ratio chart still divide the current-price series (100 over
    50), while the tooltip of the map and the statistics behind it
    divide the constant-price series (90 over 30). *)
Theorem tooltip_ratio_follows_price_basis
        (toFixed : jsnum -> nat -> string) (mapNoData : string) :
  let st := SampleState.onConstant in
  App.priceType st = "constant" /\
  option_map App.tr_ratio (App.tableRow st "USA") = Some (JNum (Fin (100 / 50))) /\
  map App.rd_data (App.createRatioDatasets st [2023%Z])
  = [[JNum (Fin (100 / 50))]] /\
  MapView.tip_ratio
    (MapView.featurePath toFixed mapNoData st (MapView.countryStats st)
                         SampleState.usaFeature)
  = JNum (Fin (90 / 30)) /\
  map MapView.ratio (MapView.countryStats st) = [JNum (Fin (90 / 30))] /\
  Fin (90 / 30) <> Fin (100 / 50).
Proof.
  cbv zeta.
  assert (Hcur : App.ratioOf (JNum (Fin 100)) (JNum (Fin 50)) = JNum (Fin (100 / 50)))
    by (apply RatioFacts.ratioOf_Fin; lra).
  assert (Hcon : App.ratioOf (JNum (Fin 90)) (JNum (Fin 30)) = JNum (Fin (90 / 30)))
    by (apply RatioFacts.ratioOf_Fin; lra).
  split; [reflexivity|].
  split; [rewrite <- Hcur; reflexivity|].
  split; [rewrite <- Hcur; reflexivity|].
  split; [rewrite <- Hcon; reflexivity|].
  split; [rewrite <- Hcon; reflexivity|].
  intros H. inversion H. lra.
Qed.

(* ================================================================== *)
(** ** The colour scale of the map *)
(* ================================================================== *)

Module ScaleFacts.
Import App MapView.

Lemma Int_part_IZR z : Int_part (IZR z) = z.
Proof. symmetry. apply Int_part_spec. lra. Qed.

Lemma ln_pos x : (1 < x)%R -> (0 < ln x)%R.
Proof.
  intros H. rewrite <- ln_1. apply ln_increasing; lra.
Qed.

Lemma ln_neg x : (0 < x < 1)%R -> (ln x < 0)%R.
Proof.
  intros H. rewrite <- ln_1. apply ln_increasing; lra.
Qed.

Lemma arrayGet_IZR {A : Type} (arr : list A) z :
  (0 <= z)%Z -> arrayGet arr (Fin (IZR z)) = nth_error arr (Z.to_nat z).
Proof.
  intros Hz. unfold arrayGet. rewrite Int_part_IZR.
  destruct (Req_dec_T (IZR z) (IZR z)); [|contradiction].
  destruct (Z.ltb_spec z 0); [lia|reflexivity].
Qed.

Lemma arrayGet_negative {A : Type} (arr : list A) r :
  (r < 0)%R -> arrayGet arr (Fin r) = None.
Proof.
  intros Hr. unfold arrayGet.
  destruct (Req_dec_T r (IZR (Int_part r))); [|reflexivity].
  destruct (Z.ltb_spec (Int_part r) 0); [reflexivity|].
  apply IZR_le in H. lra.
Qed.

(** The bucket of a positive value on a scale whose maximum is
    positive and not 1: [min(floor(t * 5), 4)] with
    [t = ln v / ln max], read in the palette; below zero it falls off
    the palette. *)
Lemma colorScale_bucket noData v m :
  (0 < v)%R -> (0 < m)%R -> m <> 1%R ->
  colorScale noData (Fin m) (JNum (Fin v)) =
  let z := Int_part (ln v / ln m * 5) in
  if (z <? 0)%Z then None else nth_error colors (Z.to_nat (Z.min z 4)).
Proof.
  intros Hv Hm Hm1. cbv zeta.
  assert (Hln : ln m <> 0%R) by (apply ln_neq_0; assumption).
  unfold colorScale, Num.Math_log.
  destruct (Rlt_dec v 0); [lra|]. destruct (Req_dec_T v 0); [lra|].
  destruct (Rlt_dec m 0); [lra|]. destruct (Req_dec_T m 0); [lra|].
  rewrite NumFacts.div_Fin by exact Hln.
  change (Num.ofZ (Z.of_nat (List.length colors))) with (Fin 5).
  rewrite NumFacts.mul_Fin, NumFacts.sub_Fin.
  unfold Num.Math_floor.
  set (z := Int_part (ln v / ln m * 5)).
  replace (5 - 1)%R with (IZR 4) by lra.
  unfold Num.Math_min, Num.lt.
  destruct (Rlt_dec (IZR 4) (IZR z)) as [Hlt|Hge].
  - apply lt_IZR in Hlt.
    destruct (Z.ltb_spec z 0); [lia|].
    rewrite arrayGet_IZR by lia. now rewrite Z.min_r by lia.
  - assert (Hz : (z <= 4)%Z).
    { destruct (Z.le_gt_cases z 4) as [Hle|Hgt]; [exact Hle|].
      exfalso. apply Hge. apply IZR_lt. lia. }
    destruct (Z.ltb_spec z 0) as [Hneg|Hpos].
    + apply arrayGet_negative. apply (IZR_lt z 0). exact Hneg.
    + rewrite arrayGet_IZR by lia. now rewrite Z.min_l by lia.
Qed.

(** The scale maximum of statistics that all carry the same finite
    value. *)
Lemma scaleMax_constant r stats :
  stats <> [] ->
  (forall c, In c stats -> gdp c = JNum (Fin r)) ->
  scaleMax stats = Fin r.
Proof.
  intros Hne Hall. unfold scaleMax.
  destruct stats as [|c0 stats]; [contradiction|]. simpl.
  rewrite (Hall c0) by now left. simpl.
  assert (Hrest : forall l, (forall c, In c l -> gdp c = JNum (Fin r)) ->
            fold_left (fun m c => if Num.gt (Val.toNumber (gdp c)) m
                                  then Val.toNumber (gdp c) else m) l (Fin r)
            = Fin r).
  { induction l as [|c l IH]; intros Hl; simpl; [reflexivity|].
    rewrite (Hl c) by now left. simpl.
    destruct (Rlt_dec r r); [lra|]. apply IH. intros c' Hc'. apply Hl. now right. }
  apply Hrest. intros c Hc. apply Hall. now right.
Qed.

Lemma scaleMin_constant r stats :
  stats <> [] ->
  (forall c, In c stats -> gdp c = JNum (Fin r)) ->
  scaleMin stats = Fin r.
Proof.
  intros Hne Hall. unfold scaleMin.
  destruct stats as [|c0 stats]; [contradiction|]. simpl.
  rewrite (Hall c0) by now left. simpl.
  assert (Hrest : forall l, (forall c, In c l -> gdp c = JNum (Fin r)) ->
            fold_left (fun m c => if Num.lt (Val.toNumber (gdp c)) m
                                  then Val.toNumber (gdp c) else m) l (Fin r)
            = Fin r).
  { induction l as [|c l IH]; intros Hl; simpl; [reflexivity|].
    rewrite (Hl c) by now left. simpl.
    destruct (Rlt_dec r r); [lra|]. apply IH. intros c' Hc'. apply Hl. now right. }
  apply Hrest. intros c Hc. apply Hall. now right.
Qed.

(** The scale of the sample with a zero: its maximum is 10000. *)
Lemma withZero_scaleMax :
  scaleMax (countryStats SampleState.withZero) = Fin 10000.
Proof.
  unfold countryStats, App.sort.
  change (pushedStats SampleState.withZero)
    with [mkCountryStat 0 "TCD" "Chad" (JNum (Fin 0)) JUndefined
            (growthPct (JNum (Fin 0)) (JNum (Fin 0)))
            (ratioOf (JNum (Fin 0)) JUndefined);
          mkCountryStat 1 "KOR" "Korea, Rep." (JNum (Fin 10000)) JUndefined
            (growthPct (JNum (Fin 10000)) (JNum (Fin 9000)))
            (ratioOf (JNum (Fin 10000)) JUndefined)].
  cbn [fold_right sortInsert]. unfold byGdpDescending at 1.
  cbn [gdp Val.toNumber]. rewrite NumFacts.sub_Fin.
  unfold Num.gt at 1. unfold Num.lt, Num.zero. js_decide.
  unfold scaleMax. cbn [fold_left gdp Val.toNumber].
  unfold Num.gt, Num.lt. js_decide. reflexivity.
Qed.

End ScaleFacts.

(** C4 as the specification states it fails: when every value is
    10000 the regions get the last, darkest colour of the palette, not
    the first. *)
Lemma colorScale_degenerate_counterexample :
  let stats := SampleStats.degenerate in
  MapView.colorScale "#f3f4f6" (MapView.scaleMax stats) (JNum (Fin 10000))
  = Some "#1e3a8a" /\
  hd_error MapView.colors = Some "#dbeafe" /\
  Some "#1e3a8a" <> hd_error MapView.colors.
Proof.
  cbv zeta. split; [|split; [reflexivity|discriminate]].
  rewrite (ScaleFacts.scaleMax_constant 10000).
  - rewrite ScaleFacts.colorScale_bucket by lra.
    replace (ln 10000 / ln 10000 * 5)%R with (IZR 5).
    + rewrite ScaleFacts.Int_part_IZR. reflexivity.
    + pose proof (ScaleFacts.ln_pos 10000 ltac:(lra)). field. lra.
  - discriminate.
  - intros c [<-|[<-|[]]]; reflexivity.
Qed.

(** C4, amended. When every defined value is 10000, the minimum and
    the maximum of the scale are both 10000, the normalised value is
    exactly 1 (the divisor [ln 10000] is not zero, nothing is NaN), and
    every region with a value gets the same colour: the last, darkest
    entry of the palette, index [colors.length - 1]. *)
Theorem colorScale_degenerate_range (noData : string)
        (stats : list MapView.CountryStat) :
  stats <> [] ->
  (forall c, In c stats -> MapView.gdp c = JNum (Fin 10000)) ->
  MapView.scaleMin stats = Fin 10000 /\
  MapView.scaleMax stats = Fin 10000 /\
  Num.div (Num.Math_log (Fin 10000)) (Num.Math_log (MapView.scaleMax stats))
  = Fin 1 /\
  (forall c, In c stats ->
     MapView.colorScale noData (MapView.scaleMax stats) (MapView.gdp c)
     = Some "#1e3a8a") /\
  nth_error MapView.colors (List.length MapView.colors - 1) = Some "#1e3a8a".
Proof.
  intros Hne Hall.
  pose proof (ScaleFacts.ln_pos 10000 ltac:(lra)) as Hln.
  rewrite (ScaleFacts.scaleMax_constant 10000 stats Hne Hall).
  split; [now apply ScaleFacts.scaleMin_constant|].
  split; [reflexivity|].
  split.
  { unfold Num.Math_log.
    destruct (Rlt_dec 10000 0); [lra|]. destruct (Req_dec_T 10000 0); [lra|].
    rewrite NumFacts.div_Fin by lra. f_equal. field. lra. }
  split; [|reflexivity].
  intros c Hc. rewrite (Hall c Hc).
  rewrite ScaleFacts.colorScale_bucket by lra.
  replace (ln 10000 / ln 10000 * 5)%R with (IZR 5) by (field; lra).
  rewrite ScaleFacts.Int_part_IZR. reflexivity.
Qed.

Lemma colorScale_degenerate_range_witness :
  Forall (fun c =>
            MapView.colorScale "#f3f4f6" (MapView.scaleMax SampleStats.degenerate)
                               (MapView.gdp c)
            = Some "#1e3a8a")
         SampleStats.degenerate.
Proof.
  apply Forall_forall.
  apply (colorScale_degenerate_range "#f3f4f6" SampleStats.degenerate).
  - discriminate.
  - intros c [<-|[<-|[]]]; reflexivity.
Defined.

(** C3 (values the logarithm does not take). [colorScale] has no
    test for values at or below zero and no lower clamp: for 0 the
    index is minus infinity, for a negative value it is NaN, for a
    value between 0 and 1 it is negative; in each case the palette is
    read outside its bounds and the result is [undefined], not the
    no-data colour.  A region whose value for the year of the map is 0
    gets its fill that way. *)
Theorem colorScale_nonpositive_undefined
        (toFixed : jsnum -> nat -> string) (mapNoData noData : string) :
  MapView.mp_fill
    (MapView.featurePath toFixed mapNoData SampleState.withZero
       (MapView.countryStats SampleState.withZero) SampleState.chadFeature)
  = None /\
  MapView.colorScale noData (Fin 10000) (JNum (Fin 0)) = None /\
  MapView.colorScale noData (Fin 10000) (JNum (Fin (-5))) = None /\
  MapView.colorScale noData (Fin 10000) (JNum (Fin (1 / 2))) = None /\
  Num.Math_log (Fin 0) = NInf /\
  Num.Math_log (Fin (-5)) = NaN /\
  MapView.colorScale noData (Fin 10000) JNull = Some noData.
Proof.
  pose proof (ScaleFacts.ln_pos 10000 ltac:(lra)) as Hln.
  assert (Hlog0 : Num.Math_log (Fin 0) = NInf).
  { unfold Num.Math_log. now js_decide. }
  assert (Hlogn : Num.Math_log (Fin (-5)) = NaN).
  { unfold Num.Math_log. now js_decide. }
  assert (Hlogm : Num.Math_log (Fin 10000) = Fin (ln 10000)).
  { unfold Num.Math_log. now js_decide. }
  assert (Hzero : forall nd,
             MapView.colorScale nd (Fin 10000) (JNum (Fin 0)) = None).
  { intros nd. unfold MapView.colorScale. rewrite Hlog0, Hlogm.
    unfold Num.div, Num.sign. js_decide. simpl.
    js_decide. reflexivity. }
  split; [|split; [|split; [|split; [|split; [|split]]]]];
    try assumption; try reflexivity.
  - unfold MapView.featurePath. cbn [MapView.mp_fill].
    rewrite ScaleFacts.withZero_scaleMax. apply Hzero.
  - apply Hzero.
  - unfold MapView.colorScale. rewrite Hlogn. reflexivity.
  - rewrite ScaleFacts.colorScale_bucket by lra.
    cbv zeta.
    pose proof (ScaleFacts.ln_neg (1 / 2) ltac:(lra)) as Hhalf.
    set (r := (ln (1 / 2) / ln 10000 * 5)%R).
    assert (Hr : (r < 0)%R).
    { unfold r. assert (ln (1 / 2) / ln 10000 < 0)%R; [|lra].
      assert (H1 : (0 < - ln (1 / 2) / ln 10000)%R)
        by (apply Rdiv_lt_0_compat; lra).
      replace (ln (1 / 2) / ln 10000)%R
        with (- (- ln (1 / 2) / ln 10000))%R by (field; lra).
      lra. }
    destruct (base_Int_part r) as [Hle _].
    destruct (Z.ltb_spec (Int_part r) 0) as [Hneg|Hpos]; [reflexivity|].
    exfalso. apply IZR_le in Hpos. lra.
Qed.

(* ================================================================== *)
(** ** The projection of the map *)
(* ================================================================== *)

Module ProjectionFacts.
Import MapView.

(** A latitude at or beyond the bound is clamped to the bound. *)
Lemma clamp_north lat :
  (85 <= lat)%R ->
  Num.Math_min maxLat (Fin lat) = maxLat.
Proof.
  intros H. unfold Num.Math_min, maxLat, Num.lt.
  destruct (Rlt_dec lat 85); [lra|reflexivity].
Qed.

Lemma clamp_south lat :
  (lat <= -85)%R ->
  Num.Math_max (Num.neg maxLat) (Num.Math_min maxLat (Fin lat))
  = Num.neg maxLat.
Proof.
  intros H. unfold Num.Math_min, Num.Math_max, maxLat, Num.neg, Num.lt.
  destruct (Rlt_dec lat 85); [|lra].
  js_decide. reflexivity.
Qed.

(** The abscissa is [(lon + 180) * (width / 360)] whatever the
    latitude. *)
Lemma projectXY_x width height lon lat :
  fst (projectXY (Fin width) (Fin height) (Fin lon, lat))
  = Fin ((lon + 180) * (width / 360)).
Proof.
  unfold projectXY. cbn [fst snd].
  rewrite NumFacts.add_Fin, NumFacts.div_Fin by lra. reflexivity.
Qed.

End ProjectionFacts.

(** C7. On a canvas of size [(W, H)]: the vertex at longitude -180 and
    latitude 0 has abscissa 0; a vertex at longitude 180 has abscissa
    [W]; a vertex whose latitude is 85 degrees or more is projected, and
    printed, exactly as the vertex of the same longitude at latitude
    85. *)
Theorem projection_boundary (toFixed : jsnum -> nat -> string)
        (W H : R) (lon : jsnum) (lat : R) :
  (85 <= lat)%R ->
  fst (MapView.projectXY (Fin W) (Fin H) (Fin (-180), Fin 0)) = Fin 0 /\
  (forall phi, fst (MapView.projectXY (Fin W) (Fin H) (Fin 180, phi)) = Fin W) /\
  MapView.projectXY (Fin W) (Fin H) (lon, Fin lat)
  = MapView.projectXY (Fin W) (Fin H) (lon, Fin 85) /\
  MapView.project toFixed (Fin W) (Fin H) (lon, Fin lat)
  = MapView.project toFixed (Fin W) (Fin H) (lon, Fin 85).
Proof.
  intros Hlat.
  assert (Hxy : MapView.projectXY (Fin W) (Fin H) (lon, Fin lat)
                = MapView.projectXY (Fin W) (Fin H) (lon, Fin 85)).
  { unfold MapView.projectXY. cbn [fst snd].
    rewrite (ProjectionFacts.clamp_north lat Hlat).
    rewrite (ProjectionFacts.clamp_north 85) by lra. reflexivity. }
  split; [|split; [|split]].
  - rewrite ProjectionFacts.projectXY_x. f_equal. lra.
  - intros phi. rewrite ProjectionFacts.projectXY_x. f_equal. field.
  - exact Hxy.
  - unfold MapView.project. now rewrite Hxy.
Qed.

Lemma projection_boundary_witness :
  MapView.projectXY (Fin 1000) (Fin 600) (Fin 10, Fin 89)
  = MapView.projectXY (Fin 1000) (Fin 600) (Fin 10, Fin 85).
Proof.
  apply (projection_boundary (fun _ _ => EmptyString) 1000 600 (Fin 10) 89).
  lra.
Defined.

(* ================================================================== *)
(** ** Ranks in the global rankings table *)
(* ================================================================== *)

Module RankFacts.
Import App MapView Rankings Standing.

Section Sorting.
Context {A : Type} (cmp : A -> A -> jsnum).

Lemma sortInsert_perm x l : Permutation (sortInsert cmp x l) (x :: l).
Proof.
  induction l as [|y l IH]; cbn [sortInsert]; [reflexivity|].
  destruct (Num.gt (cmp x y) Num.zero); [|reflexivity].
  rewrite IH. apply perm_swap.
Qed.

Lemma sort_perm l : Permutation (sort cmp l) l.
Proof.
  induction l as [|x l IH]; simpl; [reflexivity|].
  rewrite sortInsert_perm. now constructor.
Qed.

Lemma sort_In l x : In x (sort cmp l) <-> In x l.
Proof.
  split; apply Permutation_in; [|symmetry]; apply sort_perm.
Qed.

End Sorting.

(** *** Identities *)

Lemma combine_seq_fst {B : Type} (l : list B) start :
  map fst (combine (seq start (List.length l)) l) = seq start (List.length l).
Proof.
  revert start. induction l as [|b l IH]; intros start; simpl; [reflexivity|].
  now rewrite IH.
Qed.

Lemma countryStat_ref st i code c :
  countryStat st i code = Some c -> ref c = i.
Proof.
  unfold countryStat.
  destruct (Obj.get (gdpData st) code); [|discriminate].
  destruct (Val.isPresent _); [|discriminate].
  intros H. now inversion H.
Qed.

Lemma refs_of_pushed st (l : list (nat * string)) :
  NoDup (map fst l) ->
  NoDup (map ref (flat_map (fun rc => match countryStat st (fst rc) (snd rc) with
                                      | Some c => [c]
                                      | None => []
                                      end) l))
  /\ forall r, In r (map ref (flat_map (fun rc =>
                                match countryStat st (fst rc) (snd rc) with
                                | Some c => [c]
                                | None => []
                                end) l)) -> In r (map fst l).
Proof.
  induction l as [|[i code] l IH]; simpl; intros Hnd.
  - split; [constructor|tauto].
  - inversion Hnd as [|? ? Hnotin Hnd']. subst.
    destruct (IH Hnd') as [IH1 IH2].
    destruct (countryStat st i code) as [c|] eqn:E; simpl.
    + apply countryStat_ref in E. rewrite E. split.
      * constructor; [|exact IH1]. intros Hin. apply Hnotin. now apply IH2.
      * intros r [<-|Hr]; [now left | right; now apply IH2].
    + split; [exact IH1|]. intros r Hr. right. now apply IH2.
Qed.

(** The entries of [countryStats] are distinct objects. *)
Lemma countryStats_refs st : NoDup (map ref (countryStats st)).
Proof.
  unfold countryStats.
  apply (Permutation_NoDup (l := map ref (pushedStats st))).
  - apply Permutation_map. symmetry. apply sort_perm.
  - unfold pushedStats. cbv zeta. apply refs_of_pushed.
    rewrite combine_seq_fst. apply seq_NoDup.
Qed.


(** [indexOf] looks at the identity only. *)
Lemma indexOf_ref data c c' : ref c = ref c' -> indexOf data c = indexOf data c'.
Proof.
  intros H. induction data as [|x data IH]; simpl; [reflexivity|].
  now rewrite H, IH.
Qed.

(** *** Order by GDP *)

Lemma sortInsert_sorted x l :
  (exists r, gdp x = JNum (Fin r)) ->
  (forall c, In c l -> exists r, gdp c = JNum (Fin r)) ->
  StronglySorted gdpAtLeast l ->
  StronglySorted gdpAtLeast (sortInsert byGdpDescending x l).
Proof.
  intros [gx Hx] Hfin Hsorted.
  induction Hsorted as [|y l Hsorted IH Hall]; simpl.
  - repeat constructor.
  - destruct (Hfin y (or_introl eq_refl)) as [gy Hy].
    unfold byGdpDescending at 1. rewrite Hx, Hy. simpl.
    destruct (Rlt_dec 0 (gy + - gx)) as [Hlt|Hge].
    + constructor.
      * apply IH. intros c Hc. apply Hfin. now right.
      * rewrite Forall_forall. intros c Hc.
        apply (Permutation_in _ (sortInsert_perm byGdpDescending x l)) in Hc.
        destruct Hc as [<-|Hc].
        -- exists gy, gx. repeat split; try assumption. lra.
        -- rewrite Forall_forall in Hall. now apply Hall.
    + constructor; [now constructor|].
      constructor.
      * exists gx, gy. repeat split; try assumption. lra.
      * rewrite Forall_forall in Hall |- *. intros c Hc.
        destruct (Hall c Hc) as [a [b [Ha [Hb Hab]]]].
        exists gx, b. repeat split; try assumption.
        rewrite Hy in Ha. inversion Ha. lra.
Qed.

Lemma sort_sorted l :
  (forall c, In c l -> exists r, gdp c = JNum (Fin r)) ->
  StronglySorted gdpAtLeast (sort byGdpDescending l).
Proof.
  induction l as [|x l IH]; intros Hfin; simpl; [constructor|].
  apply sortInsert_sorted.
  - apply Hfin. now left.
  - intros c Hc. apply sort_In in Hc. apply Hfin. now right.
  - apply IH. intros c Hc. apply Hfin. now right.
Qed.

Lemma pushedStats_finite st :
  (forall code ts, Obj.get (gdpData st) code = Some ts ->
                   finiteOrMissing (valueAt ts (mapYear st))) ->
  forall c, In c (pushedStats st) -> exists r, gdp c = JNum (Fin r).
Proof.
  intros Hfin c Hc. unfold pushedStats in Hc. cbv zeta in Hc.
  apply in_flat_map in Hc. destruct Hc as [[i code] [_ Hc]]. simpl in Hc.
  unfold countryStat in Hc.
  destruct (Obj.get (gdpData st) code) as [g|] eqn:Eg; [|contradiction].
  simpl in Hc.
  destruct (Val.isPresent (valueAt g (mapYear st))) eqn:Ep; [|contradiction].
  destruct Hc as [<-|[]]. simpl.
  destruct (Hfin code g Eg) as [H|[H|[r H]]]; rewrite H in Ep |- *;
    try discriminate.
  now exists r.
Qed.

(** *** Events *)

Lemma handleEvent_data ev rs :
  globalRankingsData (handleEvent ev rs) = globalRankingsData rs.
Proof.
  destruct ev; simpl; try reflexivity.
  now destruct (String.eqb (rankingsSortField rs) field).
Qed.

Lemma afterEvents_data evs : forall rs,
  globalRankingsData (afterEvents evs rs) = globalRankingsData rs.
Proof.
  unfold afterEvents.
  induction evs as [|ev evs IH]; intros rs; simpl; [reflexivity|].
  now rewrite IH, handleEvent_data.
Qed.

Lemma filterRows_In rs c : In c (filterRows rs) -> In c (globalRankingsData rs).
Proof.
  unfold filterRows.
  destruct (String.eqb (rankingsSearchQuery rs) EmptyString); [tauto|].
  intros H. apply filter_In in H. tauto.
Qed.

Lemma rendered_row localeCompare rs selected row :
  In row (renderGlobalRankings localeCompare rs selected) ->
  In (entry row) (globalRankingsData rs) /\
  originalRank row = (indexOf (globalRankingsData rs) (entry row) + 1)%Z.
Proof.
  unfold renderGlobalRankings. cbv zeta. intros H.
  apply in_map_iff in H. destruct H as [c [<- Hc]]. simpl.
  split; [|reflexivity].
  apply sort_In in Hc. now apply filterRows_In.
Qed.

End RankFacts.

(** C8 (ranks when a store holds NaN).  [init] merges the table of
    states into the store, and [mergeStateData] stores NaN for the
    cell [n/a] of New York.  [renderMap] takes that entry into
    [countryStats], the comparison [b.gdp - a.gdp] is NaN against it,
    and the sort leaves Texas behind it and behind Chile.  Whichever
    column and direction the table is sorted by, it shows Chile, with
    80, at rank 1 and Texas, with 61000, at rank 3: the rank does not
    reflect the standing by GDP. *)
Theorem rank_misses_gdp_standing
        (localeCompare : string -> string -> jsnum)
        (field : string) (ascending : bool) (selected : list string) :
  let st := SampleNaN.state in
  let stats := MapView.countryStats st in
  let rows := Rankings.renderGlobalRankings
                localeCompare
                (Rankings.mkRankings stats field ascending EmptyString)
                selected in
  App.gdpData st
  = Csv.mergeStateData Sample.stateTable (Csv.parseCSV SampleNaN.countryTable) /\
  map (fun c => (MapView.code c, MapView.gdp c)) stats
  = [("CHL", JNum (Fin 80)); ("USA_ST_NEW_YORK", JNum NaN);
     ("USA_ST_TEXAS", JNum (Fin 61000))] /\
  Permutation
    (map (fun row => (Rankings.originalRank row,
                      MapView.code (Rankings.entry row))) rows)
    [(1%Z, "CHL"); (2%Z, "USA_ST_NEW_YORK"); (3%Z, "USA_ST_TEXAS")] /\
  (80 < 61000)%R.
Proof.
  intros st stats rows.
  assert (H80 : Lit.decimal 80 0 = Fin 80).
  { unfold Lit.decimal. simpl. f_equal. lra. }
  assert (H61000 : Lit.decimal 61000 0 = Fin 61000).
  { unfold Lit.decimal. simpl. f_equal. lra. }
  split; [reflexivity|]. split; [|split; [|lra]].
  - rewrite <- H80, <- H61000. reflexivity.
  - unfold rows, Rankings.renderGlobalRankings. cbv zeta.
    rewrite map_map. cbn [Rankings.originalRank Rankings.entry
                          Rankings.globalRankingsData].
    change (Rankings.filterRows
              (Rankings.mkRankings stats field ascending EmptyString))
      with stats.
    rewrite (Permutation_map _ (RankFacts.sort_perm _ stats)).
    change (map (fun c => ((Rankings.indexOf stats c + 1)%Z, MapView.code c)) stats)
      with [(1%Z, "CHL"); (2%Z, "USA_ST_NEW_YORK"); (3%Z, "USA_ST_TEXAS")].
    reflexivity.
Qed.

Lemma get_In {V : Type} (o : jsobj V) k v : Obj.get o k = Some v -> In (k, v) o.
Proof.
  induction o as [|[k' v'] o IH]; simpl; [discriminate|].
  destruct (String.eqb k' k) eqn:E.
  - apply String.eqb_eq in E. intros H. inversion H. subst. now left.
  - intros H. right. now apply IH.
Qed.

(** In the sample Chile (80) stands before Albania (50); Bolivia has
    no value and no entry. *)
Lemma sample_countryStats :
  MapView.countryStats SampleRank.state
  = [MapView.mkCountryStat 2 "CHL" "Chile" (JNum (Fin 80)) JUndefined
       (App.growthPct (JNum (Fin 80)) JUndefined)
       (App.ratioOf (JNum (Fin 80)) JUndefined);
     MapView.mkCountryStat 0 "ALB" "Albania" (JNum (Fin 50)) JUndefined
       (App.growthPct (JNum (Fin 50)) JUndefined)
       (App.ratioOf (JNum (Fin 50)) JUndefined)].
Proof.
  unfold MapView.countryStats, App.sort.
  change (MapView.pushedStats SampleRank.state)
    with [MapView.mkCountryStat 0 "ALB" "Albania" (JNum (Fin 50)) JUndefined
            (App.growthPct (JNum (Fin 50)) JUndefined)
            (App.ratioOf (JNum (Fin 50)) JUndefined);
          MapView.mkCountryStat 2 "CHL" "Chile" (JNum (Fin 80)) JUndefined
            (App.growthPct (JNum (Fin 80)) JUndefined)
            (App.ratioOf (JNum (Fin 80)) JUndefined)].
  cbn [fold_right App.sortInsert]. unfold MapView.byGdpDescending.
  cbn [MapView.gdp Val.toNumber]. rewrite NumFacts.sub_Fin.
  unfold Num.gt, Num.lt, Num.zero. js_decide. reflexivity.
Qed.

(** After sorting by name and searching for [al] the one row left,
    Albania, still shows rank 2. *)
Example sample_rank_after_events :
  map (fun row => (Rankings.originalRank row, MapView.code (Rankings.entry row)))
      (Rankings.renderGlobalRankings SampleRank.noCollation
         (Standing.afterEvents SampleRank.events
            (Rankings.updateGlobalRankings
               (MapView.countryStats SampleRank.state) SampleRank.table))
         [])
  = [(2%Z, "ALB")].
Proof. rewrite sample_countryStats. reflexivity. Qed.

(* ================================================================== *)
(** * Further properties *)
(* ================================================================== *)

(** ** Strings: trimming and quotes *)

Module StrFacts.
Import Str Shape.

Lemma trimStart_idem s : trimStart (trimStart s) = trimStart s.
Proof.
  induction s as [|c s IH]; simpl; [reflexivity|].
  destruct (isWhiteSpace c) eqn:E; [exact IH|]. simpl. now rewrite E.
Qed.

Lemma trimEnd_idem s : trimEnd (trimEnd s) = trimEnd s.
Proof.
  induction s as [|c s IH]; simpl; [reflexivity|].
  destruct (trimEnd s) as [|d r] eqn:E.
  - destruct (isWhiteSpace c) eqn:Ec; simpl; [reflexivity|]. now rewrite Ec.
  - change (trimEnd (String c (String d r))) with
      (match trimEnd (String d r) with
       | EmptyString => if isWhiteSpace c then EmptyString
                        else String c EmptyString
       | r' => String c r'
       end).
    now rewrite IH.
Qed.

Lemma trimEnd_trimStart s : trimEnd (trimStart s) = trimStart (trimEnd s).
Proof.
  induction s as [|c s IH]; [reflexivity|].
  cbn [trimStart]. destruct (isWhiteSpace c) eqn:Ec.
  - rewrite IH. cbn [trimEnd].
    destruct (trimEnd s) as [|d r]; rewrite ?Ec; [reflexivity|].
    change (trimStart (String c (String d r)))
      with (if isWhiteSpace c then trimStart (String d r)
            else String c (String d r)).
    now rewrite Ec.
  - cbn [trimEnd].
    destruct (trimEnd s) as [|d r]; rewrite ?Ec.
    + change (trimStart (String c EmptyString))
        with (if isWhiteSpace c then trimStart EmptyString
              else String c EmptyString).
      now rewrite Ec.
    + change (trimStart (String c (String d r)))
        with (if isWhiteSpace c then trimStart (String d r)
              else String c (String d r)).
      now rewrite Ec.
Qed.

(** Trimming twice is trimming once. *)
Lemma trim_idem s : trim (trim s) = trim s.
Proof.
  unfold trim.
  now rewrite trimEnd_trimStart, trimEnd_idem, trimStart_idem.
Qed.

Lemma contains_trimStart c s : contains c (trimStart s) = true -> contains c s = true.
Proof.
  induction s as [|d s IH]; simpl; [tauto|].
  destruct (isWhiteSpace d); [|tauto].
  intros H. rewrite (IH H). apply orb_true_r.
Qed.

Lemma contains_trimEnd c s : contains c (trimEnd s) = true -> contains c s = true.
Proof.
  induction s as [|d s IH]; simpl; [tauto|].
  destruct (trimEnd s) as [|e r].
  - destruct (isWhiteSpace d); simpl; [discriminate|].
    rewrite orb_false_r. intros ->. reflexivity.
  - simpl. intros H. apply orb_true_iff in H. destruct H as [H|H].
    + now rewrite H.
    + simpl in IH. rewrite (IH H). apply orb_true_r.
Qed.

Lemma quoteFree_trim s : quoteFree s -> quoteFree (trim s).
Proof.
  unfold quoteFree, trim. intros H.
  destruct (contains dquote (trimStart (trimEnd s))) eqn:E; [|reflexivity].
  apply contains_trimStart, contains_trimEnd in E. congruence.
Qed.

Lemma stripTrailingQuote_free s : quoteFree s -> stripTrailingQuote s = s.
Proof.
  unfold quoteFree. induction s as [|c s IH]; simpl; [reflexivity|].
  intros H. apply orb_false_iff in H. destruct H as [Hc Hs].
  destruct s as [|d s']; [now rewrite Hc|]. now rewrite (IH Hs).
Qed.

Lemma stripOuterQuotes_free s : quoteFree s -> stripOuterQuotes s = s.
Proof.
  intros H. destruct s as [|c s]; [reflexivity|].
  unfold stripOuterQuotes.
  assert (Hc : Ascii.eqb c dquote = false).
  { unfold quoteFree in H. simpl in H. now apply orb_false_iff in H. }
  rewrite Hc. now apply stripTrailingQuote_free.
Qed.

(** What the last pass of [parseCSVLine] does to a field without
    quotes that is trimmed already: nothing. *)
Lemma finish_field s : quoteFree s -> trim (stripOuterQuotes (trim s)) = trim s.
Proof.
  intros H. rewrite stripOuterQuotes_free by now apply quoteFree_trim.
  apply trim_idem.
Qed.

Lemma append_nil_r (s : string) : s ++ EmptyString = s.
Proof. induction s; simpl; congruence. Qed.

Lemma append_assoc (s t u : string) : (s ++ t) ++ u = s ++ (t ++ u).
Proof. induction s; simpl; congruence. Qed.

Lemma quoteFree_cons c s :
  quoteFree (String c s) -> Ascii.eqb c dquote = false /\ quoteFree s.
Proof. unfold quoteFree. simpl. intros H. now apply orb_false_iff in H. Qed.

Lemma quoteFree_app s t : quoteFree s -> quoteFree t -> quoteFree (s ++ t).
Proof.
  unfold quoteFree. induction s as [|c s IH]; simpl; [tauto|].
  intros H Ht. apply orb_false_iff in H. destruct H as [-> Hs]. now apply IH.
Qed.

End StrFacts.

(** ** The tokenizer *)

Module LineFacts.
Import Str Shape Csv StrFacts Invariants.

Lemma parseCSVLine_finish line :
  parseCSVLine line =
  map (fun p => trim (stripOuterQuotes p))
      (finish (parseCSVLine_loop line [] EmptyString false)).
Proof.
  unfold parseCSVLine, finish.
  now destruct (parseCSVLine_loop line [] EmptyString false).
Qed.

Lemma snoc_append cur c s : snoc cur c ++ s = cur ++ String c s.
Proof. unfold snoc. now rewrite append_assoc. Qed.

Lemma split_nonempty sep s : split sep s <> [].
Proof.
  destruct s as [|c s]; simpl; [discriminate|].
  destruct (Ascii.eqb c sep); [discriminate|].
  destruct (split sep s); discriminate.
Qed.

(** Outside quotes and without quotes ahead, the loop splits at every
    comma. *)
Lemma loop_unquoted line : forall parts cur,
  quoteFree line ->
  finish (parseCSVLine_loop line parts cur false) =
  (parts ++ map trim (match split comma line with
                      | h :: t => (cur ++ h)%string :: t
                      | [] => [cur]
                      end))%list.
Proof.
  induction line as [|c line IH]; intros parts cur Hfree.
  - simpl. unfold finish. simpl. now rewrite append_nil_r.
  - apply quoteFree_cons in Hfree. destruct Hfree as [Hc Hfree].
    cbn [parseCSVLine_loop split]. rewrite Hc.
    destruct (Ascii.eqb c comma) eqn:Ecomma; cbn [andb negb].
    + rewrite (IH _ _ Hfree). rewrite <- app_assoc. f_equal.
      rewrite append_nil_r. cbn [map app]. f_equal.
      destruct (split comma line) as [|h t] eqn:E; [|reflexivity].
      now apply split_nonempty in E.
    + rewrite (IH _ _ Hfree). f_equal.
      destruct (split comma line) as [|h t]; cbn [map]; f_equal;
        try reflexivity; now rewrite snoc_append.
Qed.

(** Inside quotes the loop keeps every character, commas too, up to
    the closing quote. *)
Lemma loop_inside field : forall rest parts cur,
  quoteFree field ->
  parseCSVLine_loop (field ++ rest) parts cur true
  = parseCSVLine_loop rest parts (cur ++ field) true.
Proof.
  induction field as [|c field IH]; intros rest parts cur Hfree.
  - simpl. now rewrite append_nil_r.
  - apply quoteFree_cons in Hfree. destruct Hfree as [Hc Hfree].
    cbn [append parseCSVLine_loop]. rewrite Hc.
    rewrite andb_false_r. rewrite (IH _ _ _ Hfree).
    now rewrite snoc_append.
Qed.

Lemma loop_quoted field rest parts :
  quoteFree field ->
  parseCSVLine_loop (quoted field ++ rest) parts EmptyString false
  = parseCSVLine_loop rest parts field false.
Proof.
  intros Hfree. unfold quoted.
  cbn [append parseCSVLine_loop]. rewrite Ascii.eqb_refl. cbn [negb].
  rewrite append_assoc. rewrite (loop_inside field _ _ _ Hfree).
  cbn [append parseCSVLine_loop]. rewrite Ascii.eqb_refl. reflexivity.
Qed.

Lemma loop_joinQuoted fields : forall parts,
  fields <> [] ->
  Forall quoteFree fields ->
  finish (parseCSVLine_loop (joinQuoted fields) parts EmptyString false)
  = (parts ++ map trim fields)%list.
Proof.
  induction fields as [|f fields IH]; intros parts Hne Hfree; [contradiction|].
  inversion Hfree as [|? ? Hf Hrest]. subst.
  unfold joinQuoted. cbn [map String.concat].
  destruct fields as [|g fields].
  - cbn [map]. rewrite <- (append_nil_r (quoted f)).
    rewrite (loop_quoted f _ _ Hf). reflexivity.
  - cbn [map]. rewrite (loop_quoted f _ _ Hf).
    change (parseCSVLine_loop ("," ++ String.concat "," (quoted g :: map quoted fields))
                              parts f false)
      with (parseCSVLine_loop (joinQuoted (g :: fields))
                              (parts ++ [trim f]) EmptyString false).
    rewrite IH by (try discriminate; assumption).
    now rewrite <- app_assoc.
Qed.

Lemma map_finish_fields (fields : list string) :
  Forall quoteFree fields ->
  map (fun p => trim (stripOuterQuotes p)) (map trim fields) = map trim fields.
Proof.
  intros H. rewrite map_map. apply map_ext_in. intros f Hf.
  rewrite Forall_forall in H. now apply finish_field, H.
Qed.

Lemma split_quoteFree line :
  quoteFree line -> Forall quoteFree (split comma line).
Proof.
  induction line as [|c line IH]; intros H.
  - repeat constructor.
  - apply quoteFree_cons in H. destruct H as [Hc H].
    specialize (IH H). cbn [split].
    destruct (Ascii.eqb c comma).
    + constructor; [reflexivity|exact IH].
    + destruct (split comma line) as [|h t].
      * repeat constructor. unfold quoteFree. simpl. now rewrite Hc.
      * inversion IH. subst. constructor; [|assumption].
        unfold quoteFree. simpl. now rewrite Hc.
Qed.

End LineFacts.

(** X1. On a line without double quotes the quote-aware tokenizer is
    the plain one: the fields are the pieces between commas, each
    trimmed. *)
Theorem parseCSVLine_without_quotes (line : string) :
  Shape.quoteFree line ->
  Csv.parseCSVLine line = map Str.trim (Str.split Csv.comma line).
Proof.
  intros Hfree.
  rewrite LineFacts.parseCSVLine_finish.
  rewrite (LineFacts.loop_unquoted line [] EmptyString Hfree).
  pose proof (LineFacts.split_quoteFree line Hfree) as Hall.
  destruct (Str.split Csv.comma line) as [|h t] eqn:E.
  - now apply LineFacts.split_nonempty in E.
  - cbn [app append]. now apply LineFacts.map_finish_fields.
Qed.

Lemma parseCSVLine_without_quotes_witness :
  Csv.parseCSVLine "Texas, ,61000 " = ["Texas"; ""; "61000"].
Proof.
  exact (parseCSVLine_without_quotes "Texas, ,61000 " eq_refl).
Defined.

(** X2. Fields written between double quotes and joined by commas are
    read back as they were written, up to the white space around them:
    a comma inside a quoted field does not split it, and the quotes are
    gone. *)
Theorem parseCSVLine_quoted_fields (fields : list string) :
  fields <> [] ->
  Forall Shape.quoteFree fields ->
  Csv.parseCSVLine (Shape.joinQuoted fields) = map Str.trim fields.
Proof.
  intros Hne Hfree.
  rewrite LineFacts.parseCSVLine_finish.
  rewrite (LineFacts.loop_joinQuoted fields [] Hne Hfree).
  cbn [app]. now apply LineFacts.map_finish_fields.
Qed.

Lemma parseCSVLine_quoted_fields_witness :
  Csv.parseCSVLine (Shape.joinQuoted ["Korea, Rep."; "KOR"; " 93.8"])
  = ["Korea, Rep."; "KOR"; "93.8"].
Proof.
  apply (parseCSVLine_quoted_fields ["Korea, Rep."; "KOR"; " 93.8"]).
  - discriminate.
  - repeat constructor.
Defined.

(** ** Keys of a dictionary *)

Module KeyFacts.
Import Obj ObjFacts.

Section Keys.
Context {V : Type}.
Implicit Types (o : jsobj V) (k : string) (v : V).

Lemma get_None_keys o k : get o k = None <-> ~ In k (keys o).
Proof.
  unfold keys. induction o as [|[k' v'] o IH]; simpl; [tauto|].
  destruct (String.eqb k' k) eqn:E.
  - apply String.eqb_eq in E. split; [discriminate|tauto].
  - apply String.eqb_neq in E. rewrite IH. tauto.
Qed.

(** An assignment leaves the keys alone or adds its own at the end. *)
Lemma keys_set o k v :
  keys (set o k v) = keys o \/
  (~ In k (keys o) /\ keys (set o k v) = (keys o ++ [k])%list).
Proof.
  unfold keys. induction o as [|[k' v'] o IH]; simpl.
  - right. tauto.
  - destruct (String.eqb k' k) eqn:E; simpl.
    + apply String.eqb_eq in E. subst. now left.
    + apply String.eqb_neq in E.
      destruct IH as [IH|[Hnin IH]]; rewrite IH; [now left|].
      right. split; [tauto|reflexivity].
Qed.

Lemma NoDup_keys_set o k v : NoDup (keys o) -> NoDup (keys (set o k v)).
Proof.
  intros H. destruct (keys_set o k v) as [->|[Hnin ->]]; [exact H|].
  apply NoDup_app; [exact H | repeat constructor; tauto |].
  intros x Hx [<-|[]]. tauto.
Qed.

Lemma NoDup_keys_assign us : forall o,
  NoDup (keys o) -> NoDup (keys (assign us o)).
Proof.
  induction us as [|[k v] us IH]; simpl; intros o H; [exact H|].
  apply IH. now apply NoDup_keys_set.
Qed.

(** A run of assignments keeps the keys it finds, in their order, and
    adds keys it assigns to. *)
Lemma keys_assign us : forall o,
  exists added, keys (assign us o) = (keys o ++ added)%list /\
                incl added (map fst us).
Proof.
  induction us as [|[k v] us IH]; simpl; intros o.
  - exists []. rewrite app_nil_r. split; [reflexivity|easy].
  - destruct (IH (set o k v)) as [added [Hkeys Hincl]].
    destruct (keys_set o k v) as [E|[_ E]]; rewrite E in Hkeys.
    + exists added. split; [exact Hkeys|].
      intros x Hx. right. now apply Hincl.
    + exists (k :: added). rewrite <- app_assoc in Hkeys. split; [exact Hkeys|].
      intros x [<-|Hx]; [now left | right; now apply Hincl].
Qed.

End Keys.
End KeyFacts.

(** ** Stores built by the country parser *)

Module ParseFacts.
Import Obj Csv Shape ObjFacts CsvFacts KeyFacts StoredValues.

Lemma findIndex_None {A : Type} (p : A -> bool) l :
  findIndex p l = None <-> forall x, In x l -> p x = false.
Proof.
  induction l as [|a l IH]; simpl.
  - split; [intros _ x []|reflexivity].
  - destruct (p a) eqn:E.
    + split; [discriminate|]. intros H. rewrite (H a) in E by now left.
      discriminate.
    + destruct (findIndex p l); simpl.
      * split; [discriminate|]. intros H.
        assert (Hnone : Some n = None); [|discriminate].
        apply IH. intros x Hx. apply H. now right.
      * split; [|reflexivity]. intros _ x [<-|Hx]; [exact E|].
        now apply IH.
Qed.

(** Either the store is empty or it is what the data rows assign. *)
Lemma parseCSV_form csvText :
  parseCSV csvText = Obj.empty \/
  exists headers start,
    parseCSV csvText =
    assign (flat_map (fun l => optList (rowUpdate headers start l))
                     (skipn 5 (Str.split newline (Str.trim csvText))))
           Obj.empty.
Proof.
  unfold parseCSV. cbv zeta.
  destruct (nth_error _ 4) as [headerLine|]; [|now left].
  destruct (String.eqb headerLine EmptyString); [now left|].
  destruct (findIndex _ _) as [start|]; [|now left].
  right. exists (parseCSVLine headerLine), start.
  apply fold_updates. intros. apply rowStep_update.
Qed.

Lemma rowUpdate_isDataRow headers start line code ts :
  rowUpdate headers start line = Some (code, ts) ->
  isDataRow line /\ at_ (parseCSVLine line) 1 = code /\
  name ts = at_ (parseCSVLine line) 0.
Proof.
  unfold rowUpdate, isDataRow.
  destruct (String.eqb (Str.trim line) EmptyString) eqn:E; [discriminate|].
  destruct (Nat.ltb_spec (List.length (parseCSVLine line)) 5); [discriminate|].
  intros Heq. inversion Heq. subst. apply String.eqb_neq in E. tauto.
Qed.

End ParseFacts.

(** X3. The keys of a store [parseCSV] builds are pairwise different,
    and each is the second field of a data row of the table: a line
    after the fifth that is not blank and has at least five fields. *)
Theorem parseCSV_keys (csvText : string) :
  NoDup (Obj.keys (Csv.parseCSV csvText)) /\
  forall code,
    In code (Obj.keys (Csv.parseCSV csvText)) ->
    exists line,
      In line (skipn 5 (Str.split Csv.newline (Str.trim csvText))) /\
      Shape.isDataRow line /\
      Csv.at_ (Csv.parseCSVLine line) 1 = code.
Proof.
  destruct (ParseFacts.parseCSV_form csvText) as [->|[headers [start ->]]].
  - split; [constructor|]. intros code [].
  - split; [apply KeyFacts.NoDup_keys_assign; constructor|].
    intros code Hin.
    destruct (KeyFacts.keys_assign
                (flat_map (fun l => Csv.optList (Csv.rowUpdate headers start l))
                   (skipn 5 (Str.split Csv.newline (Str.trim csvText))))
                (@Obj.empty TimeSeries)) as [added [Hkeys Hincl]].
    rewrite Hkeys in Hin. simpl in Hin. apply Hincl in Hin.
    apply CsvFacts.in_flat_map_optList in Hin.
    destruct Hin as [line [ts [Hline Hupd]]].
    exists line. split; [exact Hline|].
    apply ParseFacts.rowUpdate_isDataRow in Hupd. tauto.
Qed.

(** X4. In a store [parseCSV] builds, a year that is a property of a
    series has a header that reads as a number, and its value is [null]
    or a number that is not NaN: never [undefined], never NaN. *)
Theorem parseCSV_values (csvText code year : string) (ts : TimeSeries) (v : jsval) :
  Obj.get (Csv.parseCSV csvText) code = Some ts ->
  Obj.get (values ts) year = Some v ->
  Lit.isNaN year = false /\
  (v = JNull \/ exists n, v = JNum n /\ n <> NaN).
Proof.
  intros Hget Hval.
  split; [|exact (StoredValues.parseCSV_not_NaN csvText code ts year v Hget Hval)].
  destruct (ParseFacts.parseCSV_form csvText) as [E|[headers [start E]]];
    rewrite E in Hget; [discriminate|].
  apply StoredValues.get_assign_inv in Hget.
  destruct Hget as [Hin|Hget]; [|discriminate].
  apply StoredValues.in_flat_map_optList_pair in Hin.
  destruct Hin as [line [_ Hupd]].
  unfold Csv.rowUpdate in Hupd.
  destruct (String.eqb (Str.trim line) EmptyString); [discriminate|].
  destruct (List.length (Csv.parseCSVLine line) <? 5)%nat; [discriminate|].
  inversion Hupd. subst ts. simpl in Hval.
  rewrite CsvFacts.columnLoop_updates in Hval.
  apply StoredValues.get_assign_inv in Hval.
  destruct Hval as [Hin|Hval]; [|discriminate].
  apply StoredValues.in_flat_map_optList_pair in Hin.
  destruct Hin as [j [_ Hcol]].
  unfold Csv.columnUpdate in Hcol.
  destruct (nth_error headers j) as [y|]; [|discriminate].
  destruct (String.eqb y EmptyString); [discriminate|]. simpl in Hcol.
  destruct (Lit.isNaN (Str.trim y)) eqn:Enum; [discriminate|].
  now inversion Hcol.
Qed.

Lemma parseCSV_values_witness :
  Lit.isNaN "1960" = false /\
  (JNull = JNull \/ exists n, JNull = JNum n /\ n <> NaN).
Proof.
  apply (parseCSV_values Sample.countryTable "KOR" "1960"
           (mkSeries "Korea, Rep."
                     [("1960", JNull); ("1961", JNum (Lit.decimal 938 (-1)))])
           JNull); reflexivity.
Defined.

(** X5. [parseCSV] gives the empty store, and raises nothing, when the
    text has fewer than five lines, when its fifth line is empty, or
    when no field of the fifth line is [1960]. *)
Theorem parseCSV_degrades (csvText : string) :
  let lines := Str.split Csv.newline (Str.trim csvText) in
  ((List.length lines < 5)%nat \/
   nth_error lines 4 = Some EmptyString \/
   (forall h, In h (Csv.parseCSVLine (Csv.at_ lines 4)) -> Str.trim h <> "1960")) ->
  Csv.parseCSV csvText = Obj.empty.
Proof.
  cbv zeta. intros H. unfold Csv.parseCSV. cbv zeta.
  destruct (nth_error (Str.split Csv.newline (Str.trim csvText)) 4)
    as [headerLine|] eqn:Eh; [|reflexivity].
  destruct (String.eqb headerLine EmptyString) eqn:Ee; [reflexivity|].
  assert (Hnone : Csv.findIndex (fun h => String.eqb (Str.trim h) "1960")
                    (Csv.parseCSVLine headerLine) = None).
  { destruct H as [H|[H|H]].
    - assert (Hsome : nth_error (Str.split Csv.newline (Str.trim csvText)) 4
                      <> None) by congruence.
      apply nth_error_Some in Hsome. lia.
    - assert (Hempty : headerLine = EmptyString) by congruence.
      rewrite Hempty, String.eqb_refl in Ee. discriminate Ee.
    - apply ParseFacts.findIndex_None. intros h Hh.
      apply String.eqb_neq. apply H.
      unfold Csv.at_. now rewrite (nth_error_nth _ _ _ Eh). }
  now rewrite Hnone.
Qed.

Lemma parseCSV_degrades_witness :
  Csv.parseCSV Sample.stateTable = Obj.empty.
Proof.
  apply (parseCSV_degrades Sample.stateTable). left. vm_compute. lia.
Defined.

(** ** Stores after a merge of states *)

Module MergeKeys.
Import Obj Csv Merge Shape ObjFacts CsvFacts KeyFacts StoredValues MergeFacts.

Lemma stateRowUpdate_inv years line code ts :
  stateRowUpdate years line = Some (code, ts) ->
  isStateRow line /\
  code = stateCode (at_ (parseCSVLine line) 0) /\
  name ts = at_ (parseCSVLine line) 0 /\
  values ts = fold_left (stateYearStep years (parseCSVLine line))
                        (seq 0 (List.length years)) Obj.empty.
Proof.
  unfold stateRowUpdate, isStateRow.
  destruct (String.eqb (Str.trim line) EmptyString) eqn:E; [discriminate|].
  destruct (Nat.ltb_spec (List.length (parseCSVLine line)) 2); [discriminate|].
  intros Heq. inversion Heq. subst. apply String.eqb_neq in E. simpl. tauto.
Qed.

Lemma stateUpdates_prefix csvText code :
  In code (map fst (stateUpdates csvText)) ->
  Str.startsWith "USA_ST_" code = true.
Proof.
  unfold stateUpdates. cbv zeta. intros H.
  apply in_flat_map_optList in H. destruct H as [line [ts [_ Hupd]]].
  apply stateRowUpdate_inv in Hupd. destruct Hupd as [_ [-> _]]. reflexivity.
Qed.

(** What it takes for a column to write its year. *)
Lemma year_written years parts y year v :
  stateYearUpdate years parts y = Some (year, v) <->
  at_ years y = year /\ (y + 1 < List.length parts)%nat /\
  at_ parts (y + 1) <> EmptyString /\
  v = JNum (Lit.parseFloat (at_ parts (y + 1))).
Proof.
  unfold stateYearUpdate.
  destruct (Nat.ltb_spec (y + 1) (List.length parts)) as [Hlt|Hge].
  - destruct (String.eqb (at_ parts (y + 1)) EmptyString) eqn:E; simpl.
    + apply String.eqb_eq in E. split; [discriminate|]. tauto.
    + apply String.eqb_neq in E. split.
      * intros Heq. inversion Heq. tauto.
      * intros (<- & _ & _ & ->). reflexivity.
  - split; [discriminate|]. intros (_ & H & _). lia.
Qed.

End MergeKeys.

(** X6. [mergeStateData] writes only under codes that start with
    [USA_ST_]: an entry under any other code, a country code for one,
    is still there and unchanged after the merge; the keys the store had
    keep their places, the new keys follow them, and keys that were
    pairwise different stay so. *)
Theorem mergeStateData_keeps_countries (csvText : string) (target : SeriesStore) :
  (forall code, Str.startsWith "USA_ST_" code = false ->
     Obj.get (Csv.mergeStateData csvText target) code = Obj.get target code) /\
  (exists added,
     Obj.keys (Csv.mergeStateData csvText target)
     = (Obj.keys target ++ added)%list /\
     Forall (fun k => Str.startsWith "USA_ST_" k = true) added) /\
  (NoDup (Obj.keys target) ->
   NoDup (Obj.keys (Csv.mergeStateData csvText target))).
Proof.
  rewrite MergeFacts.mergeStateData_assign.
  split; [|split].
  - intros code Hcode. apply ObjFacts.get_assign_other.
    intros Hin. apply (MergeKeys.stateUpdates_prefix csvText) in Hin. congruence.
  - destruct (KeyFacts.keys_assign (Merge.stateUpdates csvText) target)
      as [added [Hkeys Hincl]].
    exists added. split; [exact Hkeys|].
    apply Forall_forall. intros k Hk.
    apply (MergeKeys.stateUpdates_prefix csvText). now apply Hincl.
  - apply KeyFacts.NoDup_keys_assign.
Qed.

(** X7. An entry [mergeStateData] creates comes from a row of the
    state table that is not blank and has at least two fields: its key
    is the code of the first field and its name is that field.  A year
    the entry holds is the label of a column whose cell in that row
    exists and is not empty, and its value is the number [parseFloat]
    reads from that cell; no [null] is stored.  A year is left out
    exactly when every column labelled with it has an empty or missing
    cell in the row; and when the labels are pairwise different, the
    year of a column with a cell that is not empty holds the number
    read from that very cell. *)
Theorem mergeStateData_entries (csvText : string) (target : SeriesStore)
        (code : string) (ts : TimeSeries) :
  Obj.get target code = None ->
  Obj.get (Csv.mergeStateData csvText target) code = Some ts ->
  let lines := Str.split Csv.newline (Str.trim csvText) in
  let years := skipn 1 (map Str.trim (Str.split Csv.comma (Csv.at_ lines 0))) in
  exists line,
    In line (skipn 1 lines) /\
    Shape.isStateRow line /\
    code = Csv.stateCode (name ts) /\
    name ts = Csv.at_ (Csv.parseCSVLine line) 0 /\
    (forall year v,
       Obj.get (values ts) year = Some v ->
       exists y,
         (y < List.length years)%nat /\ Csv.at_ years y = year /\
         (y + 1 < List.length (Csv.parseCSVLine line))%nat /\
         Csv.at_ (Csv.parseCSVLine line) (y + 1) <> EmptyString /\
         v = JNum (Lit.parseFloat (Csv.at_ (Csv.parseCSVLine line) (y + 1)))) /\
    (forall year,
       Obj.get (values ts) year = None <->
       forall y, (y < List.length years)%nat -> Csv.at_ years y = year ->
                 (y + 1 < List.length (Csv.parseCSVLine line))%nat ->
                 Csv.at_ (Csv.parseCSVLine line) (y + 1) = EmptyString) /\
    (NoDup years ->
     forall y, (y < List.length years)%nat ->
               (y + 1 < List.length (Csv.parseCSVLine line))%nat ->
               Csv.at_ (Csv.parseCSVLine line) (y + 1) <> EmptyString ->
               Obj.get (values ts) (Csv.at_ years y)
               = Some (JNum (Lit.parseFloat
                               (Csv.at_ (Csv.parseCSVLine line) (y + 1))))).
Proof.
  intros Hnone Hget lines years.
  rewrite MergeFacts.mergeStateData_assign in Hget.
  apply StoredValues.get_assign_inv in Hget.
  destruct Hget as [Hin|Hget]; [|congruence].
  unfold Merge.stateUpdates in Hin. cbv zeta in Hin.
  fold lines in Hin. fold years in Hin.
  apply StoredValues.in_flat_map_optList_pair in Hin.
  destruct Hin as [line [Hline Hupd]].
  apply MergeKeys.stateRowUpdate_inv in Hupd.
  destruct Hupd as [Hrow [Hcode [Hname Hvals]]].
  rewrite (CsvFacts.fold_updates _ _
             (MergeFacts.stateYearStep_update years (Csv.parseCSVLine line)))
    in Hvals.
  exists line. rewrite Hname at 1.
  pose proof (MergeKeys.year_written years (Csv.parseCSVLine line)) as Hwritten.
  assert (Hsome : forall year v,
            Obj.get (values ts) year = Some v ->
            exists y,
              (y < List.length years)%nat /\ Csv.at_ years y = year /\
              (y + 1 < List.length (Csv.parseCSVLine line))%nat /\
              Csv.at_ (Csv.parseCSVLine line) (y + 1) <> EmptyString /\
              v = JNum (Lit.parseFloat (Csv.at_ (Csv.parseCSVLine line) (y + 1)))).
  { intros year v Hv. rewrite Hvals in Hv.
    apply StoredValues.get_assign_inv in Hv.
    destruct Hv as [Hin|Hv]; [|discriminate].
    apply StoredValues.in_flat_map_optList_pair in Hin.
    destruct Hin as [y [Hy Hupd]]. apply in_seq in Hy.
    apply Hwritten in Hupd. exists y. split; [lia|]. tauto. }
  assert (Hleft : forall year,
            Obj.get (values ts) year = None <->
            forall y, (y < List.length years)%nat -> Csv.at_ years y = year ->
                      (y + 1 < List.length (Csv.parseCSVLine line))%nat ->
                      Csv.at_ (Csv.parseCSVLine line) (y + 1) = EmptyString).
  { intros year. rewrite Hvals. split.
    - intros Hn y Hy Hlabel Hcell.
      destruct (string_dec (Csv.at_ (Csv.parseCSVLine line) (y + 1)) EmptyString)
        as [E|E]; [exact E|].
      exfalso. apply KeyFacts.get_None_keys in Hn. apply Hn.
      apply ObjFacts.assign_keys_in. apply in_map_iff.
      exists (year, JNum (Lit.parseFloat (Csv.at_ (Csv.parseCSVLine line) (y + 1)))).
      split; [reflexivity|]. apply in_flat_map. exists y.
      split; [apply in_seq; lia|].
      assert (Hupd : Merge.stateYearUpdate years (Csv.parseCSVLine line) y
                     = Some (year, JNum (Lit.parseFloat
                                (Csv.at_ (Csv.parseCSVLine line) (y + 1)))))
        by (apply Hwritten; tauto).
      rewrite Hupd. now left.
    - intros Hall. rewrite ObjFacts.get_assign_other; [reflexivity|].
      intros Hin. apply CsvFacts.in_flat_map_optList in Hin.
      destruct Hin as [y [v [Hy Hupd]]]. apply in_seq in Hy.
      apply Hwritten in Hupd. destruct Hupd as (Hlabel & Hcell & Hne & _).
      apply Hne. apply Hall; [lia|exact Hlabel|exact Hcell]. }
  repeat (split; [tauto || assumption|]).
  intros Hnd y Hy Hcell Hne.
  destruct (Obj.get (values ts) (Csv.at_ years y)) as [v|] eqn:Ev.
  - destruct (Hsome _ _ Ev) as [y' (Hy' & Hlabel & _ & _ & ->)].
    unfold Csv.at_ in Hlabel.
    assert (y' = y) by (apply (proj1 (NoDup_nth years EmptyString) Hnd); assumption).
    now subst y'.
  - exfalso. apply Hne. apply (proj1 (Hleft _) Ev y); auto.
Qed.

Lemma mergeStateData_entries_witness :
  Obj.get (Csv.mergeStateData Sample.stateTable Obj.empty) "USA_ST_TEXAS"
  = Some (mkSeries "Texas" [("2021", JNum (Lit.decimal 61000 0))]) /\
  exists line,
    In line (skipn 1 (Str.split Csv.newline (Str.trim Sample.stateTable))) /\
    Csv.at_ (Csv.parseCSVLine line) 0 = "Texas" /\
    Csv.at_ (Csv.parseCSVLine line) 1 = EmptyString /\
    Csv.at_ (Csv.parseCSVLine line) 2 = "61000".
Proof.
  split; [reflexivity|].
  destruct (mergeStateData_entries Sample.stateTable Obj.empty "USA_ST_TEXAS"
              (mkSeries "Texas" [("2021", JNum (Lit.decimal 61000 0))])
              eq_refl eq_refl)
    as [line (Hline & _ & _ & Hname & _ & Hleft & _)].
  exists line. split; [exact Hline|]. split; [now rewrite <- Hname|].
  destruct Hline as [<-|[<-|[]]]; [discriminate Hname|].
  split; reflexivity.
Defined.

(** ** Settings *)

Module SettingsFacts.
Import App Ui.

Lemma digits_acc d : forall acc,
  Lit.digitsValueFrom (Z.pos acc) (NilEmpty.string_of_uint d)
  = Z.pos (Pos.of_uint_acc d acc).
Proof.
  induction d; intros acc; cbn [NilEmpty.string_of_uint Lit.digitsValueFrom Pos.of_uint_acc];
    [reflexivity | rewrite <- IHd; f_equal; match goal with |- context [Lit.digitVal ?c] => let v := eval vm_compute in (Lit.digitVal c) in change (Lit.digitVal c) with v end; lia ..].
Qed.

Lemma digits_zero d :
  Lit.digitsValueFrom 0 (NilEmpty.string_of_uint d) = Z.of_N (Pos.of_uint d).
Proof.
  induction d; cbn [NilEmpty.string_of_uint Lit.digitsValueFrom Pos.of_uint];
    [reflexivity | exact IHd | apply (digits_acc d) ..].
Qed.

Lemma takeWhile_digits d :
  takeWhile Lit.isDigit (NilEmpty.string_of_uint d)
  = (NilEmpty.string_of_uint d, EmptyString).
Proof.
  induction d; cbn [NilEmpty.string_of_uint takeWhile];
    [reflexivity | change (Lit.isDigit _) with true; cbv iota; now rewrite IHd ..].
Qed.

Lemma no_hex_prefix d :
  Str.startsWith "0x" (NilEmpty.string_of_uint d) = false /\
  Str.startsWith "0X" (NilEmpty.string_of_uint d) = false.
Proof. destruct d as [|d|d|d|d|d|d|d|d|d|d]; try (split; reflexivity); destruct d; split; reflexivity. Qed.

Lemma parseInt_uint d :
  d <> Decimal.Nil ->
  parseInt (NilEmpty.string_of_uint d) = Some (Z.of_N (Pos.of_uint d)).
Proof.
  intros Hd. unfold parseInt.
  assert (Htrim : Str.trimStart (NilEmpty.string_of_uint d) = NilEmpty.string_of_uint d).
  { destruct d; try reflexivity. }
  rewrite Htrim.
  assert (Hsign : match NilEmpty.string_of_uint d with
    | String "+" r => (false, r)
    | String "-" r => (true, r)
    | _ => (false, NilEmpty.string_of_uint d)
    end = (false, NilEmpty.string_of_uint d)).
  { destruct d; reflexivity. }
  cbv zeta. rewrite Hsign.
  destruct (no_hex_prefix d) as [-> ->]. cbn [orb].
  rewrite takeWhile_digits.
  destruct (NilEmpty.string_of_uint d) eqn:E.
  - destruct d; try discriminate. contradiction.
  - rewrite <- E. unfold Lit.digitsValue. now rewrite digits_zero.
Qed.

Lemma NilZero_nonNil d :
  d <> Decimal.Nil -> NilZero.string_of_uint d = NilEmpty.string_of_uint d.
Proof. destruct d; [contradiction | reflexivity ..]. Qed.

Lemma to_uint_nonNil p : Pos.to_uint p <> Decimal.Nil.
Proof.
  intros E. pose proof (DecimalPos.Unsigned.of_to p) as Hp.
  rewrite E in Hp. discriminate.
Qed.

Lemma parseInt_yearKey z : parseInt (App.yearKey z) = Some z.
Proof.
  unfold App.yearKey. destruct z as [|p|p]; [reflexivity| |].
  - cbn [Z.to_int NilZero.string_of_int].
    rewrite NilZero_nonNil, parseInt_uint by apply to_uint_nonNil.
    now rewrite DecimalPos.Unsigned.of_to.
  - cbn [Z.to_int NilZero.string_of_int].
    rewrite NilZero_nonNil by apply to_uint_nonNil.
    pose proof (parseInt_uint (Pos.to_uint p) (to_uint_nonNil p)) as H.
    rewrite DecimalPos.Unsigned.of_to in H.
    unfold parseInt in *. cbn [Str.trimStart].
    change (Str.isWhiteSpace "-") with false. cbv iota.
    assert (Htrim : Str.trimStart (NilEmpty.string_of_uint (Pos.to_uint p))
                    = NilEmpty.string_of_uint (Pos.to_uint p)).
    { destruct (Pos.to_uint p); reflexivity. }
    rewrite Htrim in H.
    assert (Hsign : match NilEmpty.string_of_uint (Pos.to_uint p) with
      | String "+" r => (false, r)
      | String "-" r => (true, r)
      | _ => (false, NilEmpty.string_of_uint (Pos.to_uint p))
      end = (false, NilEmpty.string_of_uint (Pos.to_uint p))).
    { destruct (Pos.to_uint p); reflexivity. }
    cbv zeta in H. rewrite Hsign in H.
    cbv zeta.
    destruct (if Str.startsWith "0x" (NilEmpty.string_of_uint (Pos.to_uint p))
                 || Str.startsWith "0X" (NilEmpty.string_of_uint (Pos.to_uint p))
              then _ else _) as [m|]; [|discriminate].
    inversion H. reflexivity.
Qed.

Lemma yearKey_nonempty z : yearKey z <> EmptyString.
Proof.
  intros E. pose proof (parseInt_yearKey z) as H. rewrite E in H. discriminate.
Qed.

(** A year between 1960 and 2024 is accepted back from its saved
    spelling. *)
Lemma acceptedYear_yearKey z :
  (1960 <= z <= 2024)%Z -> acceptedYear (Some (yearKey z)) = Some z.
Proof.
  intros Hz. unfold acceptedYear.
  pose proof (yearKey_nonempty z) as Hne. apply String.eqb_neq in Hne.
  rewrite Hne, parseInt_yearKey.
  destruct (Z.leb_spec 1960 z); [|lia]. destruct (Z.leb_spec z 2024); [|lia].
  reflexivity.
Qed.

Lemma acceptedYear_range item y :
  acceptedYear item = Some y -> (1960 <= y <= 2024)%Z.
Proof.
  unfold acceptedYear. destruct item as [saved|]; [|discriminate].
  destruct (String.eqb saved EmptyString); [discriminate|].
  destruct (parseInt saved) as [z|]; [|discriminate].
  destruct (Z.leb_spec 1960 z); [|discriminate].
  destruct (Z.leb_spec z 2024); [|discriminate].
  simpl. intros Heq. inversion Heq. subst. lia.
Qed.

(** The year an item is accepted for is the year it holds. *)
Lemma acceptedYear_saved item y :
  acceptedYear item = Some y <-> Invariants.savedYear item y.
Proof.
  unfold acceptedYear, Invariants.savedYear. split.
  - destruct item as [saved|]; [|discriminate].
    destruct (String.eqb saved EmptyString) eqn:E; [discriminate|].
    destruct (parseInt saved) as [z|] eqn:Ez; [|discriminate].
    destruct (Z.leb_spec 1960 z); [|discriminate].
    destruct (Z.leb_spec z 2024); [|discriminate].
    simpl. intros Heq. inversion Heq. subst. exists saved.
    apply String.eqb_neq in E. repeat split; try assumption; lia.
  - intros [saved (-> & Hne & Hparse & Hy)].
    apply String.eqb_neq in Hne. rewrite Hne, Hparse.
    destruct (Z.leb_spec 1960 y); [|lia]. destruct (Z.leb_spec y 2024); [|lia].
    reflexivity.
Qed.

Lemma yearFrom_accepted item current y :
  Invariants.yearFrom item current y ->
  y = match acceptedYear item with Some z => z | None => current end.
Proof.
  intros [H|[Hnone ->]].
  - apply acceptedYear_saved in H. now rewrite H.
  - destruct (acceptedYear item) as [z|] eqn:E; [|reflexivity].
    apply acceptedYear_saved in E. now apply Hnone in E.
Qed.

(** The range [loadSettings] leaves, and what it leaves alone. *)
Lemma loadSettings_fields storage st :
  (1960 <= yearStart st)%Z -> (yearEnd st <= 2024)%Z ->
  (1960 <= yearStart (loadSettings storage st)
        < yearEnd (loadSettings storage st))%Z /\
  (yearEnd (loadSettings storage st) <= 2024)%Z /\
  selectedCountries (loadSettings storage st) = selectedCountries st /\
  currentView (loadSettings storage st) = currentView st /\
  mapYear (loadSettings storage st) = mapYear st /\
  rawData (loadSettings storage st) = rawData st.
Proof.
  intros Hs He. unfold loadSettings. cbv zeta.
  destruct (acceptedYear (Obj.get storage keyStart)) as [ys|] eqn:Es;
    destruct (acceptedYear (Obj.get storage keyEnd)) as [ye|] eqn:Ee;
    try apply acceptedYear_range in Es;
    try apply acceptedYear_range in Ee;
    match goal with
    | |- context [(?a >=? ?b)%Z] => destruct (Z.geb_spec a b)
    end; simpl; repeat split; lia.
Qed.

End SettingsFacts.

(** X8. Whatever the storage holds, [loadSettings] leaves a year range
    that is in order and on the sliders, provided the state it starts
    from has its start year at 1960 or later and its end year at 2024
    or earlier.  Each of the two years is the one its item holds, or,
    when the item is missing, empty, not a number or out of range, the
    one the state had; if the start so found is not before the end,
    the range becomes 1990 to 2024.  Nothing else in the state
    changes. *)
Theorem loadSettings_valid_range (storage : Ui.Storage) (st : App.State) :
  (1960 <= App.yearStart st)%Z ->
  (App.yearEnd st <= 2024)%Z ->
  let st' := Ui.loadSettings storage st in
  (1960 <= App.yearStart st' < App.yearEnd st')%Z /\
  (App.yearEnd st' <= 2024)%Z /\
  (forall s e,
     Invariants.yearFrom (Obj.get storage Ui.keyStart) (App.yearStart st) s ->
     Invariants.yearFrom (Obj.get storage Ui.keyEnd) (App.yearEnd st) e ->
     ((s < e)%Z -> App.yearStart st' = s /\ App.yearEnd st' = e) /\
     ((e <= s)%Z -> App.yearStart st' = 1990%Z /\ App.yearEnd st' = 2024%Z)) /\
  App.selectedCountries st' = App.selectedCountries st /\
  App.priceType st' = App.priceType st /\
  App.currentView st' = App.currentView st /\
  App.mapYear st' = App.mapYear st /\
  App.gdpData st' = App.gdpData st /\
  App.pppData st' = App.pppData st /\
  App.rawData st' = App.rawData st.
Proof.
  intros Hs He. cbv zeta.
  split; [|split; [|split]].
  - apply (SettingsFacts.loadSettings_fields storage st Hs He).
  - apply (SettingsFacts.loadSettings_fields storage st Hs He).
  - intros s e Hstart Hend.
    apply SettingsFacts.yearFrom_accepted in Hstart, Hend.
    unfold Ui.loadSettings. cbv zeta. rewrite <- Hstart, <- Hend.
    destruct (Z.geb_spec s e); simpl; split; intros; try lia; split; reflexivity.
  - unfold Ui.loadSettings. cbv zeta.
    match goal with
    | |- context [(?a >=? ?b)%Z] => destruct (a >=? b)%Z
    end; simpl; repeat split; reflexivity.
Qed.

Lemma loadSettings_valid_range_witness :
  App.yearStart
    (Ui.loadSettings [(Ui.keyStart, "2024"); (Ui.keyEnd, "abc")]
                     SampleState.initial) = 1990%Z /\
  App.yearEnd
    (Ui.loadSettings [(Ui.keyStart, "2024"); (Ui.keyEnd, "abc")]
                     SampleState.initial) = 2024%Z.
Proof.
  destruct (loadSettings_valid_range [(Ui.keyStart, "2024"); (Ui.keyEnd, "abc")]
                                     SampleState.initial)
    as (_ & _ & Hyears & _); [simpl; lia | simpl; lia |].
  apply (Hyears 2024%Z 2023%Z); [| |lia].
  - left. exists "2024". repeat split; try reflexivity; try discriminate; lia.
  - right. split; [|reflexivity].
    intros z [saved (Hitem & _ & Hparse & _)].
    inversion Hitem. subst saved. discriminate Hparse.
Defined.

(** X9. Settings survive a save and a load: after [saveSettings] on a
    state whose range is in order and on the sliders, [loadSettings]
    gives any state that same range, whatever the storage held
    before. *)
Theorem settings_round_trip (storage : Ui.Storage) (st st0 : App.State) :
  (1960 <= App.yearStart st < App.yearEnd st)%Z ->
  (App.yearEnd st <= 2024)%Z ->
  let st' := Ui.loadSettings (Ui.saveSettings st storage) st0 in
  App.yearStart st' = App.yearStart st /\ App.yearEnd st' = App.yearEnd st.
Proof.
  intros Hrange Hend. cbv zeta. unfold Ui.loadSettings, Ui.saveSettings. cbv zeta.
  rewrite ObjFacts.get_set_eq.
  rewrite ObjFacts.get_set_ne by discriminate.
  rewrite ObjFacts.get_set_eq.
  rewrite !SettingsFacts.acceptedYear_yearKey by lia.
  destruct (Z.geb_spec (App.yearStart st) (App.yearEnd st)); [lia|].
  split; reflexivity.
Qed.

Lemma settings_round_trip_witness :
  App.yearStart (Ui.loadSettings
                   (Ui.saveSettings SampleState.initial [(Ui.keyStart, "1975")])
                   SampleState.collapsedState)
  = 2018%Z.
Proof.
  apply (settings_round_trip [(Ui.keyStart, "1975")] SampleState.initial
                             SampleState.collapsedState); simpl; lia.
Defined.

(** ** Events *)

Module EventFacts.
Import App Ui Invariants.

Lemma existsb_eqb_In code l :
  existsb (String.eqb code) l = true <-> In code l.
Proof.
  rewrite existsb_exists. split.
  - intros [x [Hx E]]. apply String.eqb_eq in E. now subst.
  - intros H. exists code. split; [exact H|apply String.eqb_refl].
Qed.

Lemma pushNew_NoDup l code : NoDup l -> NoDup (pushNew l code).
Proof.
  intros H. unfold pushNew.
  destruct (existsb (String.eqb code) l) eqn:E; [exact H|].
  apply NoDup_app; [exact H | repeat constructor; tauto |].
  intros x Hx [<-|[]].
  apply existsb_eqb_In in Hx. congruence.
Qed.

Lemma pushNew_In l code x : In x (pushNew l code) <-> In x l \/ x = code.
Proof.
  unfold pushNew. destruct (existsb (String.eqb code) l) eqn:E.
  - apply existsb_eqb_In in E. split; [tauto|]. intros [H| ->]; assumption.
  - rewrite in_app_iff. simpl. split; intros [H|H]; try tauto.
    + destruct H as [<-|[]]. now right.
    + subst. tauto.
Qed.

Lemma remove_In l code x : In x (remove l code) <-> In x l /\ x <> code.
Proof.
  unfold remove. rewrite filter_In.
  split; intros [H1 H2]; split; try assumption.
  - apply negb_true_iff, String.eqb_neq in H2. exact H2.
  - apply negb_true_iff, String.eqb_neq. exact H2.
Qed.

Lemma remove_NoDup l code : NoDup l -> NoDup (remove l code).
Proof. apply NoDup_filter. Qed.

Lemma toggle_NoDup l code : NoDup l -> NoDup (toggle l code).
Proof.
  intros H. unfold toggle.
  destruct (existsb (String.eqb code) l) eqn:E; [now apply remove_NoDup|].
  apply NoDup_app; [exact H | repeat constructor; tauto |].
  intros x Hx [<-|[]].
  apply existsb_eqb_In in Hx. congruence.
Qed.

Lemma fold_pushNew_NoDup options : forall l,
  NoDup l -> NoDup (fold_left pushNew options l).
Proof.
  induction options as [|o options IH]; simpl; intros l H; [exact H|].
  apply IH. now apply pushNew_NoDup.
Qed.

Lemma handle_NoDup ev st :
  NoDup (selectedCountries st) -> NoDup (selectedCountries (handle ev st)).
Proof.
  intros H. destruct ev; simpl; try exact H.
  - destruct (String.eqb view "ratio"); simpl; [|exact H].
    unfold setPriceType, updateActiveData. simpl. exact H.
  - destruct (String.eqb (currentView st) "ratio"); [exact H|].
    unfold setPriceType, updateActiveData. simpl.
    now destruct (String.eqb type "current").
  - now destruct (value >=? yearEnd st)%Z.
  - now destruct (value <=? yearStart st)%Z.
  - now apply fold_pushNew_NoDup.
  - now apply pushNew_NoDup.
  - now apply remove_NoDup.
  - now apply toggle_NoDup.
  - destruct code as [c|]; [|exact H].
    destruct (String.eqb c EmptyString); [exact H|]. now apply toggle_NoDup.
Qed.

Lemma run_app evs1 evs2 st : run (evs1 ++ evs2) st = run evs2 (run evs1 st).
Proof. unfold run. apply fold_left_app. Qed.

(** An invariant of every handler is an invariant of every run. *)
Lemma run_invariant (P : State -> Prop) (Q : Event -> Prop) :
  (forall ev st, Q ev -> P st -> P (handle ev st)) ->
  forall evs st, Forall Q evs -> P st -> P (run evs st).
Proof.
  intros Hstep. unfold run.
  induction evs as [|ev evs IH]; simpl; intros st Hq Hp; [exact Hp|].
  inversion Hq. subst. apply IH; [assumption|]. now apply Hstep.
Qed.

Lemma setPriceType_basis type st :
  activeMatchesBasis (setPriceType type st) /\
  priceType (setPriceType type st) = type /\
  rawData (setPriceType type st) = rawData st /\
  currentView (setPriceType type st) = currentView st.
Proof.
  unfold setPriceType, updateActiveData, activeMatchesBasis. simpl.
  destruct (String.eqb type "current") eqn:E; simpl; rewrite E; tauto.
Qed.

Lemma handle_basis raw ev st :
  basisInvariant raw st -> basisInvariant raw (handle ev st).
Proof.
  unfold basisInvariant. intros [Hraw [Hact Hratio]].
  destruct ev; simpl;
    try (split; [exact Hraw|split; [exact Hact|exact Hratio]]).
  - destruct (String.eqb view "ratio") eqn:E.
    + destruct (setPriceType_basis "current" (withView st view))
        as [H1 [H2 [H3 H4]]].
      rewrite H3. simpl. tauto.
    + simpl. split; [exact Hraw|]. split; [exact Hact|].
      intros ->. discriminate.
  - destruct (String.eqb (currentView st) "ratio") eqn:E; [tauto|].
    destruct (setPriceType_basis type st) as [H1 [H2 [H3 H4]]].
    rewrite H3, H4. split; [exact Hraw|]. split; [exact H1|].
    intros Hv. rewrite Hv in E. discriminate.
  - destruct (value >=? yearEnd st)%Z; simpl; tauto.
  - destruct (value <=? yearStart st)%Z; simpl; tauto.
  - destruct code as [c|]; [|tauto].
    destruct (String.eqb c EmptyString); simpl; tauto.
Qed.

End EventFacts.

(** X10. The selection never holds a country twice: every handler that
    adds a code tests [includes] first, so a selection without
    duplicates stays without duplicates through any run of events.
    Removing a code removes it, adding one from the search puts it in,
    and toggling one from the rankings flips whether it is in.  A click
    on a path of the map flips it too when the path has a code that is
    not the empty string; a path without a code, or with the empty
    one, leaves the selection as it is. *)
Theorem selection_stays_duplicate_free (evs : list Ui.Event) (st : App.State) :
  NoDup (App.selectedCountries st) ->
  NoDup (App.selectedCountries (Ui.run evs st)) /\
  (forall code,
     ~ In code (App.selectedCountries (Ui.handle (Ui.RemoveClick code) st)) /\
     In code (App.selectedCountries (Ui.handle (Ui.SearchAdd code) st)) /\
     (In code (App.selectedCountries (Ui.handle (Ui.ToggleCountry code) st))
      <-> ~ In code (App.selectedCountries st)) /\
     (code <> EmptyString ->
      (In code (App.selectedCountries (Ui.handle (Ui.MapClick (Some code)) st))
       <-> ~ In code (App.selectedCountries st)))) /\
  Ui.handle (Ui.MapClick None) st = st /\
  Ui.handle (Ui.MapClick (Some EmptyString)) st = st.
Proof.
  intros Hnd.
  assert (Htoggle : forall code,
            In code (Ui.toggle (App.selectedCountries st) code)
            <-> ~ In code (App.selectedCountries st)).
  { intros code. unfold Ui.toggle.
    destruct (existsb (String.eqb code) (App.selectedCountries st)) eqn:E.
    - apply EventFacts.existsb_eqb_In in E.
      rewrite EventFacts.remove_In. tauto.
    - assert (Hnin : ~ In code (App.selectedCountries st)).
      { intros H. apply EventFacts.existsb_eqb_In in H. congruence. }
      rewrite in_app_iff. simpl. tauto. }
  split; [|split; [|split; reflexivity]].
  - apply (EventFacts.run_invariant
             (fun s => NoDup (App.selectedCountries s)) (fun _ => True)).
    + intros ev s _. apply EventFacts.handle_NoDup.
    + apply Forall_forall. trivial.
    + exact Hnd.
  - intros code. split; [|split; [|split]].
    + simpl. rewrite EventFacts.remove_In. tauto.
    + simpl. apply EventFacts.pushNew_In. now right.
    + simpl. apply Htoggle.
    + intros Hcode. cbn [Ui.handle].
      apply String.eqb_neq in Hcode. rewrite Hcode. simpl. apply Htoggle.
Qed.

Lemma selection_stays_duplicate_free_witness :
  NoDup (App.selectedCountries
           (Ui.run [Ui.SearchAdd "USA"; Ui.SelectChange ["FRA"; "USA"];
                    Ui.ToggleCountry "FRA"; Ui.ToggleCountry "CHN";
                    Ui.MapClick (Some "USA"); Ui.MapClick (Some EmptyString);
                    Ui.MapClick None; Ui.MapClick (Some "BRA")]
                   SampleState.initial)).
Proof.
  apply (selection_stays_duplicate_free _ SampleState.initial).
  simpl. repeat constructor. simpl. tauto.
Defined.

(** X11. Through any run of events a state that holds the stores of
    its price basis keeps doing so, the raw stores are never replaced,
    and the ratio view always goes with current prices: entering it
    sets them, and a click on a price button is ignored while it is
    shown.  In the ratio view the active stores are therefore the
    current-price ones. *)
Theorem ratio_view_on_current_prices (evs : list Ui.Event) (st : App.State) :
  Ui.activeMatchesBasis st ->
  (App.currentView st = "ratio" -> App.priceType st = "current") ->
  let st' := Ui.run evs st in
  App.rawData st' = App.rawData st /\
  Ui.activeMatchesBasis st' /\
  (App.currentView st' = "ratio" ->
   App.priceType st' = "current" /\
   App.gdpData st' = App.gdpCurrent (App.rawData st) /\
   App.pppData st' = App.pppCurrent (App.rawData st)).
Proof.
  intros Hact Hratio. cbv zeta.
  assert (Hinv : Invariants.basisInvariant (App.rawData st) (Ui.run evs st)).
  { apply (EventFacts.run_invariant
             (Invariants.basisInvariant (App.rawData st)) (fun _ => True)).
    - intros ev s _. apply EventFacts.handle_basis.
    - apply Forall_forall. trivial.
    - unfold Invariants.basisInvariant. tauto. }
  destruct Hinv as [Hraw [Hact' Hratio']].
  split; [exact Hraw|]. split; [exact Hact'|].
  intros Hview. specialize (Hratio' Hview). split; [exact Hratio'|].
  unfold Ui.activeMatchesBasis in Hact'. rewrite Hratio' in Hact'.
  simpl in Hact'. rewrite Hraw in Hact'. exact Hact'.
Qed.

Lemma ratio_view_on_current_prices_witness :
  App.priceType
    (Ui.run [Ui.PriceClick "constant"; Ui.ViewClick "ratio";
             Ui.PriceClick "constant"]
            (App.setPriceType "current" SampleState.initial))
  = "current".
Proof.
  apply (ratio_view_on_current_prices
           [Ui.PriceClick "constant"; Ui.ViewClick "ratio";
            Ui.PriceClick "constant"]
           (App.setPriceType "current" SampleState.initial)).
  - split; reflexivity.
  - discriminate.
  - reflexivity.
Defined.

(** ** Year sliders and the animation *)

Module YearFacts.
Import App Ui Invariants.

Lemma handle_years ev st :
  onSlider ev -> yearsOnSliders st -> yearsOnSliders (handle ev st).
Proof.
  unfold yearsOnSliders, onSlider. intros Hev Hst.
  destruct ev; simpl; try exact Hst.
  - destruct (String.eqb view "ratio"); simpl; [|exact Hst].
    unfold setPriceType, updateActiveData. simpl. exact Hst.
  - destruct (String.eqb (currentView st) "ratio"); [exact Hst|].
    unfold setPriceType, updateActiveData. simpl.
    now destruct (String.eqb type "current").
  - destruct (Z.geb_spec value (yearEnd st)); simpl; lia.
  - destruct (Z.leb_spec value (yearStart st)); simpl; lia.
  - lia.
  - destruct (Z.gtb_spec (mapYear st + 1) 2024); lia.
  - destruct code as [c|]; [|exact Hst].
    destruct (String.eqb c EmptyString); exact Hst.
Qed.

Lemma tick_mapYear st :
  (1960 <= mapYear st <= 2024)%Z ->
  mapYear (handle PlayTick st) = (1960 + (mapYear st - 1960 + 1) mod 65)%Z.
Proof.
  intros H. cbn [handle withMapYear mapYear].
  destruct (Z.gtb_spec (mapYear st + 1) 2024) as [Hgt|Hle].
  - assert (E : mapYear st = 2024%Z) by lia. rewrite E. reflexivity.
  - rewrite Z.mod_small by lia. lia.
Qed.

Lemma ticks_mapYear n : forall st,
  (1960 <= mapYear st <= 2024)%Z ->
  mapYear (run (repeat PlayTick n) st)
  = (1960 + (mapYear st - 1960 + Z.of_nat n) mod 65)%Z.
Proof.
  induction n as [|n IH]; intros st H.
  - cbn [repeat run fold_left Z.of_nat]. rewrite Z.add_0_r, Z.mod_small by lia. lia.
  - cbn [repeat]. change (run (PlayTick :: repeat PlayTick n) st)
      with (run (repeat PlayTick n) (handle PlayTick st)).
    pose proof (tick_mapYear st H) as Ht.
    assert (Hr : (1960 <= mapYear (handle PlayTick st) <= 2024)%Z).
    { rewrite Ht.
      pose proof (Z.mod_pos_bound (mapYear st - 1960 + 1) 65 ltac:(lia)). lia. }
    rewrite (IH _ Hr), Ht.
    replace (1960 + (mapYear st - 1960 + 1) mod 65 - 1960 + Z.of_nat n)%Z
      with ((mapYear st - 1960 + 1) mod 65 + Z.of_nat n)%Z by lia.
    rewrite Zplus_mod_idemp_l. f_equal. f_equal. lia.
Qed.

End YearFacts.

(** X12. Slider values between 1960 and 2024 keep the state on the
    sliders through any run of events: 1960 <= start <= end <= 2024 and
    1960 <= map year <= 2024.  Moving the start slider to a value below
    2024 leaves a start year strictly before the end year, and moving
    the end slider to a value above 1960 does too; moving the start
    slider to 2024, or the end slider to 1960, makes the two years
    equal. *)
Theorem years_stay_on_sliders (evs : list Ui.Event) (st : App.State) :
  Forall Ui.onSlider evs ->
  (1960 <= App.yearStart st <= App.yearEnd st)%Z ->
  (App.yearEnd st <= 2024)%Z ->
  (1960 <= App.mapYear st <= 2024)%Z ->
  let st' := Ui.run evs st in
  ((1960 <= App.yearStart st' <= App.yearEnd st')%Z /\
   (App.yearEnd st' <= 2024)%Z /\
   (1960 <= App.mapYear st' <= 2024)%Z) /\
  (forall v, (v < 2024)%Z ->
     (App.yearStart (Ui.handle (Ui.YearStartInput v) st)
      < App.yearEnd (Ui.handle (Ui.YearStartInput v) st))%Z) /\
  (forall v, (1960 < v)%Z ->
     (App.yearStart (Ui.handle (Ui.YearEndInput v) st)
      < App.yearEnd (Ui.handle (Ui.YearEndInput v) st))%Z) /\
  App.yearStart (Ui.handle (Ui.YearStartInput 2024) st)
  = App.yearEnd (Ui.handle (Ui.YearStartInput 2024) st) /\
  App.yearStart (Ui.handle (Ui.YearEndInput 1960) st)
  = App.yearEnd (Ui.handle (Ui.YearEndInput 1960) st).
Proof.
  intros Hevs Hse He Hm. cbv zeta.
  split; [|split; [|split; [|split]]].
  - apply (EventFacts.run_invariant Invariants.yearsOnSliders Ui.onSlider);
      [apply YearFacts.handle_years | exact Hevs |].
    unfold Invariants.yearsOnSliders. tauto.
  - intros v Hv. simpl.
    destruct (Z.geb_spec v (App.yearEnd st)); simpl; lia.
  - intros v Hv. simpl.
    destruct (Z.leb_spec v (App.yearStart st)); simpl; lia.
  - simpl. destruct (Z.geb_spec 2024 (App.yearEnd st)); simpl; lia.
  - simpl. destruct (Z.leb_spec 1960 (App.yearStart st)); simpl; lia.
Qed.

Lemma years_stay_on_sliders_witness :
  (1960 <= App.yearStart
             (Ui.run [Ui.YearStartInput 2024; Ui.YearEndInput 1960; Ui.PlayTick]
                     SampleState.initial)
   <= App.yearEnd
        (Ui.run [Ui.YearStartInput 2024; Ui.YearEndInput 1960; Ui.PlayTick]
                SampleState.initial))%Z.
Proof.
  apply (years_stay_on_sliders
           [Ui.YearStartInput 2024; Ui.YearEndInput 1960; Ui.PlayTick]
           SampleState.initial).
  - repeat constructor; simpl; lia.
  - simpl. lia.
  - simpl. lia.
  - simpl. lia.
Defined.

(** X13. The animation walks the years 1960 to 2024 in a cycle: a tick
    moves the map to the next year and from 2024 back to 1960, after
    [n] ticks the map year is 1960 + (year - 1960 + n) mod 65, and
    after 65 ticks it is the year the animation started from. *)
Theorem play_cycles_through_years (n : nat) (st : App.State) :
  (1960 <= App.mapYear st <= 2024)%Z ->
  App.mapYear (Ui.run (repeat Ui.PlayTick n) st)
  = (1960 + (App.mapYear st - 1960 + Z.of_nat n) mod 65)%Z /\
  App.mapYear (Ui.run (repeat Ui.PlayTick 65) st) = App.mapYear st /\
  (App.mapYear st = 2024%Z -> App.mapYear (Ui.handle Ui.PlayTick st) = 1960%Z) /\
  (App.mapYear st < 2024 ->
   App.mapYear (Ui.handle Ui.PlayTick st) = App.mapYear st + 1)%Z.
Proof.
  intros H. split; [now apply YearFacts.ticks_mapYear|].
  split; [|split].
  - rewrite YearFacts.ticks_mapYear by exact H.
    change (Z.of_nat 65) with (1 * 65)%Z.
    rewrite Z.mod_add by lia. rewrite Z.mod_small by lia. lia.
  - intros E. cbn [Ui.handle Ui.withMapYear App.mapYear]. rewrite E. reflexivity.
  - intros Hlt. cbn [Ui.handle Ui.withMapYear App.mapYear].
    destruct (Z.gtb_spec (App.mapYear st + 1) 2024); [lia|reflexivity].
Qed.

Lemma play_cycles_through_years_witness :
  App.mapYear (Ui.run (repeat Ui.PlayTick 3) SampleState.initial) = 1961%Z.
Proof.
  destruct (play_cycles_through_years 3 SampleState.initial) as [H _].
  - simpl. lia.
  - exact H.
Defined.

(** ** Sorting by a number *)

Module SortFacts.
Import App SortKey.

Section Generic.
Context {A : Type} (cmp : A -> A -> jsnum) (P : A -> Prop) (R : A -> A -> Prop).

Hypothesis R_trans : forall x y z, P x -> P y -> P z -> R x y -> R y z -> R x z.
Hypothesis cmp_R : forall x y, P x -> P y ->
  if Num.gt (cmp x y) Num.zero then R y x else R x y.

Lemma sortInsert_sorted_gen x l :
  P x -> Forall P l -> StronglySorted R l ->
  StronglySorted R (sortInsert cmp x l).
Proof.
  intros Hx Hl Hsorted.
  induction Hsorted as [|y l Hsorted IH Hall]; cbn [sortInsert].
  - repeat constructor.
  - inversion Hl as [|? ? Hy Hl']. subst.
    pose proof (cmp_R x y Hx Hy) as Hc.
    destruct (Num.gt (cmp x y) Num.zero).
    + constructor; [now apply IH|].
      rewrite Forall_forall. intros c Hc'.
      apply (Permutation_in _ (RankFacts.sortInsert_perm cmp x l)) in Hc'.
      destruct Hc' as [<-|Hc']; [exact Hc|].
      rewrite Forall_forall in Hall. now apply Hall.
    + constructor; [now constructor|].
      constructor; [exact Hc|].
      rewrite Forall_forall in Hall, Hl' |- *. intros c Hc'.
      apply (R_trans x y c); auto.
Qed.

Lemma sort_sorted_gen l : Forall P l -> StronglySorted R (sort cmp l).
Proof.
  induction l as [|x l IH]; intros Hl; simpl; [constructor|].
  inversion Hl. subst.
  apply sortInsert_sorted_gen; [assumption | | now apply IH].
  rewrite Forall_forall in *. intros c Hc.
  apply RankFacts.sort_In in Hc. auto.
Qed.

End Generic.

Lemma le_trans a b c : plain a -> plain b -> plain c -> le a b -> le b c -> le a c.
Proof.
  intros [->|[x ->]] [->|[y ->]] [->|[z ->]]; simpl; try tauto. lra.
Qed.

(** The sign of a difference of plain keys tells their order. *)
Lemma sub_order a b :
  plain a -> plain b ->
  if Num.gt (Num.sub a b) Num.zero then le b a else le a b.
Proof.
  intros [->|[x ->]] [->|[y ->]]; simpl; try exact I.
  destruct (Rlt_dec 0 (x + - y)); lra.
Qed.

(** Sorting with [(a, b) => key(a) - key(b)] gives ascending keys,
    with [(a, b) => key(b) - key(a)] descending keys. *)
Lemma sort_by_key {A : Type} (key : A -> jsnum) (ascending : bool) (l : list A) :
  Forall (fun x => plain (key x)) l ->
  inOrder key ascending
          (sort (fun a b => if ascending then Num.sub (key a) (key b)
                            else Num.sub (key b) (key a)) l).
Proof.
  intros Hl. unfold inOrder. destruct ascending.
  - apply (sort_sorted_gen _ (fun x => plain (key x))); [| |exact Hl].
    + intros x y z Hx Hy Hz. now apply le_trans.
    + intros x y Hx Hy.
      pose proof (sub_order (key x) (key y) Hx Hy) as H.
      now destruct (Num.gt (Num.sub (key x) (key y)) Num.zero).
  - apply (sort_sorted_gen _ (fun x => plain (key x))); [| |exact Hl].
    + intros x y z Hx Hy Hz H1 H2. now apply (le_trans _ (key y)).
    + intros x y Hx Hy.
      pose proof (sub_order (key y) (key x) Hy Hx) as H.
      now destruct (Num.gt (Num.sub (key y) (key x)) Num.zero).
Qed.

Lemma orNum_plain v d :
  Standing.finiteOrMissing v -> plain d -> plain (Val.orNum v d).
Proof.
  intros [->|[->|[r ->]]] Hd; unfold Val.orNum; simpl; try exact Hd.
  destruct (Req_dec_T r 0); [exact Hd|]. right. now exists r.
Qed.

End SortFacts.

Module RankingOrder.
Import App MapView Rankings SortKey Standing.

(** For a numeric column the comparison is the difference of the keys. *)
Lemma compareRows_key localeCompare rs a b :
  rankingsSortField rs <> "rank" -> rankingsSortField rs <> "name" ->
  compareRows localeCompare rs a b =
  if rankingsSortAsc rs
  then Num.sub (rankingKey (rankingsSortField rs) a)
               (rankingKey (rankingsSortField rs) b)
  else Num.sub (rankingKey (rankingsSortField rs) b)
               (rankingKey (rankingsSortField rs) a).
Proof.
  intros Hrank Hname. unfold compareRows, rankingKey. cbv zeta.
  apply String.eqb_neq in Hrank, Hname. rewrite Hrank, Hname.
  destruct (String.eqb (rankingsSortField rs) "gdp") eqn:Egdp.
  - apply String.eqb_eq in Egdp. rewrite Egdp. reflexivity.
  - destruct (String.eqb (rankingsSortField rs) "ppp"); [reflexivity|].
    destruct (String.eqb (rankingsSortField rs) "growth"); reflexivity.
Qed.

Lemma sort_ext {A : Type} (f g : A -> A -> jsnum) l :
  (forall a b, f a b = g a b) -> sort f l = sort g l.
Proof.
  intros Hfg. induction l as [|x l IH]; simpl; [reflexivity|].
  rewrite IH. generalize (sort g l). intros s.
  induction s as [|y s IHs]; simpl; [reflexivity|].
  rewrite Hfg, IHs. reflexivity.
Qed.

Lemma rankingKey_plain field c :
  finiteOrMissing (gdp c) -> finiteOrMissing (ppp c) ->
  finiteOrMissing (growth c) -> plain (rankingKey field c).
Proof.
  intros Hg Hp Hr. unfold rankingKey.
  destruct (String.eqb field "ppp");
    [apply SortFacts.orNum_plain; [assumption | right; now exists 0%R]|].
  destruct (String.eqb field "growth");
    apply SortFacts.orNum_plain; try assumption; [now left | right; now exists 0%R].
Qed.

Lemma sorted_suffix {A : Type} (R : A -> A -> Prop) pre a post :
  StronglySorted R (pre ++ a :: post) -> Forall (R a) post.
Proof.
  induction pre as [|x pre IH]; simpl; intros H; inversion H; subst; auto.
Qed.

End RankingOrder.

(** X14 (renderGlobalRankings, numeric columns).  When the table is
    sorted by a column other than the rank and the name and every
    entry's GDP, PPP and growth is a finite number or missing, the rows
    stand in the order of that column's number, ascending or descending
    as the direction says, where a missing or zero GDP or PPP counts as
    0 and a missing or zero growth as minus infinity.  So under the
    descending order by growth no row without a growth stands above a
    row with one. *)
Theorem rankings_sorted_by_column
  (localeCompare : string -> string -> jsnum)
  (rs : Rankings.RankingsState) (selected : list string) :
  Rankings.rankingsSortField rs <> "rank" ->
  Rankings.rankingsSortField rs <> "name" ->
  Forall (fun c => Standing.finiteOrMissing (MapView.gdp c) /\
                   Standing.finiteOrMissing (MapView.ppp c) /\
                   Standing.finiteOrMissing (MapView.growth c))
         (Rankings.globalRankingsData rs) ->
  let rows := map Rankings.entry
                  (Rankings.renderGlobalRankings localeCompare rs selected) in
  SortKey.inOrder (SortKey.rankingKey (Rankings.rankingsSortField rs))
                  (Rankings.rankingsSortAsc rs) rows /\
  (Rankings.rankingsSortField rs = "growth" ->
   Rankings.rankingsSortAsc rs = false ->
   forall pre a post,
     rows = (pre ++ a :: post)%list ->
     Val.truthy (MapView.growth a) = false ->
     Forall (fun b => Val.truthy (MapView.growth b) = false) post).
Proof.
  intros Hrank Hname Hfin rows.
  assert (Hrows : rows =
    App.sort (fun a b =>
                if Rankings.rankingsSortAsc rs
                then Num.sub (SortKey.rankingKey (Rankings.rankingsSortField rs) a)
                             (SortKey.rankingKey (Rankings.rankingsSortField rs) b)
                else Num.sub (SortKey.rankingKey (Rankings.rankingsSortField rs) b)
                             (SortKey.rankingKey (Rankings.rankingsSortField rs) a))
             (Rankings.filterRows rs)).
  { unfold rows, Rankings.renderGlobalRankings. cbv zeta.
    rewrite map_map. cbn [Rankings.entry]. rewrite map_id.
    apply RankingOrder.sort_ext. intros a b.
    now apply RankingOrder.compareRows_key. }
  assert (Hplain : Forall (fun c => SortKey.plain
                     (SortKey.rankingKey (Rankings.rankingsSortField rs) c))
                          (Rankings.filterRows rs)).
  { rewrite Forall_forall in Hfin |- *. intros c Hc.
    apply RankFacts.filterRows_In in Hc.
    destruct (Hfin c Hc) as (Hg & Hp & Hr).
    now apply RankingOrder.rankingKey_plain. }
  assert (Hsorted : SortKey.inOrder
                      (SortKey.rankingKey (Rankings.rankingsSortField rs))
                      (Rankings.rankingsSortAsc rs) rows).
  { rewrite Hrows. now apply SortFacts.sort_by_key. }
  split; [exact Hsorted|].
  intros Hfield Hasc pre a post Hsplit Ha.
  rewrite Hasc in Hsorted. unfold SortKey.inOrder in Hsorted.
  rewrite Hsplit in Hsorted.
  apply RankingOrder.sorted_suffix in Hsorted.
  assert (Hin : forall b, In b post -> In b (Rankings.globalRankingsData rs)).
  { intros b Hb. apply RankFacts.filterRows_In.
    apply (RankFacts.sort_In) with (cmp := fun a0 b0 =>
                if Rankings.rankingsSortAsc rs
                then Num.sub (SortKey.rankingKey (Rankings.rankingsSortField rs) a0)
                             (SortKey.rankingKey (Rankings.rankingsSortField rs) b0)
                else Num.sub (SortKey.rankingKey (Rankings.rankingsSortField rs) b0)
                             (SortKey.rankingKey (Rankings.rankingsSortField rs) a0)).
    rewrite <- Hrows, Hsplit. apply in_or_app. right. now right. }
  rewrite Forall_forall in Hsorted, Hfin |- *. intros b Hb.
  specialize (Hsorted b Hb). rewrite Hfield in Hsorted.
  unfold SortKey.rankingKey in Hsorted. simpl String.eqb in Hsorted.
  unfold Val.orNum in Hsorted. rewrite Ha in Hsorted.
  destruct (Hfin b (Hin b Hb)) as (_ & _ & [Hb'|[Hb'|[r Hb']]]);
    rewrite Hb' in Hsorted |- *; try reflexivity.
  simpl in Hsorted |- *. destruct (Req_dec_T r 0); [reflexivity|].
  simpl in Hsorted. contradiction.
Qed.

Ltac finite_or_missing :=
  unfold Standing.finiteOrMissing; simpl;
  first [now left | right; now left | right; right; eexists; reflexivity].

Lemma rankings_sorted_by_column_witness :
  Forall (fun c => Standing.finiteOrMissing (MapView.gdp c) /\
                   Standing.finiteOrMissing (MapView.ppp c) /\
                   Standing.finiteOrMissing (MapView.growth c))
         (Rankings.globalRankingsData SampleSort.byGrowth) /\
  SortKey.inOrder (SortKey.rankingKey "growth") false
    (map Rankings.entry
         (Rankings.renderGlobalRankings SampleRank.noCollation
                                        SampleSort.byGrowth ["ALB"])).
Proof.
  assert (H : Forall (fun c => Standing.finiteOrMissing (MapView.gdp c) /\
                   Standing.finiteOrMissing (MapView.ppp c) /\
                   Standing.finiteOrMissing (MapView.growth c))
         (Rankings.globalRankingsData SampleSort.byGrowth)).
  { simpl. repeat (apply Forall_cons || apply Forall_nil);
      repeat split; finite_or_missing. }
  split; [exact H|].
  apply (rankings_sorted_by_column SampleRank.noCollation
                                   SampleSort.byGrowth ["ALB"]).
  - discriminate.
  - discriminate.
  - exact H.
Defined.

(** ** The chart *)

Module ChartFacts.
Import App Chart.

Lemma yearsOf_In st y :
  In y (yearsOf st) <-> (yearStart st <= y <= yearEnd st)%Z.
Proof.
  unfold yearsOf. rewrite in_map_iff. split.
  - intros [k [<- Hk]]. apply in_seq in Hk. lia.
  - intros Hy. exists (Z.to_nat (y - yearStart st)). split; [lia|].
    apply in_seq. lia.
Qed.

Lemma yearsOf_length st :
  List.length (yearsOf st) = Z.to_nat (yearEnd st - yearStart st + 1).
Proof. unfold yearsOf. now rewrite length_map, length_seq. Qed.

Lemma flat_map_length_le {A B : Type} (f : A -> list B) (k : nat) l :
  (forall a, List.length (f a) <= k)%nat ->
  (List.length (flat_map f l) <= k * List.length l)%nat.
Proof.
  intros Hf. induction l as [|a l IH]; simpl; [lia|].
  rewrite length_app. specialize (Hf a). lia.
Qed.

Lemma createDatasets_points st source years :
  Forall (fun d => List.length (ds_data d) = List.length years)
         (createDatasets st source years).
Proof.
  unfold createDatasets. rewrite Forall_forall. intros d Hd.
  apply in_flat_map in Hd. destruct Hd as [[i code] [_ Hd]]. simpl in Hd.
  destruct (Obj.get source code); [|contradiction].
  destruct Hd as [<-|[]]. simpl. apply length_map.
Qed.

Lemma createDatasets_count st source years :
  (List.length (createDatasets st source years)
   <= List.length (selectedCountries st))%nat.
Proof.
  unfold createDatasets.
  etransitivity; [apply (flat_map_length_le _ 1)|].
  - intros [i code]. simpl. destruct (Obj.get source code); simpl; lia.
  - rewrite length_combine, length_seq. lia.
Qed.

Lemma createComparisonDatasets_points st years :
  Forall (fun d => List.length (ds_data d) = List.length years)
         (createComparisonDatasets st years).
Proof.
  unfold createComparisonDatasets. cbv zeta. rewrite Forall_forall. intros d Hd.
  apply in_flat_map in Hd. destruct Hd as [[i code] [_ Hd]]. simpl in Hd.
  destruct (Obj.get (gdpData st) code); [|contradiction].
  destruct (Obj.get (pppData st) code); [|contradiction].
  destruct Hd as [<-|[<-|[]]]; simpl; apply length_map.
Qed.

Lemma createComparisonDatasets_count st years :
  (List.length (createComparisonDatasets st years) <= 6)%nat.
Proof.
  unfold createComparisonDatasets. cbv zeta.
  etransitivity; [apply (flat_map_length_le _ 2)|].
  - intros [i code]. simpl.
    destruct (Obj.get (gdpData st) code); [|simpl; lia].
    destruct (Obj.get (pppData st) code); simpl; lia.
  - rewrite length_combine, length_seq.
    pose proof (firstn_le_length 3 (selectedCountries st)).
    rewrite length_firstn. lia.
Qed.

Lemma createRatioDatasets_points st years :
  Forall (fun d => List.length (rd_data d) = List.length years)
         (createRatioDatasets st years).
Proof.
  unfold createRatioDatasets. rewrite Forall_forall. intros d Hd.
  apply in_flat_map in Hd. destruct Hd as [code [_ Hd]].
  unfold ratioDataset in Hd.
  destruct (Obj.get (gdpCurrent (rawData st)) code); [|contradiction].
  destruct (Obj.get (pppCurrent (rawData st)) code); [|contradiction].
  destruct Hd as [<-|[]]. simpl. apply length_map.
Qed.

Lemma createRatioDatasets_count st years :
  (List.length (createRatioDatasets st years)
   <= List.length (selectedCountries st))%nat.
Proof.
  unfold createRatioDatasets.
  etransitivity; [apply (flat_map_length_le _ 1)|lia].
  intros code. destruct (ratioDataset st years code); simpl; lia.
Qed.

Lemma Forall_map_length {A : Type} (f : A -> list jsval) (n : nat) l :
  Forall (fun d => List.length (f d) = n) l ->
  Forall (fun d => List.length d = n) (map f l).
Proof. intros H. now rewrite Forall_map. Qed.

End ChartFacts.

(** X15 (renderChart with createDatasets, createRatioDatasets and
    createComparisonDatasets).  The labels of the chart are the years
    from yearStart to yearEnd, none when yearEnd is below yearStart;
    in every view each data set has one point for each label; the
    comparison view draws at most six data sets, the other views at
    most one for each selected country, and a view that is none of
    gdp, ppp, ratio and compare draws none. *)
Theorem renderChart_one_point_per_year (st : App.State) :
  let years := fst (Chart.renderChart st) in
  let datasets := snd (Chart.renderChart st) in
  (forall y, In y years <-> (App.yearStart st <= y <= App.yearEnd st)%Z) /\
  List.length years = Z.to_nat (App.yearEnd st - App.yearStart st + 1) /\
  Forall (fun points => List.length points = List.length years) datasets /\
  (List.length datasets <=
   (if String.eqb (App.currentView st) "compare" then 6
    else List.length (App.selectedCountries st)))%nat /\
  (App.currentView st <> "gdp" -> App.currentView st <> "ppp" ->
   App.currentView st <> "ratio" -> App.currentView st <> "compare" ->
   datasets = []).
Proof.
  unfold Chart.renderChart. cbv zeta. cbn [fst snd].
  split; [apply ChartFacts.yearsOf_In|].
  split; [apply ChartFacts.yearsOf_length|].
  destruct (String.eqb (App.currentView st) "gdp") eqn:Egdp.
  { apply String.eqb_eq in Egdp. rewrite Egdp. simpl String.eqb.
    split; [apply ChartFacts.Forall_map_length, ChartFacts.createDatasets_points|].
    split; [rewrite length_map; apply ChartFacts.createDatasets_count|].
    intros H. now contradiction H. }
  destruct (String.eqb (App.currentView st) "ppp") eqn:Eppp.
  { apply String.eqb_eq in Eppp. rewrite Eppp. simpl String.eqb.
    split; [apply ChartFacts.Forall_map_length, ChartFacts.createDatasets_points|].
    split; [rewrite length_map; apply ChartFacts.createDatasets_count|].
    intros _ H. now contradiction H. }
  destruct (String.eqb (App.currentView st) "ratio") eqn:Eratio.
  { apply String.eqb_eq in Eratio. rewrite Eratio. simpl String.eqb.
    split; [apply ChartFacts.Forall_map_length,
                  ChartFacts.createRatioDatasets_points|].
    split; [rewrite length_map; apply ChartFacts.createRatioDatasets_count|].
    intros _ _ H. now contradiction H. }
  destruct (String.eqb (App.currentView st) "compare") eqn:Ecompare.
  { apply String.eqb_eq in Ecompare.
    split; [apply ChartFacts.Forall_map_length,
                  ChartFacts.createComparisonDatasets_points|].
    split; [rewrite length_map; apply ChartFacts.createComparisonDatasets_count|].
    intros _ _ _ H. now contradiction H. }
  split; [constructor|]. split; [simpl; lia|]. reflexivity.
Qed.

(** ** The export *)

Module ExportFacts.
Import App Chart CsvExport.

Lemma yearsOf_nil st : yearsOf st = [] <-> (yearEnd st < yearStart st)%Z.
Proof.
  rewrite <- length_zero_iff_nil, ChartFacts.yearsOf_length. lia.
Qed.

Lemma countryRows_None st code :
  countryRows st code = None <->
  (yearStart st <= yearEnd st)%Z /\ Obj.get (gdpData st) code = None.
Proof.
  unfold countryRows. pose proof (yearsOf_nil st) as Hnil.
  destruct (yearsOf st) as [|y years].
  - split; [discriminate|]. intros [H _]. destruct Hnil as [Hnil _].
    specialize (Hnil eq_refl). lia.
  - assert (yearStart st <= yearEnd st)%Z.
    { destruct (Z.le_gt_cases (yearStart st) (yearEnd st)) as [H|H]; [exact H|].
      destruct Hnil as [_ Hnil]. assert (yearEnd st < yearStart st)%Z by lia.
      specialize (Hnil H0). discriminate. }
    destruct (Obj.get (gdpData st) code); split; try tauto; try discriminate.
    intros [_ Hg]. discriminate.
Qed.

Lemma countryRows_Some st code rows :
  countryRows st code = Some rows ->
  List.length rows = List.length (yearsOf st) /\
  Forall (fun r => In (ex_year r) (yearsOf st) /\
                   exists gdp, Obj.get (gdpData st) code = Some gdp /\
                     r = exportRow gdp (Obj.get (pppData st) code) (ex_year r))
         rows.
Proof.
  unfold countryRows. destruct (yearsOf st) as [|y years] eqn:Ey.
  - intros [= <-]. split; [reflexivity|constructor].
  - destruct (Obj.get (gdpData st) code) as [gdp|]; [|discriminate].
    intros [= <-]. split; [simpl; now rewrite length_map|].
    rewrite Forall_forall. intros r Hr.
    change (In r (map (exportRow gdp (Obj.get (pppData st) code)) (y :: years)))
      in Hr.
    apply in_map_iff in Hr.
    destruct Hr as [y' [<- Hy']]. split; [exact Hy'|].
    exists gdp. split; reflexivity.
Qed.

Lemma rowsOf_None st codes :
  rowsOf st codes = None <->
  exists code, In code codes /\ countryRows st code = None.
Proof.
  induction codes as [|code rest IH]; simpl.
  - split; [discriminate|]. intros [c [[] _]].
  - destruct (countryRows st code) as [rows|] eqn:Erows.
    + destruct (rowsOf st rest) as [more|].
      * split; [discriminate|]. intros [c [[<-|Hc] Hn]]; [congruence|].
        destruct IH as [_ IH].
        enough (Some more = None) by discriminate. apply IH. now exists c.
      * split; [|reflexivity]. intros _. destruct IH as [IH _].
        destruct (IH eq_refl) as [c [Hc Hn]]. exists c. split; [now right|exact Hn].
    + split; [|reflexivity]. intros _. exists code. split; [now left|exact Erows].
Qed.

Lemma rowsOf_Some st codes rows :
  rowsOf st codes = Some rows ->
  List.length rows = (List.length codes * List.length (yearsOf st))%nat /\
  Forall (fun r => In (ex_year r) (yearsOf st) /\
                   exists code gdp, In code codes /\
                     Obj.get (gdpData st) code = Some gdp /\
                     r = exportRow gdp (Obj.get (pppData st) code) (ex_year r))
         rows.
Proof.
  revert rows. induction codes as [|code rest IH]; simpl; intros rows.
  - intros [= <-]. split; [reflexivity|constructor].
  - destruct (countryRows st code) as [first|] eqn:Efirst; [|discriminate].
    destruct (rowsOf st rest) as [more|]; [|discriminate].
    intros [= <-]. destruct (countryRows_Some _ _ _ Efirst) as [Hlen Hall].
    destruct (IH more eq_refl) as [Hlen' Hall'].
    split; [rewrite length_app; lia|].
    apply Forall_app. split.
    + rewrite Forall_forall in Hall |- *. intros r Hr.
      destruct (Hall r Hr) as [Hy [gdp [Hg Hr']]]. split; [exact Hy|].
      exists code, gdp. auto.
    + rewrite Forall_forall in Hall' |- *. intros r Hr.
      destruct (Hall' r Hr) as [Hy [c [gdp [Hc [Hg Hr']]]]]. split; [exact Hy|].
      exists c, gdp. auto.
Qed.

Lemma exportRow_ratio gdp ppp y :
  ex_ratio (exportRow gdp ppp y) = None <->
  ex_gdp (exportRow gdp ppp y) = None \/ ex_ppp (exportRow gdp ppp y) = None.
Proof.
  unfold exportRow. cbv zeta. simpl.
  destruct (cellOrEmpty (valueAt gdp y)), (cellOrEmpty (valueAtOpt ppp y));
    split; try tauto; try discriminate; intros [H|H]; discriminate.
Qed.

End ExportFacts.

(** X16 (exportToCSV).  The export throws exactly when the year range
    is not empty and a selected code is missing from the active GDP
    store.  Otherwise it writes, after the header, one line for each
    selected country and each year of the range, selected countries
    twice when selected twice; the year of a line lies in the range,
    its name and GDP cell come from the GDP series of a selected code,
    and its ratio cell is empty exactly when its GDP cell or its PPP
    cell is. *)
Theorem exportRows_lines (st : App.State) :
  (CsvExport.exportRows st = None <->
   (App.yearStart st <= App.yearEnd st)%Z /\
   exists code, In code (App.selectedCountries st) /\
                Obj.get (App.gdpData st) code = None) /\
  (forall rows, CsvExport.exportRows st = Some rows ->
     List.length rows =
       (List.length (App.selectedCountries st)
        * Z.to_nat (App.yearEnd st - App.yearStart st + 1))%nat /\
     Forall (fun r =>
               (App.yearStart st <= CsvExport.ex_year r <= App.yearEnd st)%Z /\
               (exists code gdp,
                  In code (App.selectedCountries st) /\
                  Obj.get (App.gdpData st) code = Some gdp /\
                  CsvExport.ex_name r = name gdp /\
                  CsvExport.ex_gdp r
                  = CsvExport.cellOrEmpty (App.valueAt gdp (CsvExport.ex_year r))) /\
               (CsvExport.ex_ratio r = None <->
                CsvExport.ex_gdp r = None \/ CsvExport.ex_ppp r = None))
            rows).
Proof.
  unfold CsvExport.exportRows. split.
  - rewrite ExportFacts.rowsOf_None. split.
    + intros [code [Hc Hn]]. apply ExportFacts.countryRows_None in Hn.
      destruct Hn as [Hy Hg]. split; [exact Hy|]. now exists code.
    + intros [Hy [code [Hc Hg]]]. exists code. split; [exact Hc|].
      apply ExportFacts.countryRows_None. now split.
  - intros rows Hrows. apply ExportFacts.rowsOf_Some in Hrows.
    destruct Hrows as [Hlen Hall]. split.
    + now rewrite Hlen, ChartFacts.yearsOf_length.
    + rewrite Forall_forall in Hall |- *. intros r Hr.
      destruct (Hall r Hr) as [Hy [code [gdp [Hc [Hg Heq]]]]].
      split; [now apply ChartFacts.yearsOf_In|]. split.
      * exists code, gdp. repeat (split; [assumption|]).
        rewrite Heq. split; reflexivity.
      * rewrite Heq. apply ExportFacts.exportRow_ratio.
Qed.

(** ** The search box *)

Module SearchFacts.
Import Countries Search.





End SearchFacts.


(** With the ASCII case mapping and trimming, [ Al ] lists Albania
    alone; and with a pattern test that refuses an open parenthesis,
    the query [(] matches the name [Chile (CHL)] and nothing is
    listed. *)
Example search_sample :
  Search.itemsOf
    (Search.input Str.toLowerCase Str.trim (fun _ => true)
       [Countries.mkCountry "ALB" "Albania"; Countries.mkCountry "CHL" "Chile"]
       " Al ")
  = [Countries.mkCountry "ALB" "Albania"] /\
  Search.input Str.toLowerCase Str.trim
    (fun q => negb (Str.includes "(" q))
    [Countries.mkCountry "CHL" "Chile (CHL)"] "("
  = Search.Threw.
Proof. split; reflexivity. Qed.

(** ** Start-up *)

Module InitFacts.
Import App Countries Ui.

Lemma parseCSV_NoDup csvText : NoDup (Obj.keys (Csv.parseCSV csvText)).
Proof.
  destruct (ParseFacts.parseCSV_form csvText) as [->|[headers [start ->]]].
  - constructor.
  - apply KeyFacts.NoDup_keys_assign. constructor.
Qed.

Lemma merged_NoDup stateText csvText :
  NoDup (Obj.keys (Csv.mergeStateData stateText (Csv.parseCSV csvText))).
Proof.
  rewrite MergeFacts.mergeStateData_assign.
  apply KeyFacts.NoDup_keys_assign, parseCSV_NoDup.
Qed.

(** The list before sorting: one country for each key, in the order of
    the keys. *)
Lemma listed_codes (store : SeriesStore) l :
  incl l (Obj.keys store) ->
  map c_code (flat_map (fun code => match Obj.get store code with
                                    | Some ts => [mkCountry code (name ts)]
                                    | None => []
                                    end) l) = l.
Proof.
  induction l as [|k l IH]; intros Hincl; simpl; [reflexivity|].
  destruct (Obj.get store k) as [ts|] eqn:E.
  - simpl. f_equal. apply IH. intros x Hx. apply Hincl. now right.
  - apply KeyFacts.get_None_keys in E. exfalso. apply E, Hincl. now left.
Qed.

Lemma countriesOf_codes localeCompare store :
  Permutation (map c_code (countriesOf localeCompare store)) (Obj.keys store).
Proof.
  unfold countriesOf.
  rewrite (Permutation_map c_code (RankFacts.sort_perm _ _)).
  rewrite listed_codes; [reflexivity|]. intros x Hx. exact Hx.
Qed.

Lemma countriesOf_names localeCompare store c :
  In c (countriesOf localeCompare store) ->
  exists ts, Obj.get store (c_code c) = Some ts /\ c_name c = name ts.
Proof.
  unfold countriesOf. intros Hc. apply RankFacts.sort_In in Hc.
  apply in_flat_map in Hc. destruct Hc as [code [_ Hc]].
  destruct (Obj.get store code) as [ts|] eqn:E; [|contradiction].
  destruct Hc as [<-|[]]. simpl. now exists ts.
Qed.

End InitFacts.

(** X18 (init with parseCSV, mergeStateData, updateActiveData,
    loadSettings and setPriceType).  Whatever the fetched texts and the
    storage hold, after init the country list has exactly one entry for
    each key of the current-price GDP store, named as the store names
    it; the keys of the active stores are pairwise different; the state
    is on current prices and holds the current-price stores; the view
    is gdp, nothing is selected, the map year is 2023, and the year
    range is in order and within 1960 to 2024. *)
Theorem init_state
  (localeCompare : string -> string -> jsnum)
  (raw : Countries.RawTexts) (storage : Ui.Storage) :
  let st := fst (Countries.init localeCompare raw storage) in
  let countries := snd (Countries.init localeCompare raw storage) in
  Permutation (map Countries.c_code countries) (Obj.keys (App.gdpData st)) /\
  NoDup (map Countries.c_code countries) /\
  Forall (fun c => exists ts,
            Obj.get (App.gdpData st) (Countries.c_code c) = Some ts /\
            Countries.c_name c = name ts) countries /\
  NoDup (Obj.keys (App.gdpData st)) /\
  NoDup (Obj.keys (App.pppData st)) /\
  App.rawData st = Countries.initRawData raw /\
  App.priceType st = "current" /\
  Ui.activeMatchesBasis st /\
  App.currentView st = "gdp" /\
  App.selectedCountries st = [] /\
  App.mapYear st = 2023%Z /\
  (1960 <= App.yearStart st < App.yearEnd st)%Z /\
  (App.yearEnd st <= 2024)%Z.
Proof.
  unfold Countries.init. cbv zeta. cbn [fst snd].
  set (st1 := App.updateActiveData _).
  destruct (SettingsFacts.loadSettings_fields storage st1)
    as (Hy & He & Hsel & Hview & Hmap & Hraw);
    [simpl; lia | simpl; lia |].
  set (st2 := Ui.loadSettings storage st1) in *.
  assert (Hgdp : App.gdpData (App.setPriceType "current" st2)
                 = App.gdpCurrent (Countries.initRawData raw)).
  { unfold App.setPriceType, App.updateActiveData. simpl. now rewrite Hraw. }
  assert (Hppp : App.pppData (App.setPriceType "current" st2)
                 = App.pppCurrent (Countries.initRawData raw)).
  { unfold App.setPriceType, App.updateActiveData. simpl. now rewrite Hraw. }
  assert (Hnd : NoDup (Obj.keys (App.gdpCurrent (Countries.initRawData raw)))).
  { apply InitFacts.merged_NoDup. }
  rewrite Hgdp, Hppp.
  split; [apply InitFacts.countriesOf_codes|].
  split.
  { apply (Permutation_NoDup
             (Permutation_sym (InitFacts.countriesOf_codes localeCompare _))).
    exact Hnd. }
  split.
  { rewrite Forall_forall. intros c Hc.
    now apply InitFacts.countriesOf_names in Hc. }
  split; [exact Hnd|].
  split; [apply InitFacts.merged_NoDup|].
  unfold App.setPriceType, App.updateActiveData, Ui.activeMatchesBasis.
  simpl. rewrite Hraw, Hview, Hsel, Hmap. simpl.
  repeat split; try reflexivity; lia.
Qed.

(** ** The data table *)

Module TableFacts.
Import App Table TableKey SortKey Standing.

Lemma growthPct_finite e s :
  finiteOrMissing e -> finiteOrMissing s -> finiteOrMissing (growthPct e s).
Proof.
  unfold growthPct.
  intros [->|[->|[x ->]]] [->|[->|[y ->]]]; simpl;
    try (right; left; reflexivity);
    try (destruct (Req_dec_T x 0); simpl; right; left; reflexivity).
  destruct (Req_dec_T x 0); simpl; [right; left; reflexivity|].
  destruct (Req_dec_T y 0); simpl; [right; left; reflexivity|].
  right. right. unfold Num.sub, Num.div, Num.mul. simpl.
  destruct (Req_dec_T y 0); [contradiction|]. eexists. reflexivity.
Qed.

Lemma ratioOf_finite g p :
  finiteOrMissing g -> finiteOrMissing p -> finiteOrMissing (ratioOf g p).
Proof.
  unfold ratioOf.
  intros [->|[->|[x ->]]] [->|[->|[y ->]]]; simpl;
    try (right; left; reflexivity);
    try (destruct (Req_dec_T x 0); simpl; right; left; reflexivity).
  destruct (Req_dec_T x 0); simpl; [right; left; reflexivity|].
  destruct (Req_dec_T y 0); simpl; [right; left; reflexivity|].
  right. right. unfold Num.div.
  destruct (Req_dec_T y 0); [contradiction|]. eexists. reflexivity.
Qed.

Lemma valueOrNull_finite store code year :
  finiteStore store ->
  finiteOrMissing (valueOrNull (Obj.get store code) year).
Proof.
  intros Hstore. unfold valueOrNull.
  destruct (Obj.get store code) as [ts|] eqn:E; [now apply (Hstore code)|].
  right. now left.
Qed.

(** The cells of a row are finite or missing when the stores are. *)
Lemma tableRow_finite st code row :
  finiteStore (gdpData st) -> finiteStore (pppData st) ->
  finiteStore (gdpCurrent (rawData st)) ->
  finiteStore (pppCurrent (rawData st)) ->
  tableRow st code = Some row ->
  finiteOrMissing (tr_gdp row) /\ finiteOrMissing (tr_ppp row) /\
  finiteOrMissing (tr_ratio row) /\ finiteOrMissing (tr_growth row).
Proof.
  intros Hg Hp Hgc Hpc. unfold tableRow. cbv zeta.
  pose proof (valueOrNull_finite _ code (yearEnd st) Hg) as Hgv.
  pose proof (valueOrNull_finite _ code (yearEnd st) Hp) as Hpv.
  pose proof (valueOrNull_finite _ code (yearEnd st) Hgc) as Hgcv.
  pose proof (valueOrNull_finite _ code (yearEnd st) Hpc) as Hpcv.
  assert (Hrow : forall r,
    r = mkTableRow code
          match (if String.eqb (currentView st) "ppp"
                 then Obj.get (pppData st) code else None),
                Obj.get (gdpData st) code with
          | Some p, _ => name p
          | None, Some g => name g
          | None, None => "Unknown"
          end
          (valueOrNull (Obj.get (gdpData st) code) (yearEnd st))
          (valueOrNull (Obj.get (pppData st) code) (yearEnd st))
          (ratioOf (valueOrNull (Obj.get (gdpCurrent (rawData st)) code) (yearEnd st))
                   (valueOrNull (Obj.get (pppCurrent (rawData st)) code) (yearEnd st)))
          match (if String.eqb (currentView st) "ppp"
                 then Obj.get (pppData st) code else None),
                Obj.get (gdpData st) code with
          | Some p, _ =>
              growthPct (valueOrNull (Obj.get (pppData st) code) (yearEnd st))
                        (valueAt p (yearStart st))
          | None, Some g =>
              growthPct (valueOrNull (Obj.get (gdpData st) code) (yearEnd st))
                        (valueAt g (yearStart st))
          | None, None => JNull
          end ->
    finiteOrMissing (tr_gdp r) /\ finiteOrMissing (tr_ppp r) /\
    finiteOrMissing (tr_ratio r) /\ finiteOrMissing (tr_growth r)).
  { intros r ->. simpl.
    split; [exact Hgv|]. split; [exact Hpv|].
    split; [now apply ratioOf_finite|].
    destruct (String.eqb (currentView st) "ppp").
    - destruct (Obj.get (pppData st) code) as [p|] eqn:Ep.
      + apply growthPct_finite; [exact Hpv|]. now apply (Hp code).
      + destruct (Obj.get (gdpData st) code) as [g|] eqn:Eg.
        * apply growthPct_finite; [exact Hgv|]. now apply (Hg code).
        * right. now left.
    - destruct (Obj.get (gdpData st) code) as [g|] eqn:Eg.
      + apply growthPct_finite; [exact Hgv|]. now apply (Hg code).
      + right. now left. }
  destruct (Obj.get (gdpData st) code) as [g|] eqn:Eg;
    destruct (Obj.get (pppData st) code) as [p|] eqn:Ep;
    try discriminate; intros Heq; apply Hrow; congruence.
Qed.

Lemma tableKey_plain field r :
  finiteOrMissing (tr_gdp r) -> finiteOrMissing (tr_ppp r) ->
  finiteOrMissing (tr_ratio r) -> finiteOrMissing (tr_growth r) ->
  plain (tableKey field r).
Proof.
  intros Hg Hp Hr Hw. unfold tableKey.
  destruct (String.eqb field "ppp");
    [apply SortFacts.orNum_plain; [assumption | right; now exists 0%R]|].
  destruct (String.eqb field "ratio");
    [apply SortFacts.orNum_plain; [assumption | right; now exists 0%R]|].
  destruct (String.eqb field "growth");
    apply SortFacts.orNum_plain; try assumption; [now left | right; now exists 0%R].
Qed.

Lemma tableCompare_key localeCompare field asc a b :
  field <> "name" ->
  compareRows localeCompare field asc a b =
  if asc then Num.sub (tableKey field a) (tableKey field b)
  else Num.sub (tableKey field b) (tableKey field a).
Proof.
  intros Hname. unfold compareRows, tableKey. cbv zeta.
  apply String.eqb_neq in Hname. rewrite Hname.
  destruct (String.eqb field "gdp") eqn:Egdp.
  - apply String.eqb_eq in Egdp. rewrite Egdp. reflexivity.
  - destruct (String.eqb field "ppp"); [reflexivity|].
    destruct (String.eqb field "ratio"); [reflexivity|].
    destruct (String.eqb field "growth"); reflexivity.
Qed.

Lemma tableRow_code st code row : tableRow st code = Some row -> tr_code row = code.
Proof.
  unfold tableRow. cbv zeta.
  destruct (Obj.get (gdpData st) code), (Obj.get (pppData st) code);
    try discriminate; intros [= <-]; reflexivity.
Qed.

Lemma tableRow_hasData st code :
  hasData st code = true <-> exists row, tableRow st code = Some row.
Proof.
  unfold hasData, tableRow. cbv zeta.
  destruct (Obj.get (gdpData st) code), (Obj.get (pppData st) code);
    split; try discriminate; eauto; intros [row H]; discriminate.
Qed.

(** The codes of the rows before sorting. *)
Lemma unsorted_codes st codes :
  map tr_code (flat_map (fun code => match tableRow st code with
                                     | Some row => [row]
                                     | None => []
                                     end) codes)
  = filter (hasData st) codes.
Proof.
  induction codes as [|code codes IH]; simpl; [reflexivity|].
  destruct (tableRow st code) as [row|] eqn:E.
  - assert (H : hasData st code = true) by (apply tableRow_hasData; eauto).
    rewrite H. simpl. rewrite (tableRow_code _ _ _ E). now f_equal.
  - destruct (hasData st code) eqn:H; [|exact IH].
    apply tableRow_hasData in H. destruct H as [row H]. congruence.
Qed.

End TableFacts.

(** X19 (updateDataTable: the rows).  Under every sort field and
    direction the table has one row for each shown code found in the
    active GDP store or the active PPP store, and no other row; the
    shown codes are the selection, or every country of the list when
    nothing is selected. *)
Theorem tableData_codes
  (localeCompare : string -> string -> jsnum)
  (dataSortField : string) (dataSortAsc : bool)
  (st : App.State) (countries : list Countries.Country) :
  Permutation
    (map App.tr_code
         (Table.tableData localeCompare dataSortField dataSortAsc st countries))
    (filter (TableKey.hasData st)
            (if Nat.eqb (List.length (App.selectedCountries st)) 0
             then map Countries.c_code countries
             else App.selectedCountries st)).
Proof.
  unfold Table.tableData.
  rewrite (Permutation_map App.tr_code (RankFacts.sort_perm _ _)).
  rewrite TableFacts.unsorted_codes. unfold Table.codesToShow.
  destruct (App.selectedCountries st); reflexivity.
Qed.

(** X20 (updateDataTable: the order).  When the stores hold only
    finite numbers and missing values and the table is sorted by a
    field other than the name, its rows stand in the order of that
    field's number, ascending or descending as the direction says: a
    missing or zero GDP, PPP or ratio counts as 0, a missing or zero
    growth as minus infinity. *)
Theorem tableData_sorted_by_column
  (localeCompare : string -> string -> jsnum)
  (dataSortField : string) (dataSortAsc : bool)
  (st : App.State) (countries : list Countries.Country) :
  dataSortField <> "name" ->
  TableKey.finiteStore (App.gdpData st) ->
  TableKey.finiteStore (App.pppData st) ->
  TableKey.finiteStore (App.gdpCurrent (App.rawData st)) ->
  TableKey.finiteStore (App.pppCurrent (App.rawData st)) ->
  SortKey.inOrder (TableKey.tableKey dataSortField) dataSortAsc
    (Table.tableData localeCompare dataSortField dataSortAsc st countries).
Proof.
  intros Hname Hg Hp Hgc Hpc. unfold Table.tableData.
  rewrite (RankingOrder.sort_ext _
             (fun a b => if dataSortAsc
                         then Num.sub (TableKey.tableKey dataSortField a)
                                      (TableKey.tableKey dataSortField b)
                         else Num.sub (TableKey.tableKey dataSortField b)
                                      (TableKey.tableKey dataSortField a)));
    [|intros a b; now apply TableFacts.tableCompare_key].
  apply SortFacts.sort_by_key.
  rewrite Forall_forall. intros row Hrow.
  apply in_flat_map in Hrow. destruct Hrow as [code [_ Hrow]].
  destruct (App.tableRow st code) as [r|] eqn:E; [|contradiction].
  destruct Hrow as [<-|[]].
  destruct (TableFacts.tableRow_finite st code r Hg Hp Hgc Hpc E)
    as (H1 & H2 & H3 & H4).
  now apply TableFacts.tableKey_plain.
Qed.

(** A store whose listed values are all finite or missing. *)
Lemma finiteStore_intro (store : SeriesStore) :
  Forall (fun entry =>
            Forall (fun cell => Standing.finiteOrMissing (snd cell))
                   (values (snd entry))) store ->
  TableKey.finiteStore store.
Proof.
  intros Hall code ts year Hget. apply get_In in Hget.
  rewrite Forall_forall in Hall. specialize (Hall _ Hget). simpl in Hall.
  unfold App.valueAt.
  destruct (Obj.get (values ts) (App.yearKey year)) as [v|] eqn:E;
    [|now left].
  apply get_In in E. rewrite Forall_forall in Hall. exact (Hall _ E).
Qed.

Lemma tableData_sorted_by_column_witness :
  SortKey.inOrder (TableKey.tableKey "gdp") false
    (Table.tableData SampleRank.noCollation "gdp" false SampleRank.state
      [Countries.mkCountry "ALB" "Albania";
       Countries.mkCountry "BOL" "Bolivia";
       Countries.mkCountry "CHL" "Chile"]).
Proof.
  assert (Hstore : TableKey.finiteStore SampleRank.store).
  { apply finiteStore_intro. unfold SampleRank.store, SampleRank.yearOnly.
    repeat (apply Forall_cons || apply Forall_nil); finite_or_missing. }
  assert (Hempty : TableKey.finiteStore []).
  { apply finiteStore_intro. constructor. }
  apply (tableData_sorted_by_column SampleRank.noCollation "gdp" false
           SampleRank.state
      [Countries.mkCountry "ALB" "Albania";
       Countries.mkCountry "BOL" "Bolivia";
       Countries.mkCountry "CHL" "Chile"]).
  - discriminate.
  - exact Hstore.
  - exact Hempty.
  - exact Hstore.
  - exact Hempty.
Defined.

(** ** The insights *)

Module InsightFacts.
Import App SortKey Standing Invariants.

(** What the entries before the sort are. *)
Lemma found_inv st c :
  In c (flat_map (fun code => match Obj.get (dataSource st) code with
                              | Some country => [insightStat st code country]
                              | None => []
                              end)
                 (selectedCountries st)) <->
  exists code ts, In code (selectedCountries st) /\
                  Obj.get (dataSource st) code = Some ts /\
                  c = insightStat st code ts.
Proof.
  rewrite in_flat_map. split.
  - intros [code [Hin Hc]].
    destruct (Obj.get (dataSource st) code) as [ts|] eqn:E; [|contradiction].
    destruct Hc as [<-|[]]. now exists code, ts.
  - intros [code [ts [Hin [Hget ->]]]]. exists code. split; [exact Hin|].
    rewrite Hget. now left.
Qed.

Lemma insightStats_In st c :
  In c (insightStats st) <->
  Val.truthy (is_endVal c) = true /\
  exists code ts, In code (selectedCountries st) /\
                  Obj.get (dataSource st) code = Some ts /\
                  c = insightStat st code ts.
Proof.
  unfold insightStats. cbv zeta. split.
  - intros H. apply RankFacts.sort_In in H. apply filter_In in H.
    destruct H as [H Ht]. split; [exact Ht|]. now apply found_inv.
  - intros [Ht H]. apply found_inv in H.
    apply (Permutation_in _ (Permutation_sym (RankFacts.sort_perm _ _))).
    apply filter_In. now split.
Qed.

Lemma truthy_finite v :
  finiteOrMissing v -> Val.truthy v = true ->
  exists x, v = JNum (Fin x) /\ x <> 0%R.
Proof.
  intros [->|[->|[x ->]]]; simpl; try discriminate.
  destruct (Req_dec_T x 0); [discriminate|]. intros _. now exists x.
Qed.

End InsightFacts.

(** X21 (updateInsights: the leader).  When the values of the data
    source for the end year are finite numbers or missing, the leader
    the insights name, the first entry of countryStats, is a selected
    country of the data source whose end-year value is a nonzero
    number, and no selected country of the data source has a larger
    nonzero end-year value.  A country whose end-year value is zero or
    missing is never the leader, whatever the others hold. *)
Theorem insights_leader_is_largest
  (st : App.State) (leader : App.InsightStat) (rest : list App.InsightStat) :
  (forall code ts, Obj.get (App.dataSource st) code = Some ts ->
                   Standing.finiteOrMissing (App.valueAt ts (App.yearEnd st))) ->
  App.insightStats st = leader :: rest ->
  exists x,
    App.is_endVal leader = JNum (Fin x) /\ x <> 0%R /\
    (exists ts,
       In (App.is_code leader) (App.selectedCountries st) /\
       Obj.get (App.dataSource st) (App.is_code leader) = Some ts /\
       App.is_name leader = name ts /\
       App.valueAt ts (App.yearEnd st) = JNum (Fin x)) /\
    (forall code ts y,
       In code (App.selectedCountries st) ->
       Obj.get (App.dataSource st) code = Some ts ->
       App.valueAt ts (App.yearEnd st) = JNum (Fin y) ->
       y <> 0%R -> (y <= x)%R).
Proof.
  intros Hfin Hstats.
  assert (Hleader : In leader (App.insightStats st))
    by (rewrite Hstats; now left).
  apply InsightFacts.insightStats_In in Hleader.
  destruct Hleader as [Ht [code [ts [Hsel [Hget Heq]]]]].
  assert (Hend : App.is_endVal leader = App.valueAt ts (App.yearEnd st))
    by (rewrite Heq; reflexivity).
  destruct (InsightFacts.truthy_finite _ (Hfin _ _ Hget)) as [x [Hx Hx0]];
    [now rewrite <- Hend|].
  exists x. split; [now rewrite Hend|]. split; [exact Hx0|]. split.
  { exists ts. rewrite Heq. simpl. auto. }
  intros code' ts' y Hsel' Hget' Hy Hy0.
  assert (Hin : In (App.insightStat st code' ts') (App.insightStats st)).
  { apply InsightFacts.insightStats_In. split.
    - simpl. rewrite Hy. simpl. now destruct (Req_dec_T y 0).
    - now exists code', ts'. }
  assert (Hsorted : SortKey.inOrder Invariants.endKey false
                                    (App.insightStats st)).
  { unfold App.insightStats. cbv zeta.
    apply (SortFacts.sort_by_key Invariants.endKey false).
    rewrite Forall_forall. intros c Hc. apply filter_In in Hc.
    destruct Hc as [Hc Hct]. apply InsightFacts.found_inv in Hc.
    destruct Hc as [c' [t' [_ [Hg' ->]]]]. simpl in Hct.
    destruct (InsightFacts.truthy_finite _ (Hfin _ _ Hg') Hct) as [z [Hz _]].
    right. exists z. unfold Invariants.endKey. simpl. now rewrite Hz. }
  rewrite Hstats in Hin, Hsorted. unfold SortKey.inOrder in Hsorted.
  destruct Hin as [Hin|Hin].
  - rewrite Hin in Hend. simpl in Hend. rewrite Hy, Hx in Hend.
    injection Hend as ->. lra.
  - inversion Hsorted as [|? ? _ Hall]. subst.
    rewrite Forall_forall in Hall. specialize (Hall _ Hin).
    unfold Invariants.endKey in Hall. simpl in Hall.
    rewrite Hy, Hx in Hall. exact Hall.
Qed.

(** Chile leads the sample with 80, before Albania with 50. *)
Lemma sample_insightStats :
  App.insightStats SampleInsight.state
  = [SampleInsight.chile; SampleInsight.albania].
Proof.
  unfold App.insightStats. cbv zeta.
  change (flat_map _ (App.selectedCountries SampleInsight.state))
    with [App.insightStat SampleInsight.state "ALB"
            (SampleRank.yearOnly "Albania" (JNum (Fin 50)));
          App.insightStat SampleInsight.state "CHL"
            (SampleRank.yearOnly "Chile" (JNum (Fin 80)))].
  assert (HA : App.insightStat SampleInsight.state "ALB"
                 (SampleRank.yearOnly "Albania" (JNum (Fin 50)))
               = SampleInsight.albania).
  { unfold App.insightStat, SampleInsight.albania. cbv zeta.
    change (App.valueAt _ (App.yearEnd SampleInsight.state)) with (JNum (Fin 50)).
    change (App.valueAt _ (App.yearStart SampleInsight.state)) with JUndefined.
    unfold App.growthPct. rewrite andb_false_r. reflexivity. }
  assert (HC : App.insightStat SampleInsight.state "CHL"
                 (SampleRank.yearOnly "Chile" (JNum (Fin 80)))
               = SampleInsight.chile).
  { unfold App.insightStat, SampleInsight.chile. cbv zeta.
    change (App.valueAt _ (App.yearEnd SampleInsight.state)) with (JNum (Fin 80)).
    change (App.valueAt _ (App.yearStart SampleInsight.state)) with JUndefined.
    unfold App.growthPct. rewrite andb_false_r. reflexivity. }
  rewrite HA, HC. unfold SampleInsight.albania, SampleInsight.chile.
  cbn [filter App.is_endVal].
  rewrite !NumFacts.truthy_Fin by lra.
  unfold App.sort. cbn [fold_right App.sortInsert App.is_endVal Val.toNumber].
  rewrite NumFacts.sub_Fin.
  unfold Num.gt, Num.lt, Num.zero. js_decide. reflexivity.
Qed.

Lemma insights_leader_is_largest_witness :
  App.insightStats SampleInsight.state
  = [SampleInsight.chile; SampleInsight.albania] /\
  exists x,
    App.is_endVal SampleInsight.chile = JNum (Fin x) /\ x <> 0%R /\
    (exists ts,
       In (App.is_code SampleInsight.chile)
          (App.selectedCountries SampleInsight.state) /\
       Obj.get (App.dataSource SampleInsight.state)
               (App.is_code SampleInsight.chile) = Some ts /\
       App.is_name SampleInsight.chile = name ts /\
       App.valueAt ts (App.yearEnd SampleInsight.state) = JNum (Fin x)) /\
    Forall (fun code =>
              forall ts y,
                In code (App.selectedCountries SampleInsight.state) ->
                Obj.get (App.dataSource SampleInsight.state) code = Some ts ->
                App.valueAt ts (App.yearEnd SampleInsight.state) = JNum (Fin y) ->
                y <> 0%R -> (y <= x)%R)
           ["ALB"; "CHL"].
Proof.
  split; [exact sample_insightStats|].
  destruct (insights_leader_is_largest SampleInsight.state SampleInsight.chile
                                       [SampleInsight.albania])
    as [x (Hx & Hx0 & Hts & Hmax)].
  - change (App.dataSource SampleInsight.state) with SampleRank.store.
    intros code ts Hget.
    assert (Hstore : TableKey.finiteStore SampleRank.store).
    { apply finiteStore_intro. unfold SampleRank.store, SampleRank.yearOnly.
      repeat (apply Forall_cons || apply Forall_nil); finite_or_missing. }
    now apply (Hstore code).
  - exact sample_insightStats.
  - exists x. split; [exact Hx|]. split; [exact Hx0|]. split; [exact Hts|].
    repeat (apply Forall_cons || apply Forall_nil);
      intros ts y; apply Hmax.
Defined.

(** ** The rank in the tooltip *)

Module TooltipFacts.
Import App MapView Rankings.


Lemma countryStat_code st i k c : countryStat st i k = Some c -> code c = k.
Proof.
  unfold countryStat.
  destruct (Obj.get (gdpData st) k); [|discriminate].
  destruct (Val.isPresent _); [|discriminate].
  intros H. now inversion H.
Qed.

Lemma countryStat_present st i k :
  (exists c, countryStat st i k = Some c) <->
  Val.isPresent (valueAtOpt (Obj.get (gdpData st) k) (mapYear st)) = true.
Proof.
  unfold countryStat. cbv zeta.
  destruct (Obj.get (gdpData st) k) as [g|]; simpl.
  - destruct (Val.isPresent (valueAt g (mapYear st))).
    + split; [reflexivity|]. intros _. eexists. reflexivity.
    + split; [intros [c H]; discriminate|discriminate].
  - split; [intros [c H]; discriminate|discriminate].
Qed.


Lemma combine_seq_nth {B : Type} (l : list B) : forall start i b,
  nth_error l i = Some b ->
  In ((start + i)%nat, b) (combine (seq start (List.length l)) l).
Proof.
  induction l as [|x l IH]; intros start [|i] b H; simpl in *; try discriminate.
  - inversion H. subst. left. f_equal. lia.
  - right. replace (start + S i)%nat with (S start + i)%nat by lia.
    now apply IH.
Qed.



(** The regions that have an entry. *)
Lemma countryStats_present st k :
  (exists c, In c (countryStats st) /\ code c = k) <->
  Val.isPresent (valueAtOpt (Obj.get (gdpData st) k) (mapYear st)) = true.
Proof.
  unfold countryStats. split.
  - intros [c [Hc Hk]]. apply RankFacts.sort_In in Hc.
    unfold pushedStats in Hc. cbv zeta in Hc.
    apply in_flat_map in Hc. destruct Hc as [[i k'] [_ Hc]]. simpl in Hc.
    destruct (countryStat st i k') as [c'|] eqn:E; [|contradiction].
    destruct Hc as [->|[]].
    rewrite (countryStat_code _ _ _ _ E) in Hk. subst k'.
    apply (countryStat_present st i k). now exists c.
  - intros Hp.
    assert (Hin : In k (Obj.keys (gdpData st))).
    { destruct (Obj.get (gdpData st) k) eqn:E; [|discriminate].
      destruct (in_dec string_dec k (Obj.keys (gdpData st))) as [H|H];
        [exact H|].
      apply KeyFacts.get_None_keys in H. congruence. }
    apply In_nth_error in Hin. destruct Hin as [i Hi].
    pose proof (combine_seq_nth _ 0 i k Hi) as Hik. simpl in Hik.
    destruct (proj2 (countryStat_present st i k) Hp) as [c Hc].
    exists c. split; [|now apply countryStat_code in Hc].
    apply RankFacts.sort_In. unfold pushedStats. cbv zeta.
    apply in_flat_map. exists (i, k). split; [exact Hik|].
    simpl. rewrite Hc. now left.
Qed.



End TooltipFacts.



(** ** The fill of a region *)

Module FillFacts.
Import App MapView SortKey Invariants.

(** An entry of [countryStats] carries the value the store holds for
    its code in the map year, and that value is present. *)
Lemma countryStats_entry st c :
  In c (countryStats st) ->
  exists g, Obj.get (gdpData st) (code c) = Some g /\
            gdp c = valueAt g (mapYear st) /\
            Val.isPresent (gdp c) = true.
Proof.
  unfold countryStats. intros Hc. apply RankFacts.sort_In in Hc.
  unfold pushedStats in Hc. cbv zeta in Hc.
  apply in_flat_map in Hc. destruct Hc as [[i k] [_ Hc]]. simpl in Hc.
  destruct (countryStat st i k) as [c'|] eqn:E; [|contradiction].
  destruct Hc as [->|[]]. unfold countryStat in E. cbv zeta in E.
  destruct (Obj.get (gdpData st) k) as [g|] eqn:Eg; [|discriminate].
  simpl in E.
  destruct (Val.isPresent (valueAt g (mapYear st))) eqn:Ep; [|discriminate].
  inversion E. subst. simpl. exists g. auto.
Qed.

(** The running maximum is at least its start and at least every
    value met. *)
Lemma fold_max l : forall acc,
  plain acc ->
  (forall c, In c l -> exists r, gdp c = JNum (Fin r)) ->
  plain (fold_left maxStep l acc) /\
  le acc (fold_left maxStep l acc) /\
  forall c, In c l -> le (Val.toNumber (gdp c)) (fold_left maxStep l acc).
Proof.
  induction l as [|x l IH]; intros acc Hacc Hfin; simpl.
  - split; [exact Hacc|]. split; [|intros c []].
    destruct Hacc as [->|[a ->]]; simpl; [exact I|lra].
  - destruct (Hfin x (or_introl eq_refl)) as [r Hr].
    assert (Hstep : plain (maxStep acc x) /\ le acc (maxStep acc x) /\
                    le (Fin r) (maxStep acc x)).
    { unfold maxStep. rewrite Hr. simpl.
      destruct Hacc as [->|[a ->]]; simpl.
      - split; [right; now exists r|]. split; [exact I|lra].
      - destruct (Rlt_dec a r); simpl.
        + split; [right; now exists r|]. split; lra.
        + split; [right; now exists a|]. split; lra. }
    destruct Hstep as (Hp & Hle & Hx).
    destruct (IH (maxStep acc x) Hp (fun c Hc => Hfin c (or_intror Hc)))
      as (Hp' & Hle' & Hall).
    split; [exact Hp'|]. split.
    + apply (SortFacts.le_trans _ (maxStep acc x)); assumption.
    + intros c [<-|Hc]; [|now apply Hall].
      rewrite Hr. simpl Val.toNumber.
      apply (SortFacts.le_trans _ (maxStep acc x)); try assumption.
      right. now exists r.
Qed.

Lemma scaleMax_bound stats c r :
  (forall c', In c' stats -> exists r', gdp c' = JNum (Fin r')) ->
  In c stats -> gdp c = JNum (Fin r) ->
  exists m, scaleMax stats = Fin m /\ (r <= m)%R.
Proof.
  intros Hfin Hc Hr.
  destruct (fold_max stats NInf (or_introl eq_refl) Hfin) as (Hp & _ & Hall).
  specialize (Hall c Hc). rewrite Hr in Hall. simpl in Hall.
  change (fold_left maxStep stats NInf) with (scaleMax stats) in *.
  destruct Hp as [Hp|[m Hp]]; rewrite Hp in Hall |- *; simpl in Hall;
    [contradiction|].
  now exists m.
Qed.

Lemma Int_part_nonneg x : (0 <= x)%R -> (0 <= Int_part x)%Z.
Proof.
  intros Hx. destruct (base_Int_part x) as [_ H].
  destruct (Z.le_gt_cases 0 (Int_part x)) as [Hle|Hgt]; [exact Hle|].
  exfalso. assert (Int_part x <= -1)%Z by lia.
  apply IZR_le in H0. lra.
Qed.

(** A value between 1 and a maximum above 1 falls into one of the five
    buckets. *)
Lemma colorScale_palette noData v m :
  (1 <= v <= m)%R -> (1 < m)%R ->
  exists color, colorScale noData (Fin m) (JNum (Fin v)) = Some color /\
                In color colors.
Proof.
  intros Hv Hm.
  rewrite ScaleFacts.colorScale_bucket by lra. cbv zeta.
  assert (Hlm : (0 < ln m)%R) by now apply ScaleFacts.ln_pos.
  assert (Hlv : (0 <= ln v)%R).
  { destruct (Req_dec v 1) as [->|Hne]; [rewrite ln_1; lra|].
    left. apply ScaleFacts.ln_pos. lra. }
  assert (Hq : (0 <= ln v / ln m * 5)%R).
  { apply Rmult_le_pos; [|lra]. apply Rmult_le_pos; [exact Hlv|].
    left. now apply Rinv_0_lt_compat. }
  pose proof (Int_part_nonneg _ Hq) as Hz.
  destruct (Z.ltb_spec (Int_part (ln v / ln m * 5)) 0); [lia|].
  destruct (nth_error colors (Z.to_nat (Z.min (Int_part (ln v / ln m * 5)) 4)))
    as [color|] eqn:E.
  - exists color. split; [reflexivity|]. now apply nth_error_In in E.
  - apply nth_error_None in E. simpl in E. lia.
Qed.

End FillFacts.

(** X24 (renderMap: colorScale on the values of a year).  When every
    value the active GDP store holds for the map year is missing or a
    finite number of at least 1, and one of them is above 1, every
    region of the map gets a fill: the no-data colour when the store
    has no value for it, one of the five colours of the palette when it
    has.  The fill is never undefined. *)
Theorem map_fill_defined
  (toFixed : jsnum -> nat -> string) (mapNoData : string)
  (st : App.State) (feature : MapView.Feature) :
  (forall code ts,
     Obj.get (App.gdpData st) code = Some ts ->
     App.valueAt ts (App.mapYear st) = JUndefined \/
     App.valueAt ts (App.mapYear st) = JNull \/
     exists r, App.valueAt ts (App.mapYear st) = JNum (Fin r) /\ (1 <= r)%R) ->
  (exists code ts r,
     Obj.get (App.gdpData st) code = Some ts /\
     App.valueAt ts (App.mapYear st) = JNum (Fin r) /\ (1 < r)%R) ->
  let path := MapView.featurePath toFixed mapNoData st
                                  (MapView.countryStats st) feature in
  exists color,
    MapView.mp_fill path = Some color /\
    (Val.isPresent (MapView.tip_gdp path) = false ->
     color = MapView.noDataColor mapNoData) /\
    (Val.isPresent (MapView.tip_gdp path) = true -> In color MapView.colors).
Proof.
  intros Hvalues [code0 [ts0 [r0 (Hget0 & Hval0 & Hr0)]]] path.
  unfold path, MapView.featurePath. cbv zeta. simpl.
  assert (Hfin : forall c, In c (MapView.countryStats st) ->
                           exists r, MapView.gdp c = JNum (Fin r) /\ (1 <= r)%R).
  { intros c Hc. destruct (FillFacts.countryStats_entry st c Hc)
      as [g (Hg & Hgdp & Hp)].
    destruct (Hvalues _ _ Hg) as [H|[H|H]];
      [rewrite Hgdp, H in Hp; discriminate
      |rewrite Hgdp, H in Hp; discriminate|].
    now rewrite Hgdp. }
  assert (Hfin' : forall c, In c (MapView.countryStats st) ->
                            exists r, MapView.gdp c = JNum (Fin r)).
  { intros c Hc. destruct (Hfin c Hc) as [r [Hr _]]. now exists r. }
  (* the entry of a code whose value is present *)
  assert (Hentry : forall k g r,
            Obj.get (App.gdpData st) k = Some g ->
            App.valueAt g (App.mapYear st) = JNum (Fin r) ->
            exists c, In c (MapView.countryStats st) /\
                      MapView.gdp c = JNum (Fin r)).
  { intros k g r Hg Hr.
    destruct (proj2 (TooltipFacts.countryStats_present st k)) as [c [Hc Hk]].
    { rewrite Hg. simpl. now rewrite Hr. }
    exists c. split; [exact Hc|].
    destruct (FillFacts.countryStats_entry st c Hc) as [g' (Hg' & Hgdp & _)].
    rewrite Hk, Hg in Hg'. inversion Hg'. subst g'. now rewrite Hgdp. }
  (* the maximum is above 1 *)
  destruct (Hentry _ _ _ Hget0 Hval0) as [c0 [Hc0 Hgdp0]].
  destruct (FillFacts.scaleMax_bound _ c0 r0 Hfin' Hc0 Hgdp0) as [m [Hm Hr0m]].
  destruct (Obj.get (App.gdpData st) (MapView.f_code feature)) as [g|] eqn:Eg;
    simpl.
  - destruct (Hvalues _ _ Eg) as [H|[H|[r [H Hr]]]]; rewrite H; simpl.
    + eexists. split; [reflexivity|]. split; [reflexivity|discriminate].
    + eexists. split; [reflexivity|]. split; [reflexivity|discriminate].
    + destruct (Hentry _ _ _ Eg H) as [c [Hc Hgdp]].
      destruct (FillFacts.scaleMax_bound _ c r Hfin' Hc Hgdp) as [m' [Hm' Hrm]].
      rewrite Hm in Hm'. inversion Hm'. subst m'. rewrite Hm.
      destruct (FillFacts.colorScale_palette (MapView.noDataColor mapNoData) r m)
        as [color [Hcolor Hin]]; [lra|lra|].
      exists color. split; [exact Hcolor|]. split; [discriminate|].
      intros _. exact Hin.
  - eexists. split; [reflexivity|]. split; [reflexivity|discriminate].
Qed.

Lemma map_fill_defined_witness :
  exists color,
    MapView.mp_fill
      (MapView.featurePath (fun _ _ => EmptyString) EmptyString SampleRank.state
         (MapView.countryStats SampleRank.state)
         (MapView.mkFeature "ALB" "Albania" None)) = Some color /\
    In color MapView.colors.
Proof.
  destruct (map_fill_defined (fun _ _ => EmptyString) EmptyString SampleRank.state
              (MapView.mkFeature "ALB" "Albania" None))
    as [color (Hfill & _ & Hin)].
  - intros code ts Hget. apply get_In in Hget.
    destruct Hget as [Heq|[Heq|[Heq|[]]]]; inversion Heq; subst.
    + right. right. exists 50%R. split; [reflexivity|lra].
    + right. left. reflexivity.
    + right. right. exists 80%R. split; [reflexivity|lra].
  - exists "CHL", (SampleRank.yearOnly "Chile" (JNum (Fin 80))), 80%R.
    split; [reflexivity|]. split; [reflexivity|lra].
  - exists color. split; [exact Hfill|]. apply Hin. reflexivity.
Defined.

(** ** The rankings in their first order *)

Module RankOrderFacts.
Import App MapView Rankings.

(** An object stands at the place where it is in the array. *)
Lemma indexOf_place pre c post :
  NoDup (map ref (pre ++ c :: post)) ->
  indexOf (pre ++ c :: post) c = Z.of_nat (List.length pre).
Proof.
  induction pre as [|x pre IH]; intros Hnd.
  - simpl. now rewrite Nat.eqb_refl.
  - cbn [app indexOf List.length].
    cbn [app map] in Hnd. inversion Hnd as [|? ? Hnotin Hnd']. subst.
    destruct (Nat.eqb_spec (ref x) (ref c)) as [Heq|Hne].
    + exfalso. apply Hnotin. rewrite Heq. apply in_map.
      apply in_or_app. right. now left.
    + rewrite (IH Hnd').
      destruct (Z.ltb_spec (Z.of_nat (List.length pre)) 0); lia.
Qed.

Lemma indexOf_increasing l : forall pre,
  NoDup (map ref (pre ++ l)) ->
  StronglySorted (fun a b => (indexOf (pre ++ l) a < indexOf (pre ++ l) b)%Z) l.
Proof.
  induction l as [|c l IH]; intros pre Hnd; [constructor|].
  constructor.
  - specialize (IH (pre ++ [c])%list).
    rewrite <- app_assoc in IH. simpl in IH. now apply IH.
  - rewrite Forall_forall. intros b Hb.
    apply in_split in Hb. destruct Hb as [q1 [q2 ->]].
    rewrite (indexOf_place pre c (q1 ++ b :: q2) Hnd).
    replace (pre ++ c :: q1 ++ b :: q2)%list
      with ((pre ++ c :: q1) ++ b :: q2)%list in *
      by (rewrite <- app_assoc; reflexivity).
    rewrite (indexOf_place (pre ++ c :: q1) b q2 Hnd).
    rewrite length_app. simpl. lia.
Qed.

Lemma sorted_filter {A : Type} (R : A -> A -> Prop) (f : A -> bool) l :
  StronglySorted R l -> StronglySorted R (filter f l).
Proof.
  induction 1 as [|x l Hs IH Hall]; simpl; [constructor|].
  destruct (f x); [|exact IH].
  constructor; [exact IH|].
  rewrite Forall_forall in Hall |- *. intros y Hy.
  apply filter_In in Hy. now apply Hall.
Qed.

(** Sorting leaves a list alone when no entry has to go behind a later
    one. *)
Lemma sort_in_order {A : Type} (cmp : A -> A -> jsnum) l :
  StronglySorted (fun a b => Num.gt (cmp a b) Num.zero = false) l ->
  sort cmp l = l.
Proof.
  induction 1 as [|x l Hs IH Hall]; simpl; [reflexivity|].
  change (fold_right (sortInsert cmp) [] l) with (sort cmp l). rewrite IH.
  destruct l as [|y l]; [reflexivity|]. cbn [sortInsert].
  inversion Hall as [|? ? Hxy _]. subst. now rewrite Hxy.
Qed.

Lemma sorted_weaken {A : Type} (R S : A -> A -> Prop) l :
  (forall a b, R a b -> S a b) -> StronglySorted R l -> StronglySorted S l.
Proof.
  intros HRS. induction 1 as [|x l Hs IH Hall]; constructor; [exact IH|].
  rewrite Forall_forall in Hall |- *. auto.
Qed.

Lemma sorted_map {A B : Type} (R : B -> B -> Prop) (f : A -> B) l :
  StronglySorted (fun a b => R (f a) (f b)) l -> StronglySorted R (map f l).
Proof.
  induction 1 as [|x l Hs IH Hall]; simpl; constructor; [exact IH|].
  now rewrite Forall_map.
Qed.

Lemma filterRows_sorted (R : CountryStat -> CountryStat -> Prop) rs :
  StronglySorted R (globalRankingsData rs) -> StronglySorted R (filterRows rs).
Proof.
  unfold filterRows. intros H.
  destruct (String.eqb (rankingsSearchQuery rs) EmptyString); [exact H|].
  now apply sorted_filter.
Qed.

End RankOrderFacts.

(** X25 (renderGlobalRankings under the sort the page starts with).
    With the table sorted by rank, ascending, as its variables are
    initialised, and the entries renderMap handed over, the rows are
    the entries that pass the search, in the order of countryStats, and
    their rank cells increase strictly from top to bottom. *)
Theorem rankings_by_rank_keep_order
  (localeCompare : string -> string -> jsnum)
  (st : App.State) (rs : Rankings.RankingsState) (selected : list string) :
  Rankings.globalRankingsData rs = MapView.countryStats st ->
  Rankings.rankingsSortField rs = "rank" ->
  Rankings.rankingsSortAsc rs = true ->
  let rows := Rankings.renderGlobalRankings localeCompare rs selected in
  map Rankings.entry rows = Rankings.filterRows rs /\
  StronglySorted Z.lt (map Rankings.originalRank rows) /\
  (Rankings.rankingsSearchQuery rs = EmptyString ->
   map Rankings.entry rows = MapView.countryStats st).
Proof.
  intros Hdata Hfield Hasc rows.
  assert (Hnd : NoDup (map MapView.ref (Rankings.globalRankingsData rs))).
  { rewrite Hdata. apply RankFacts.countryStats_refs. }
  assert (Hinc : StronglySorted
                   (fun a b => (Rankings.indexOf (Rankings.globalRankingsData rs) a
                                < Rankings.indexOf (Rankings.globalRankingsData rs) b)%Z)
                   (Rankings.filterRows rs)).
  { apply RankOrderFacts.filterRows_sorted.
    apply (RankOrderFacts.indexOf_increasing _ [] Hnd). }
  assert (Hsort : App.sort (Rankings.compareRows localeCompare rs)
                           (Rankings.filterRows rs)
                  = Rankings.filterRows rs).
  { apply RankOrderFacts.sort_in_order.
    eapply RankOrderFacts.sorted_weaken; [|exact Hinc].
    intros a b Hab. unfold Rankings.compareRows. cbv zeta.
    rewrite Hfield, Hasc. simpl String.eqb. cbv iota.
    unfold Num.ofZ. rewrite NumFacts.sub_Fin.
    unfold Num.gt, Num.lt, Num.zero.
    apply IZR_lt in Hab.
    match goal with
    | |- context [Rlt_dec ?x ?y] => destruct (Rlt_dec x y) as [Hlt|Hge]
    end; [|reflexivity].
    exfalso. lra. }
  assert (Hentries : map Rankings.entry rows = Rankings.filterRows rs).
  { unfold rows, Rankings.renderGlobalRankings. cbv zeta.
    rewrite map_map. cbn [Rankings.entry]. rewrite map_id. exact Hsort. }
  split; [exact Hentries|]. split.
  - unfold rows, Rankings.renderGlobalRankings. cbv zeta.
    rewrite map_map. cbn [Rankings.originalRank]. rewrite Hsort.
    apply RankOrderFacts.sorted_map.
    eapply RankOrderFacts.sorted_weaken; [|exact Hinc].
    intros a b Hab. cbv beta in Hab |- *. lia.
  - intros Hquery. rewrite Hentries. unfold Rankings.filterRows.
    rewrite Hquery. simpl. exact Hdata.
Qed.

Lemma rankings_by_rank_keep_order_witness :
  map Rankings.entry
      (Rankings.renderGlobalRankings SampleRank.noCollation
         (Rankings.updateGlobalRankings (MapView.countryStats SampleRank.state)
                                        SampleRank.table) ["CHL"])
  = MapView.countryStats SampleRank.state.
Proof.
  apply (rankings_by_rank_keep_order SampleRank.noCollation SampleRank.state
           (Rankings.updateGlobalRankings (MapView.countryStats SampleRank.state)
                                          SampleRank.table) ["CHL"]);
    reflexivity.
Defined.
